(** * pdf-to-ppt-video: a shallow embedding of the pipeline stages

  The development follows the Python sources module by module:
  - [Py]             the fragments of Python's [str] and [list] API the code uses;
  - [PdfParser]      src/pdf_parser.py     (per-page digital/OCR triage);
  - [Gemini]         the credential-rotating [_call_gemini] wrapper that
                     src/summarizer.py and src/image_generator.py both carry;
  - [ImageGenerator] src/image_generator.py (icon query fallback chain);
  - [PdfSlideCreator] src/pdf_slide_creator.py (greedy word wrap);
  - [PdfPages]       src/pdf_slide_creator.py (the pages drawn on the canvas);
  - [Summarizer]     src/summarizer.py     (slide extraction and fallback);
  - [VideoCreator]   src/video_creator.py  (narration and clip pairing).

  External collaborators (PDF library, OCR engine, AI text service, icon
  service, speech service) are oracles: functions handed to the model, whose
  answers are arbitrary.  Text is modelled as [string], every character a
  code point below 256. *)

From Stdlib Require Import ZArith QArith.QArith_base Ascii String.
From stdpp Require Import gmap strings list.

Local Open Scope string_scope.
Local Open Scope list_scope.
Local Open Scope nat_scope.

(* ===================================================================== *)
(** ** Python string and list primitives *)
(* ===================================================================== *)

Module Py.

(** [str.isspace] on code points below 256: TAB..CR, FS..US, space,
    NEL (0x85) and NBSP (0xa0). *)
Definition isspace (c : ascii) : bool :=
  let n := nat_of_ascii c in
  ((9 <=? n) && (n <=? 13)) || ((28 <=? n) && (n <=? 32))
  || (n =? 133) || (n =? 160).

(** [str.lower] on code points below 256: A-Z and the Latin-1 capitals. *)
Definition lower_char (c : ascii) : ascii :=
  let n := nat_of_ascii c in
  if ((65 <=? n) && (n <=? 90))
     || ((192 <=? n) && (n <=? 222) && negb (n =? 215))
  then ascii_of_nat (n + 32) else c.

Fixpoint lower (s : string) : string :=
  match s with
  | EmptyString => EmptyString
  | String c s' => String (lower_char c) (lower s')
  end.

Fixpoint rev_onto (s acc : string) : string :=
  match s with
  | EmptyString => acc
  | String c s' => rev_onto s' (String c acc)
  end.

Definition rev (s : string) : string := rev_onto s EmptyString.

Fixpoint lstrip_by (p : ascii -> bool) (s : string) : string :=
  match s with
  | EmptyString => EmptyString
  | String c s' => if p c then lstrip_by p s' else s
  end.

Definition strip_by (p : ascii -> bool) (s : string) : string :=
  rev (lstrip_by p (rev (lstrip_by p s))).

(** [s.strip()] *)
Definition strip (s : string) : string := strip_by isspace s.

Fixpoint mem_char (c : ascii) (chars : string) : bool :=
  match chars with
  | EmptyString => false
  | String d chars' => if Ascii.eqb c d then true else mem_char c chars'
  end.

(** [s.strip(chars)] *)
Definition strip_chars (chars s : string) : string :=
  strip_by (fun c => mem_char c chars) s.

(** [s.split()]: maximal runs of non-whitespace characters. *)
Fixpoint split_ws_go (cur : string) (s : string) : list string :=
  match s with
  | EmptyString =>
      match cur with EmptyString => [] | _ => [rev cur] end
  | String c s' =>
      if isspace c
      then match cur with
           | EmptyString => split_ws_go EmptyString s'
           | _ => rev cur :: split_ws_go EmptyString s'
           end
      else split_ws_go (String c cur) s'
  end.

Definition split_ws (s : string) : list string := split_ws_go EmptyString s.

(** Whether a string holds a white-space character. *)
Fixpoint has_space (s : string) : bool :=
  match s with
  | EmptyString => false
  | String c s' => isspace c || has_space s'
  end.

(** [s.startswith(p)] *)
Fixpoint startswith (p s : string) : bool :=
  match p, s with
  | EmptyString, _ => true
  | String a p', String b s' => Ascii.eqb a b && startswith p' s'
  | String _ _, EmptyString => false
  end.

(** [needle in hay] for strings. *)
Fixpoint contains (needle hay : string) : bool :=
  startswith needle hay
  || match hay with
     | EmptyString => false
     | String _ hay' => contains needle hay'
     end.

(** [s.split(sep)] for a non-empty separator: left to right, matches do
    not overlap.  [skip] counts the characters of a separator match still
    to be passed over. *)
Fixpoint split_on_go (sep : string) (skip : nat) (cur : string) (s : string)
  : list string :=
  match s with
  | EmptyString => [rev cur]
  | String c s' =>
      match skip with
      | S k => split_on_go sep k cur s'
      | O =>
          if startswith sep s
          then rev cur :: split_on_go sep (String.length sep - 1) EmptyString s'
          else split_on_go sep 0 (String c cur) s'
      end
  end.

Definition split_on (sep s : string) : list string :=
  split_on_go sep 0 EmptyString s.

(** [sep.join(parts)] *)
Fixpoint join (sep : string) (parts : list string) : string :=
  match parts with
  | [] => EmptyString
  | [p] => p
  | p :: rest => p +:+ sep +:+ join sep rest
  end.

(** [s.replace(old, new)] for a non-empty [old]. *)
Definition replace (old new s : string) : string :=
  join new (split_on old s).

(** [s[:n]] for a non-negative [n]. *)
Fixpoint prefix_n (n : nat) (s : string) : string :=
  match n, s with
  | S k, String c s' => String c (prefix_n k s')
  | _, _ => EmptyString
  end.

(** [s[n:]] for a non-negative [n]. *)
Fixpoint suffix_from (n : nat) (s : string) : string :=
  match n, s with
  | S k, String _ s' => suffix_from k s'
  | _, _ => s
  end.

(** [s.endswith(p)] *)
Definition endswith (p s : string) : bool := startswith (rev p) (rev s).

(** [sorted(l)] for a list of strings: insertion into a sorted list, by code
    points. *)
Fixpoint insert_sorted (x : string) (l : list string) : list string :=
  match l with
  | [] => [x]
  | y :: l' => if String.leb x y then x :: l else y :: insert_sorted x l'
  end.

Definition sorted (l : list string) : list string :=
  foldr insert_sorted [] l.

(** [l[:n]] for any integer [n]: a negative bound counts from the end. *)
Definition slice_to {A} (n : Z) (l : list A) : list A :=
  if (0 <=? n)%Z then take (Z.to_nat n) l
  else take (length l - Z.to_nat (- n)) l.

(** [l[1:-1]] *)
Definition slice_1_m1 {A} (l : list A) : list A :=
  take (length l - 2) (drop 1 l).

(** [Path(p).name]: what follows the last slash. *)
Definition basename (path : string) : string :=
  default path (last (split_on "/" path)).

(** [Path(dir) / name], as [str] gives it on a POSIX system, for a file name
    (not empty, no slash, not a dot): pathlib keeps the root of [dir] (one
    slash, or two when [dir] starts with exactly two), drops the empty
    components and the components that are a single dot, and joins what is
    left by single slashes.  [dir_prefix dir] is the text before the file
    name: it is empty for the current directory. *)
Definition path_root (dir : string) : string :=
  if startswith "//" dir && negb (startswith "///" dir) then "//"
  else if startswith "/" dir then "/"
  else "".

Definition path_parts (dir : string) : list string :=
  filter (fun p => p <> EmptyString /\ p <> ".") (split_on "/" dir).

Definition dir_prefix (dir : string) : string :=
  path_root dir +:+ foldr (fun p rest => p +:+ "/" +:+ rest) "" (path_parts dir).

(** [x in l] for a list of strings. *)
Definition mem (x : string) (l : list string) : bool :=
  existsb (String.eqb x) l.

(** [str(n)] for a natural number. *)
Fixpoint dec_go (fuel n : nat) (acc : string) : string :=
  match fuel with
  | O => acc
  | S f =>
      let acc' := String (ascii_of_nat (48 + n mod 10)) acc in
      if n / 10 =? 0 then acc' else dec_go f (n / 10) acc'
  end.

Definition str_of_nat (n : nat) : string := dec_go (S n) n EmptyString.

(** [f"{n:02d}"] *)
Definition fmt_02d (n : nat) : string :=
  let s := str_of_nat n in
  if String.length s <? 2 then "0" +:+ s else s.

(** [int(s)] continued from the value [v] read so far: every character
    counts as a decimal digit. *)
Fixpoint int_go (v : nat) (s : string) : nat :=
  match s with
  | EmptyString => v
  | String c s' => int_go (10 * v + (nat_of_ascii c - 48)) s'
  end.

(** [range(start, stop, step)] for a positive step. *)
Definition range_step (start stop step : nat) : list nat :=
  (fun k => start + k * step) <$> seq 0 ((stop - start + (step - 1)) / step).

(** [enumerate(l, start)] *)
Fixpoint enumerate {A} (start : nat) (l : list A) : list (nat * A) :=
  match l with
  | [] => []
  | x :: l' => (start, x) :: enumerate (S start) l'
  end.

(** [zip(a, b)]: stops at the shorter argument. *)
Fixpoint zip {A B} (a : list A) (b : list B) : list (A * B) :=
  match a, b with
  | x :: a', y :: b' => (x, y) :: zip a' b'
  | _, _ => []
  end.

End Py.


(* ===================================================================== *)
(** ** src/pdf_parser.py *)
(* ===================================================================== *)

Module PdfParser.

(** The character threshold under which a page's digital text is not
    trusted. *)
Definition MIN_DIGITAL_TEXT_THRESHOLD : nat := 100.

(** A page, as the two external engines answer for it: [page.get_text()] of
    the PDF library and [pytesseract.image_to_string] on its raster. *)
Record page := Page {
  get_text : string;
  image_to_string : string
}.

(** The parser object.  [ocr_calls] is the trace of the pages handed to the
    OCR engine, oldest first; the other fields are the attributes of the
    class. *)
Record PDFParser := Parser {
  pdf_path : string;
  doc : list page;
  num_pages : nat;
  extraction_stats : gmap string nat;
  ocr_calls : list nat
}.

Definition fresh_stats : gmap string nat :=
  <["digital_pages" := 0]> (<["ocr_pages" := 0]> (<["hybrid_pages" := 0]> ∅)).

(** [PDFParser.__init__]: [None] is [FileNotFoundError]. *)
Definition init (path : string) (file : option (list page)) : option PDFParser :=
  match file with
  | None => None
  | Some pages =>
      Some {| pdf_path := path; doc := pages; num_pages := length pages;
              extraction_stats := fresh_stats; ocr_calls := [] |}
  end.

(** [stats[key] += 1]; [None] is [KeyError]. *)
Definition bump (key : string) (stats : gmap string nat) : option (gmap string nat) :=
  match stats !! key with
  | Some v => Some (<[key := v + 1]> stats)
  | None => None
  end.

Definition set_stats (p : PDFParser) (s : gmap string nat) : PDFParser :=
  {| pdf_path := pdf_path p; doc := doc p; num_pages := num_pages p;
     extraction_stats := s; ocr_calls := ocr_calls p |}.

(** [PDFParser._ocr_page]: one call to the OCR engine, recorded. *)
Definition _ocr_page (page_no : nat) (pg : page) (p : PDFParser) : string * PDFParser :=
  (image_to_string pg,
   {| pdf_path := pdf_path p; doc := doc p; num_pages := num_pages p;
      extraction_stats := extraction_stats p;
      ocr_calls := ocr_calls p ++ [page_no] |}).

(** [PDFParser.extract_text_from_page]; [None] is an exception
    ([IndexError] on the page lookup, [KeyError] on a counter). *)
Definition extract_text_from_page (page_no : nat) (p : PDFParser)
  : option (string * PDFParser) :=
  match doc p !! page_no with
  | None => None
  | Some pg =>
      let digital_text := Py.strip (get_text pg) in
      if MIN_DIGITAL_TEXT_THRESHOLD <? String.length digital_text then
        match bump "digital_pages" (extraction_stats p) with
        | Some s => Some (digital_text, set_stats p s)
        | None => None
        end
      else
        let '(raw, p1) := _ocr_page page_no pg p in
        let ocr_text := Py.strip raw in
        if String.length digital_text <? String.length ocr_text then
          match bump "ocr_pages" (extraction_stats p1) with
          | Some s => Some (ocr_text, set_stats p1 s)
          | None => None
          end
        else
          match bump "hybrid_pages" (extraction_stats p1) with
          | Some s => Some (digital_text, set_stats p1 s)
          | None => None
          end
  end.

(** [PDFParser.extract_all_text] (without the progress bar). *)
Fixpoint extract_all_text_loop (nums : list nat) (p : PDFParser)
  (all_text : list string) : option (list string * PDFParser) :=
  match nums with
  | [] => Some (all_text, p)
  | n :: rest =>
      match extract_text_from_page n p with
      | None => None
      | Some (text, p') =>
          let header := "
--- Page " +:+ Py.str_of_nat (n + 1) +:+ " ---
" in
          extract_all_text_loop rest p' (all_text ++ [header +:+ text])
      end
  end.

Definition extract_all_text (p : PDFParser) : option (string * PDFParser) :=
  match extract_all_text_loop (seq 0 (num_pages p)) p [] with
  | None => None
  | Some (all_text, p') => Some (Py.join "
" all_text, p')
  end.

(** One entry of [content['pages']]. *)
Record page_entry := PageEntry {
  page_num : nat;
  text : string;
  char_count : nat;
  word_count : nat
}.

(** The dictionary [extract_structured_content] returns, without the
    document metadata, which the PDF library supplies and nothing here
    reads. *)
Record content := Content {
  filename : string;
  c_num_pages : nat;
  pages : list page_entry;
  full_text : string;
  c_extraction_stats : gmap string nat
}.

Fixpoint process_pages (nums : list nat) (p : PDFParser)
  (acc : list page_entry) : option (list page_entry * PDFParser) :=
  match nums with
  | [] => Some (acc, p)
  | n :: rest =>
      match extract_text_from_page n p with
      | None => None
      | Some (page_text, p') =>
          process_pages rest p'
            (acc ++ [{| page_num := n + 1; text := page_text;
                        char_count := String.length page_text;
                        word_count := length (Py.split_ws page_text) |}])
      end
  end.

(** [PDFParser.extract_structured_content] *)
Definition extract_structured_content (p : PDFParser)
  : option (content * PDFParser) :=
  let p0 := set_stats p fresh_stats in
  match process_pages (seq 0 (num_pages p0)) p0 [] with
  | None => None
  | Some (entries, p') =>
      Some ({| filename := Py.basename (pdf_path p');
               c_num_pages := num_pages p';
               pages := entries;
               full_text := Py.join "

" (text <$> entries);
               c_extraction_stats := extraction_stats p' |}, p')
  end.

(** Steps 2 to 4 of [extract_text_from_page] without the bookkeeping: the
    text the triage picks for a page. *)
Definition best_text (pg : page) : string :=
  let digital_text := Py.strip (get_text pg) in
  let ocr_text := Py.strip (image_to_string pg) in
  if MIN_DIGITAL_TEXT_THRESHOLD <? String.length digital_text then digital_text
  else if String.length digital_text <? String.length ocr_text then ocr_text
       else digital_text.

(** Whether the triage sends a page to the OCR engine. *)
Definition needs_ocr (pg : page) : bool :=
  negb (MIN_DIGITAL_TEXT_THRESHOLD <? String.length (Py.strip (get_text pg))).

(** The entry of [content['pages']] for page [i] (from 0) of a document. *)
Definition entry_for (i : nat) (pg : page) : page_entry :=
  {| page_num := i + 1; text := best_text pg;
     char_count := String.length (best_text pg);
     word_count := length (Py.split_ws (best_text pg)) |}.

(** The three counters added up; [None] when one is missing. *)
Definition stats_total (s : gmap string nat) : option nat :=
  match s !! "digital_pages", s !! "ocr_pages", s !! "hybrid_pages" with
  | Some d, Some o, Some h => Some (d + o + h)
  | _, _, _ => None
  end.

(** The counters are all there: what [__init__] and the reset establish and
    every method keeps. *)
Definition counters_present (s : gmap string nat) : Prop :=
  is_Some (s !! "digital_pages") /\ is_Some (s !! "ocr_pages")
  /\ is_Some (s !! "hybrid_pages").

End PdfParser.

(* ===================================================================== *)
(** ** Exceptions *)
(* ===================================================================== *)

(** The Python exceptions the modelled code can raise. *)
Inductive exn :=
| ServiceError (msg : string)            (* raised by the AI service; [str(e) = msg] *)
| AllKeysFailed (last_error : option string)
| AttributeError
| TypeError
| KeyError
| ZeroDivisionError
| UnboundLocalError
| JSONDecodeError
| FileNotFoundError
| OSError
| SpeechError.

Inductive result (A : Type) :=
| Ok (a : A)
| Raise (e : exn).
Arguments Ok {A} a.
Arguments Raise {A} e.

(* ===================================================================== *)
(** ** The AI text service wrapper ([_call_gemini]) *)
(* ===================================================================== *)

(** [ContentSummarizer] (src/summarizer.py) and [IconSearchQueryGenerator]
    (src/image_generator.py) carry the same [_init_client], [_try_next_key]
    and [_call_gemini]; they are modelled once. *)
Module Gemini.

(** The prompts are fixed templates; a prompt is given by its template and
    the values spliced into it. *)
Inductive prompt :=
| KeyPointsPrompt (num_points : Z) (text : string)
| TitleSlidePrompt (head : string)
| IconQueryPrompt (slide_title bullets_text : string)
| AlternativeQueryPrompt (failed_text slide_title bullets_text : string).

Record request := Request {
  contents : prompt;
  temperature : Q;
  max_output_tokens : Z
}.

(** What one [client.models.generate_content] call does. *)
Inductive outcome :=
| Text (s : string)          (* returns; [response.text] is a string *)
| NoText                     (* returns; [response.text] is [None] *)
| Failure (msg : string).    (* raises an exception [e] with [str(e) = msg] *)

(** The service: its answer may depend on how many requests were sent
    before, on the credential of the client and on the request. *)
Definition service := nat -> string -> request -> outcome.

(** The attributes of the calling object.  [client] is the API key the
    current client was built with; [sent] counts the requests sent so far. *)
Record state := State {
  api_keys : list string;
  current_key_index : nat;
  client : option string;
  sent : nat
}.

Definition _init_client (st : state) : state :=
  match api_keys st !! current_key_index st with
  | Some key =>
      {| api_keys := api_keys st; current_key_index := current_key_index st;
         client := Some key; sent := sent st |}
  | None => st
  end.

(** [__init__] *)
Definition init (keys : list string) : state :=
  _init_client {| api_keys := keys; current_key_index := 0;
                  client := None; sent := 0 |}.

Definition _try_next_key (st : state) : bool * state :=
  let st1 := {| api_keys := api_keys st;
                current_key_index := current_key_index st + 1;
                client := client st; sent := sent st |} in
  if current_key_index st1 <? length (api_keys st1)
  then (true, _init_client st1)
  else (false, st1).

Definition rate_limit_terms : list string :=
  ["rate"; "quota"; "limit"; "resource_exhausted"].

(** [any(term in error_msg for term in [...])] on the lower-cased message *)
Definition is_rate_limit (msg : string) : bool :=
  existsb (fun term => Py.contains term (Py.lower msg)) rate_limit_terms.

Definition tick (st : state) : state :=
  {| api_keys := api_keys st; current_key_index := current_key_index st;
     client := client st; sent := sent st + 1 |}.

(** The [for attempt in range(len(self.api_keys))] loop of [_call_gemini],
    with [attempts] iterations left.  Leaving the loop (by [break] or by
    running out of iterations) raises "All API keys failed". *)
Fixpoint call_loop (svc : service) (req : request) (attempts : nat)
  (last_error : option string) (st : state) : result (option string) * state :=
  match attempts with
  | O => (Raise (AllKeysFailed last_error), st)
  | S k =>
      match client st with
      | None => (Raise AttributeError, st)
      | Some key =>
          match svc (sent st) key req with
          | Text s => (Ok (Some s), tick st)
          | NoText => (Ok None, tick st)
          | Failure msg =>
              if is_rate_limit msg then
                let '(switched, st') := _try_next_key (tick st) in
                if switched then call_loop svc req k (Some msg) st'
                else (Raise (AllKeysFailed (Some msg)), st')
              else (Raise (ServiceError msg), tick st)
          end
      end
  end.

Definition _call_gemini (svc : service) (req : request) (st : state)
  : result (option string) * state :=
  call_loop svc req (length (api_keys st)) None st.

(** The object is in the state [__init__] and the rotation leave it in while
    credentials remain: the client is the one of the current credential. *)
Definition on_key (st : state) (i : nat) : Prop :=
  current_key_index st = i /\ i < length (api_keys st)
  /\ client st = api_keys st !! i.


End Gemini.

(* ===================================================================== *)
(** ** src/image_generator.py *)
(* ===================================================================== *)

Module ImageGenerator.
Import Gemini.

Definition dquote : string := String (ascii_of_nat 34) EmptyString.
Definition squote : string := "'".

Definition stop_words : list string :=
  ["the"; "a"; "an"; "and"; "or"; "but"; "in"; "on"; "at"; "to"; "for";
   "of"; "with"; "by"; "from"; "up"; "about"; "into"; "through"; "during"].

(** The words of a title that are worth searching for: not a stop word,
    longer than three characters. *)
Definition important_words (title : string) : list string :=
  filter (fun w => negb (Py.mem w stop_words) && (3 <? String.length w) = true)
         (Py.strip_chars ",:;.!?" <$> Py.split_ws (Py.lower title)).

Definition generic_fallbacks : list string :=
  ["icon"; "symbol"; "graphic"; "element"; "concept"].

(** [IconSearchQueryGenerator._extract_alternative_from_title] *)
Definition _extract_alternative_from_title (title : string)
  (avoid_queries : list string) : string :=
  match List.find (fun c => negb (Py.mem c avoid_queries)) (important_words title) with
  | Some candidate => candidate
  | None =>
      match List.find (fun f => negb (Py.mem f avoid_queries)) generic_fallbacks with
      | Some fallback => fallback
      | None => "circle"
      end
  end.

(** [IconSearchQueryGenerator._fallback_query] *)
Definition _fallback_query (title : string) : string :=
  match important_words title with
  | w :: _ => w
  | [] => "document"
  end.

(** The clean-up both query generators apply to the answer of the service:
    strip white space, strip double quotes, strip single quotes, lower-case,
    then keep the first three words, joined by single spaces. *)
Definition clean_query (answer : string) : string :=
  let query :=
    Py.lower (Py.strip_chars squote (Py.strip_chars dquote (Py.strip answer))) in
  Py.join " " (take 3 (Py.split_ws query)).

Definition bullets_text (bullets : list string) : string :=
  Py.join "
" ((fun b => "- " +:+ b) <$> bullets).

Definition failed_text (failed_queries : list string) : string :=
  Py.join ", " ((fun q => squote +:+ q +:+ squote) <$> failed_queries).

(** [IconSearchQueryGenerator.generate_alternative_query].  Everything raised
    inside the [try] (a service error, or [.strip()] on a missing text) ends
    in the title heuristic. *)
Definition generate_alternative_query (svc : service) (slide_title : string)
  (bullets failed_queries : list string) (gen : state) : string * state :=
  let req := {| contents := AlternativeQueryPrompt (failed_text failed_queries)
                              slide_title (bullets_text bullets);
                temperature := 5 # 10; max_output_tokens := 20 |} in
  match _call_gemini svc req gen with
  | (Ok (Some answer), gen') =>
      let query := clean_query answer in
      if Py.mem query failed_queries
      then (_extract_alternative_from_title slide_title failed_queries, gen')
      else (query, gen')
  | (Ok None, gen') =>
      (_extract_alternative_from_title slide_title failed_queries, gen')
  | (Raise _, gen') =>
      (_extract_alternative_from_title slide_title failed_queries, gen')
  end.

(** [IconSearchQueryGenerator.generate_icon_query] *)
Definition generate_icon_query (svc : service) (slide_title : string)
  (bullets : list string) (gen : state) : string * state :=
  let req := {| contents := IconQueryPrompt slide_title (bullets_text bullets);
                temperature := 2 # 10; max_output_tokens := 20 |} in
  match _call_gemini svc req gen with
  | (Ok (Some answer), gen') => (clean_query answer, gen')
  | (Ok None, gen') => (_fallback_query slide_title, gen')
  | (Raise _, gen') => (_fallback_query slide_title, gen')
  end.

(** *** The icon service *)

(** One entry of the [icons] array of a search reply. *)
Record icon := Icon {
  thumbnail_url : option string;
  icon_url : option string
}.

Inductive search_reply :=
| SearchRaises                                    (* the request or [resp.json()] raises *)
| SearchReply (status_code : Z) (icons : list icon).

Inductive download_reply :=
| DownloadRaises
| DownloadReply (status_code : Z) (content : string).

(** The icon service.  Its answers may depend on the attempts made before
    (the query of each, and whether it got an icon). *)
Record icon_service := IconService {
  search : list (string * bool) -> string -> Z -> search_reply;
  download : list (string * bool) -> string -> download_reply
}.

(** What the fetcher leaves behind: the attempts made, oldest first, each
    with its search query and its result, and the files written. *)
Record world := World {
  attempts : list (string * bool);
  files : gmap string string
}.

(** Python's [a or b] on optional strings. *)
Definition or_str (a b : option string) : option string :=
  match a with
  | Some (String _ _) => a
  | _ => b
  end.

(** The body of [_try_search_download]: [Some content] when the search
    answers 200 with a first icon that has a URL and the download of that URL
    answers 200; [None] stands for every [return False]. *)
Definition fetch_icon (net : icon_service) (history : list (string * bool))
  (query : string) (limit : Z) : option string :=
  match search net history query limit with
  | SearchRaises => None
  | SearchReply status icons =>
      if negb (status =? 200)%Z then None
      else
        match icons with
        | [] => None
        | first :: _ =>
            match or_str (thumbnail_url first) (icon_url first) with
            | Some (String c u) =>
                match download net history (String c u) with
                | DownloadRaises => None
                | DownloadReply img_status content =>
                    if (img_status =? 200)%Z then Some content else None
                end
            | _ => None
            end
        end
  end.

(** [NounProjectIconFetcher._try_search_download] *)
Definition _try_search_download (net : icon_service) (query save_path : string)
  (limit : Z) (w : world) : bool * world :=
  match fetch_icon net (attempts w) query limit with
  | Some content =>
      (true, {| attempts := attempts w ++ [(query, true)];
                files := <[save_path := content]> (files w) |})
  | None =>
      (false, {| attempts := attempts w ++ [(query, false)]; files := files w |})
  end.

(** The [for retry_num in range(2)] loop of [search_and_download], with
    [retries] iterations left. *)
Fixpoint alternatives_loop (net : icon_service) (svc : service) (retries : nat)
  (save_path : string) (limit : Z) (slide_title : string) (bullets : list string)
  (failed_queries : list string) (w : world) (gen : state)
  : bool * list string * world * state :=
  match retries with
  | O => (false, failed_queries, w, gen)
  | S k =>
      let '(alt_query, gen') :=
        generate_alternative_query svc slide_title bullets failed_queries gen in
      let '(ok, w') := _try_search_download net alt_query save_path limit w in
      if ok then (true, failed_queries, w', gen')
      else alternatives_loop net svc k save_path limit slide_title bullets
             (failed_queries ++ [alt_query]) w' gen'
  end.

(** The constant the method declares, with the comment: Original + 2 Gemini
    retries + generic fallback.  The method never reads it. *)
Definition max_attempts : nat := 4.

(** "Attempt 2" of [search_and_download]: the first word alone, when the
    query has more than one word. *)
Definition first_word_attempt (net : icon_service) (query save_path : string)
  (limit : Z) (failed_queries : list string) (w : world)
  : bool * list string * world :=
  let words := Py.split_ws query in
  if 1 <? length words then
    let fallback_query := default EmptyString (head words) in
    let '(ok, w') := _try_search_download net fallback_query save_path limit w in
    (ok, if ok then failed_queries else failed_queries ++ [fallback_query], w')
  else (false, failed_queries, w).

(** "Attempt 3-4" of [search_and_download]: the alternatives, asked for only
    when [query_generator], [slide_title] and [bullets] (all [None] by
    default) are truthy. *)
Definition alternatives_attempts (net : icon_service) (svc : service)
  (save_path : string) (limit : Z) (query_generator : option state)
  (slide_title : option string) (bullets : option (list string))
  (failed_queries : list string) (w : world)
  : bool * list string * world * option state :=
  match query_generator, slide_title, bullets with
  | Some gen, Some (String c t), Some (b :: bs) =>
      let '(ok, failed, w', gen') :=
        alternatives_loop net svc 2 save_path limit (String c t) (b :: bs)
          failed_queries w gen in
      (ok, failed, w', Some gen')
  | _, _, _ => (false, failed_queries, w, query_generator)
  end.

(** [NounProjectIconFetcher.search_and_download] *)
Definition search_and_download (net : icon_service) (svc : service)
  (query save_path : string) (limit : Z) (query_generator : option state)
  (slide_title : option string) (bullets : option (list string)) (w : world)
  : bool * world * option state :=
  (* Attempt 1: the original query *)
  let '(ok1, w1) := _try_search_download net query save_path limit w in
  if ok1 then (true, w1, query_generator) else
  let '(ok2, failed2, w2) :=
    first_word_attempt net query save_path limit [query] w1 in
  if ok2 then (true, w2, query_generator) else
  let '(ok3, failed3, w3, gen3) :=
    alternatives_attempts net svc save_path limit query_generator slide_title
      bullets failed2 w2 in
  if ok3 then (true, w3, gen3) else
  (* Final fallback: generic icon *)
  let '(ok4, w4) := _try_search_download net "circle" save_path limit w3 in
  (ok4, w4, gen3).

(** *** Icons for a whole deck *)

(** What [generate_icons_for_slides] reads of slides.json: title and
    subtitle of the title slide, title and bullets of every content slide. *)
Record slide_content := SlideContent {
  slide_title : string;
  slide_bullets : list string
}.

Record slides_data := SlidesData {
  title_of_deck : string;
  subtitle_of_deck : string;
  content_slides : list slide_content
}.

(** [str(output_dir / f"slide_{i:02d}.png")], [output_dir] a [Path] *)
Definition icon_path (output_dir : string) (i : nat) : string :=
  Py.dir_prefix output_dir +:+ "slide_" +:+ Py.fmt_02d i +:+ ".png".

(** [str(output_dir / "title.png")] *)
Definition title_icon_path (output_dir : string) : string :=
  Py.dir_prefix output_dir +:+ "title.png".

(** One slide of the deck: ask for a query, run the chain, record the icon
    under [key] when the chain succeeds.  The query generator is one object,
    shared by the two calls and changed in place. *)
Definition icon_for (net : icon_service) (svc : service) (key path : string)
  (title : string) (bullets : list string) (icon_paths : gmap string string)
  (gen : state) (w : world) : gmap string string * state * world :=
  let '(query, gen1) := generate_icon_query svc title bullets gen in
  let '(success, w1, gen2) :=
    search_and_download net svc query path 1 (Some gen1) (Some title)
      (Some bullets) w in
  (if success then <[key := path]> icon_paths else icon_paths,
   default gen1 gen2, w1).

(** The [for i, slide in enumerate(data['content_slides'], 1)] loop of
    [generate_icons_for_slides]. *)
Fixpoint icons_loop (net : icon_service) (svc : service) (output_dir : string)
  (slides : list (nat * slide_content)) (icon_paths : gmap string string)
  (gen : state) (w : world) : gmap string string * state * world :=
  match slides with
  | [] => (icon_paths, gen, w)
  | (i, slide) :: rest =>
      let '(icon_paths', gen', w') :=
        icon_for net svc ("slide_" +:+ Py.str_of_nat i) (icon_path output_dir i)
          (slide_title slide) (slide_bullets slide) icon_paths gen w in
      icons_loop net svc output_dir rest icon_paths' gen' w'
  end.

(** [generate_icons_for_slides], with the pool of credentials of the query
    generator as a parameter. *)
Definition generate_icons_for_slides (net : icon_service) (svc : service)
  (keys : list string) (slides_json : option slides_data) (output_dir : string)
  (w : world) : result (gmap string string) * world :=
  match slides_json with
  | None => (Raise FileNotFoundError, w)
  | Some data =>
      let query_gen := init keys in
      let '(icon_paths, gen1, w1) :=
        icon_for net svc "title" (title_icon_path output_dir)
          (title_of_deck data) [subtitle_of_deck data] ∅ query_gen w in
      let '(icon_paths', _, w2) :=
        icons_loop net svc output_dir (Py.enumerate 1 (content_slides data))
          icon_paths gen1 w1 in
      (Ok icon_paths', w2)
  end.

(** An entry of the icon dictionary is as it should be: the title icon, or
    the icon of content slide [i] for some [i] of [first..last]. *)
Definition icon_entry_ok (output_dir : string) (first last : nat)
  (key path : string) : Prop :=
  (key = "title" /\ path = title_icon_path output_dir)
  \/ exists i, first <= i <= last
       /\ key = "slide_" +:+ Py.str_of_nat i /\ path = icon_path output_dir i.

(** Every attempt of the list failed. *)
Definition all_failed (l : list (string * bool)) : Prop :=
  Forall (fun a => a.2 = false) l.

(** The attempts one call makes, in order. *)
Definition attempts_of (w w' : world) : list (string * bool) :=
  drop (length (attempts w)) (attempts w').

(** The first word of a multi-word query, as a list of zero or one query. *)
Definition first_word (query : string) : list string :=
  if 1 <? length (Py.split_ws query) then take 1 (Py.split_ws query) else [].

End ImageGenerator.

(* ===================================================================== *)
(** ** src/pdf_slide_creator.py: word wrap *)
(* ===================================================================== *)

Module PdfSlideCreator.

(** [canvas.stringWidth(text, font, size)], in points.  The font metrics are
    the rendering library's; a measure is any function of this type. *)
Definition measure := string -> string -> Z -> Q.

(** [a < b] on measured widths. *)
Definition Qlt_bool (a b : Q) : bool := negb (Qle_bool b a).

(** Truthiness of a string: it is not empty. *)
Definition nonempty (s : string) : bool :=
  match s with EmptyString => false | String _ _ => true end.

(** The [for word in words] loop shared by [_wrap_text] and by the bullet
    drawing code of [_create_content_slide]. *)
Fixpoint wrap_loop (width : string -> Q) (max_width : Q) (words : list string)
  (lines : list string) (current_line : string) : list string * string :=
  match words with
  | [] => (lines, current_line)
  | word :: rest =>
      let test_line :=
        current_line +:+ (if nonempty current_line then " " else "") +:+ word in
      if Qlt_bool (width test_line) max_width
      then wrap_loop width max_width rest lines test_line
      else wrap_loop width max_width rest
             (if nonempty current_line then lines ++ [current_line] else lines)
             word
  end.

Definition wrap_words (width : string -> Q) (max_width : Q) (words : list string)
  : list string :=
  let '(lines, current_line) := wrap_loop width max_width words [] EmptyString in
  if nonempty current_line then lines ++ [current_line] else lines.

(** [PDFSlideCreator._wrap_text] *)
Definition _wrap_text (stringWidth : measure) (text : string) (max_width : Z)
  (font : string) (size : Z) : list string :=
  wrap_words (fun s => stringWidth s font size) (inject_Z max_width)
    (Py.split_ws text).

(** The wrapping of one bullet in [PDFSlideCreator._create_content_slide]:
    Helvetica 18 in a card 454 points wide with 20-point margins. *)
Definition content_width : Z := 454%Z.
Definition max_text_width : Z := (content_width - 40)%Z.

Definition bullet_lines (stringWidth : measure) (bullet : string) : list string :=
  wrap_words (fun s => stringWidth s "Helvetica" 18%Z) (inject_Z max_text_width)
    (Py.split_ws ("- " +:+ bullet)).

(** A line is acceptable when it fits, or is one of the words on its own. *)
Definition fits_or_word (width : string -> Q) (max_width : Q)
  (all_words : list string) (line : string) : Prop :=
  (width line < max_width)%Q \/ line ∈ all_words.


(** The lines the loop has produced so far, with the line in progress
    appended when it is not empty (what lines 333-334 do at the end). *)
Definition flush (lines : list string) (current_line : string) : list string :=
  if nonempty current_line then lines ++ [current_line] else lines.

(** The metrics of a fixed-pitch face such as Courier: every glyph is 0.6 em
    wide. *)
Definition fixed_pitch : measure := fun s _ size =>
  (Z.of_nat (String.length s) * 600 * size # 1000)%Q.

End PdfSlideCreator.

(* ===================================================================== *)
(** ** src/summarizer.py *)
(* ===================================================================== *)

Module Summarizer.
Import Gemini.

(** The values [json.loads] produces, and the dictionaries the module builds
    from them.  A dictionary is the list of its items in insertion order,
    keys distinct.  Numbers are integers here. *)
#[local] Set Warnings "-register-all".
Inductive json :=
| JNull
| JBool (b : bool)
| JNum (n : Z)
| JStr (s : string)
| JArr (items : list json)
| JObj (fields : list (string * json)).
#[local] Set Warnings "register-all".

(** What the interpreter and its standard library supply: [json.loads]
    ([None] stands for [JSONDecodeError]) and the text [str()] gives for a
    value that is not a string. *)
Record python := Python {
  loads : string -> option json;
  str_of : json -> string
}.

#[global] Instance result_ret : MRet result := fun _ a => Ok a.
#[global] Instance result_bind : MBind result := fun _ _ f r =>
  match r with
  | Ok a => f a
  | Raise e => Raise e
  end.

(** [bool(v)] *)
Definition truthy (v : json) : bool :=
  match v with
  | JNull => false
  | JBool b => b
  | JNum n => negb (n =? 0)%Z
  | JStr s => negb (String.eqb s EmptyString)
  | JArr items => match items with [] => false | _ => true end
  | JObj fields => match fields with [] => false | _ => true end
  end.

Fixpoint lookup_field (key : string) (fields : list (string * json)) : option json :=
  match fields with
  | [] => None
  | (k, v) :: rest => if String.eqb key k then Some v else lookup_field key rest
  end.

Definition is_str (key : string) (v : json) : bool :=
  match v with JStr s => String.eqb key s | _ => false end.

Fixpoint chars (s : string) : list string :=
  match s with
  | EmptyString => []
  | String c s' => String c EmptyString :: chars s'
  end.

(** [key in v] for a string [key] *)
Definition py_in (key : string) (v : json) : result bool :=
  match v with
  | JObj fields => Ok (bool_decide (is_Some (lookup_field key fields)))
  | JArr items => Ok (existsb (is_str key) items)
  | JStr s => Ok (Py.contains key s)
  | _ => Raise TypeError
  end.

(** [v[key]] for a string [key] *)
Definition py_getitem (v : json) (key : string) : result json :=
  match v with
  | JObj fields =>
      match lookup_field key fields with
      | Some x => Ok x
      | None => Raise KeyError
      end
  | _ => Raise TypeError
  end.

(** [v.get(key)]: only dictionaries have the method. *)
Definition py_get (v : json) (key : string) : result (option json) :=
  match v with
  | JObj fields => Ok (lookup_field key fields)
  | _ => Raise AttributeError
  end.

(** [v[:3]] *)
Definition py_slice3 (v : json) : result json :=
  match v with
  | JArr items => Ok (JArr (take 3 items))
  | JStr s => Ok (JStr (Py.prefix_n 3 s))
  | _ => Raise TypeError
  end.

(** [iter(v)], as a [for] loop walks it *)
Definition py_iter (v : json) : result (list json) :=
  match v with
  | JArr items => Ok items
  | JObj fields => Ok ((fun kv => JStr kv.1) <$> fields)
  | JStr s => Ok (JStr <$> chars s)
  | _ => Raise TypeError
  end.

(** The items of a list, when all of them are strings. *)
Fixpoint all_str (items : list json) : option (list string) :=
  match items with
  | [] => Some []
  | JStr s :: rest =>
      match all_str rest with
      | Some l => Some (s :: l)
      | None => None
      end
  | _ :: _ => None
  end.

(** [sep.join(v)] *)
Definition py_join (sep : string) (v : json) : result string :=
  match v with
  | JArr items =>
      match all_str items with
      | Some l => Ok (Py.join sep l)
      | None => Raise TypeError
      end
  | JStr s => Ok (Py.join sep (chars s))
  | JObj fields => Ok (Py.join sep (fst <$> fields))
  | _ => Raise TypeError
  end.

(** The text an f-string puts for [{v}] *)
Definition format (py : python) (v : json) : string :=
  match v with
  | JStr s => s
  | _ => str_of py v
  end.

(** [len(v)] of a sized value *)
Definition py_len (v : json) : option nat :=
  match v with
  | JArr items => Some (length items)
  | JStr s => Some (String.length s)
  | JObj fields => Some (length fields)
  | _ => None
  end.

(** Removing a Markdown code fence: when the text starts with three
    backquotes, its first and last line are dropped. *)
Definition strip_fences (result_text : string) : string :=
  if Py.startswith "```" result_text
  then Py.join "
" (Py.slice_1_m1 (Py.split_on "
" result_text))
  else result_text.

(** The dictionary of one content slide. *)
Definition slide_dict (title bullets speaker_notes : json) : json :=
  JObj [("title", title); ("bullets", bullets); ("speaker_notes", speaker_notes)].

(** One round of the validation loop of [extract_key_points]: [Some] of the
    validated slide, [None] when a field is missing. *)
Definition validate_slide (slide : json) : result (option json) :=
  has_title ← py_in "title" slide;
  if negb has_title then Ok None else
  has_bullets ← py_in "bullets" slide;
  if negb has_bullets then Ok None else
  has_notes ← py_in "speaker_notes" slide;
  if negb has_notes then Ok None else
  title ← py_getitem slide "title";
  bullets ← py_getitem slide "bullets";
  bullets3 ← py_slice3 bullets;
  speaker_notes ← py_getitem slide "speaker_notes";
  Ok (Some (slide_dict title bullets3 speaker_notes)).

Fixpoint validate_slides (slides : list json) (validated_slides : list json)
  : result (list json) :=
  match slides with
  | [] => Ok validated_slides
  | slide :: rest =>
      v ← validate_slide slide;
      validate_slides rest
        (match v with
         | Some d => validated_slides ++ [d]
         | None => validated_slides
         end)
  end.

(** The body of the [try] of [extract_key_points] after the service call. *)
Definition parse_key_points (py : python) (answer : option string)
  (max_slides : Z) : result (list json) :=
  match answer with
  | None => Raise AttributeError
  | Some raw =>
      let result_text := strip_fences (Py.strip raw) in
      match loads py result_text with
      | None => Raise JSONDecodeError
      | Some slides =>
          items ← py_iter slides;
          validated_slides ← validate_slides items [];
          Ok (Py.slice_to max_slides validated_slides)
      end
  end.

(** The [for i in range(0, len(paragraphs), paragraphs_per_slide)] loop of
    [_fallback_extraction]. *)
Fixpoint fallback_loop (starts : list nat) (paragraphs : list string)
  (paragraphs_per_slide : nat) (num_points : Z) (slides : list json)
  : list json :=
  match starts with
  | [] => slides
  | i :: rest =>
      let chunk := take paragraphs_per_slide (drop i paragraphs) in
      match chunk with
      | [] => fallback_loop rest paragraphs paragraphs_per_slide num_points slides
      | _ :: _ =>
          let slides' :=
            slides ++
            [slide_dict
               (JStr ("Key Point " +:+ Py.str_of_nat (length slides + 1)))
               (JArr (JStr <$> take 3 chunk))
               (JStr (Py.prefix_n 200 (Py.join " " chunk)))] in
          if (num_points <=? Z.of_nat (length slides'))%Z then slides'
          else fallback_loop rest paragraphs paragraphs_per_slide num_points slides'
      end
  end.

Definition paragraphs_of (text : string) : list string :=
  filter (fun p => p <> EmptyString) (Py.strip <$> Py.split_on "

" text).

(** [ContentSummarizer._fallback_extraction] *)
Definition _fallback_extraction (text : string) (num_points : Z)
  : result (list json) :=
  let paragraphs := paragraphs_of text in
  if (num_points =? 0)%Z then Raise ZeroDivisionError else
  let paragraphs_per_slide :=
    Z.to_nat (Z.max 1 (Z.of_nat (length paragraphs) / num_points)) in
  Ok (fallback_loop (Py.range_step 0 (length paragraphs) paragraphs_per_slide)
        paragraphs paragraphs_per_slide num_points []).

(** The class of the exception a failing request raises, as far as
    [extract_key_points] tells classes apart: [decode_error n key req] says
    whether the exception of request number [n], sent with the credential
    [key], is a [json.JSONDecodeError] (the client library raises one when
    it cannot decode a reply).  It goes with the [service], which gives the
    message of that exception. *)
Definition failure_class := nat -> string -> request -> bool.

(** [ContentSummarizer.extract_key_points].  The [try] has two handlers.
    [except json.JSONDecodeError] prints [result_text] before it answers
    with [_fallback_extraction]: that works when [json.loads] raised, but
    when the exception came out of [_call_gemini] (it raises the exception
    of its last request again) [result_text] was never assigned and the
    handler itself raises UnboundLocalError, which nothing catches.
    [except Exception] answers everything else with
    [_fallback_extraction]. *)
Definition extract_key_points (py : python) (svc : service)
  (decode_error : failure_class) (text : string)
  (num_points max_slides : Z) (st : state) : result (list json) * state :=
  let num_points := Z.min num_points max_slides in
  let req := {| contents := KeyPointsPrompt num_points text;
                temperature := 3 # 10; max_output_tokens := 4000 |} in
  let '(answer, st') := _call_gemini svc req st in
  match answer with
  | Raise (ServiceError _) =>
      if decode_error (sent st' - 1) (default EmptyString (client st')) req
      then (Raise UnboundLocalError, st')
      else (_fallback_extraction text num_points, st')
  | _ =>
      match answer ≫= (fun a => parse_key_points py a max_slides) with
      | Ok slides => (Ok slides, st')
      | Raise _ => (_fallback_extraction text num_points, st')
      end
  end.

Definition fallback_title (filename : string) : json :=
  JObj [("title", JStr (Py.replace ".pdf" "" (Py.replace "_" " " filename)));
        ("subtitle", JStr "Key Insights and Learnings")].

(** [ContentSummarizer.generate_title_slide] *)
Definition generate_title_slide (py : python) (svc : service) (text : string)
  (filename : string) (st : state) : json * state :=
  let req := {| contents := TitleSlidePrompt (Py.prefix_n 1000 text);
                temperature := 4 # 10; max_output_tokens := 200 |} in
  match _call_gemini svc req st with
  | (Ok (Some raw), st') =>
      match loads py (strip_fences (Py.strip raw)) with
      | Some title_data => (title_data, st')
      | None => (fallback_title filename, st')
      end
  | (_, st') => (fallback_title filename, st')
  end.

(** The part of the script one slide contributes in [summarize_for_video]. *)
Definition script_part (py : python) (slide : json) : result json :=
  notes ← py_get slide "speaker_notes";
  if truthy (default JNull notes) then py_getitem slide "speaker_notes"
  else
    title ← py_getitem slide "title";
    bullets ← py_get slide "bullets";
    joined ← py_join " " (default (JArr []) bullets);
    Ok (JStr (format py title +:+ ". " +:+ joined)).

Fixpoint script_parts (py : python) (slides : list json) : result (list json) :=
  match slides with
  | [] => Ok []
  | slide :: rest =>
      part ← script_part py slide;
      parts ← script_parts py rest;
      Ok (part :: parts)
  end.

(** [ContentSummarizer.summarize_for_video] *)
Definition summarize_for_video (py : python) (slides : list json) : result string :=
  parts ← script_parts py slides;
  py_join " " (JArr parts).

(** [extract_slides_from_pdf_text] *)
Definition extract_slides_from_pdf_text (py : python) (svc : service)
  (decode_error : failure_class) (pdf_text : string) (num_slides : Z)
  (keys : list string) : result json * state :=
  let summarizer := init keys in
  let '(title_slide, st1) := generate_title_slide py svc pdf_text "" summarizer in
  let '(r, st2) :=
    extract_key_points py svc decode_error pdf_text num_slides 12 st1 in
  (content_slides ← r;
   narration_script ← summarize_for_video py content_slides;
   Ok (JObj [("title_slide", title_slide);
             ("content_slides", JArr content_slides);
             ("total_slides", JNum (Z.of_nat (length content_slides) + 1));
             ("narration_script", JStr narration_script)]),
   st2).

(** A content slide whose bullets are a list, of a length that satisfies
    [P]. *)
Definition bullets_list (P : nat -> Prop) (slide : json) : Prop :=
  exists title items speaker_notes,
    slide = slide_dict title (JArr items) speaker_notes /\ P (length items).

(** A content slide whose bullets are no list but a text of at most three
    characters: what [slide['bullets'][:3]] leaves of a string. *)
Definition bullets_chars (slide : json) : Prop :=
  exists title s speaker_notes,
    slide = slide_dict title (JStr s) speaker_notes /\ String.length s <= 3.

(** A content slide of the fallback: its bullets are a list of one to three
    paragraphs. *)
Definition bullets_paragraphs (slide : json) : Prop :=
  exists title paragraphs speaker_notes,
    slide = slide_dict title (JArr (JStr <$> paragraphs)) speaker_notes
    /\ 1 <= length paragraphs <= 3.

(** The shape the deck has by the schema
    [{title_slide:{title,subtitle}, content_slides, total_slides, narration_script}]. *)
Definition deck_fields : list string :=
  ["title_slide"; "content_slides"; "total_slides"; "narration_script"].

Definition has_title_and_subtitle (title_slide : json) : Prop :=
  exists fields, title_slide = JObj fields
    /\ is_Some (lookup_field "title" fields)
    /\ is_Some (lookup_field "subtitle" fields).

End Summarizer.

(* ===================================================================== *)
(** ** src/video_creator.py *)
(* ===================================================================== *)

Module VideoCreator.

(** A content slide as the narration reads it from slides.json:
    [slide['title']] is required, [slide.get('bullets', [])] and
    [slide.get('speaker_notes')] may be missing. *)
Record slide := Slide {
  title : string;
  bullets : option (list string);
  speaker_notes : option string
}.

(** The files the assembler reads and writes.  A slide image remembers the
    deck page it shows, a narration clip the text it speaks. *)
Inductive file :=
| Pdf (pages : nat)
| SlidesJson (content_slides : list slide)
| Png (page : nat)
| Mp3 (text : string) (duration : Q).

(** The speech service with the duration of what it synthesised ([gTTS]
    followed by [AudioFileClip(...).duration]); [None]: it raises. *)
Definition speech := string -> option Q.

(** [str(output_dir / f"slide_{i:02d}.png")] and
    [str(output_dir / f"audio_{i:02d}.mp3")], [output_dir] a [Path] *)
Definition image_path (output_dir : string) (i : nat) : string :=
  Py.dir_prefix output_dir +:+ "slide_" +:+ Py.fmt_02d i +:+ ".png".

Definition audio_path (output_dir : string) (i : nat) : string :=
  Py.dir_prefix output_dir +:+ "audio_" +:+ Py.fmt_02d i +:+ ".mp3".

(** [dir.glob(prefix + "*" + suffix)]: the files directly in [dir] whose name
    starts with [prefix] and goes on with something ending in [suffix].  A
    missing directory has no such file. *)
Definition glob_match (dir prefix suffix path : string) : bool :=
  let name := Py.suffix_from (String.length (Py.dir_prefix dir)) path in
  Py.startswith (Py.dir_prefix dir +:+ prefix) path
  && Py.endswith suffix (Py.suffix_from (String.length prefix) name)
  && (String.length suffix <=? String.length name - String.length prefix)
  && negb (Py.contains "/" name).

Definition glob (disk : gmap string file) (dir prefix suffix : string)
  : list string :=
  filter (fun path => glob_match dir prefix suffix path = true)
         (fst <$> map_to_list disk).

(** The [for i, page_img in enumerate(pages)] loop of
    [convert_pdf_to_images]. *)
Fixpoint save_pages (output_dir : string) (page_nos : list nat)
  (image_paths : list string) (disk : gmap string file)
  : list string * gmap string file :=
  match page_nos with
  | [] => (image_paths, disk)
  | i :: rest =>
      let img_path := image_path output_dir i in
      save_pages output_dir rest (image_paths ++ [img_path])
        (<[img_path := Png i]> disk)
  end.

(** [convert_pdf_to_images] *)
Definition convert_pdf_to_images (pdf_path output_dir : string)
  (disk : gmap string file) : result (list string) * gmap string file :=
  match disk !! pdf_path with
  | Some (Pdf pages) =>
      let '(image_paths, disk') := save_pages output_dir (seq 0 pages) [] disk in
      (Ok image_paths, disk')
  | _ => (Raise FileNotFoundError, disk)
  end.

(** The text spoken for a slide: the speaker notes when they are there and
    not empty, otherwise title and bullets. *)
Definition narration_text (s : slide) : string :=
  match speaker_notes s with
  | Some (String c notes) => String c notes
  | _ => title s +:+ ". " +:+ Py.join " " (default [] (bullets s))
  end.

(** The [for i, slide in enumerate(data['content_slides'], 1)] loop of
    [generate_tts_audio]. *)
Fixpoint tts_loop (tts : speech) (output_dir : string)
  (slides : list (nat * slide)) (audio_clips : list (option string * Q))
  (disk : gmap string file)
  : result (list (option string * Q)) * gmap string file :=
  match slides with
  | [] => (Ok audio_clips, disk)
  | (i, s) :: rest =>
      let text := narration_text s in
      let path := audio_path output_dir i in
      match tts text with
      | None => (Raise SpeechError, disk)
      | Some duration =>
          tts_loop tts output_dir rest
            (audio_clips ++ [(Some path, duration)])
            (<[path := Mp3 text duration]> disk)
      end
  end.

(** The default of [title_duration]: 3.0 seconds. *)
Definition default_title_duration : Q := 3.

(** [generate_tts_audio] *)
Definition generate_tts_audio (tts : speech)
  (slides_json_path output_dir : string) (title_duration : Q)
  (disk : gmap string file)
  : result (list (option string * Q)) * gmap string file :=
  match disk !! slides_json_path with
  | Some (SlidesJson content_slides) =>
      tts_loop tts output_dir (Py.enumerate 1 content_slides)
        [(None, title_duration)] disk
  | _ => (Raise FileNotFoundError, disk)
  end.

(** One clip of the final video: the slide image held for [duration], with
    the audio track when there is one. *)
Record clip := Clip {
  frame : string;
  duration : Q;
  audio : option string
}.

(** The clip loop of [VideoCreator.create_video]: images and audio entries
    are paired by [zip]; the audio is attached when its path is not [None]
    and the file exists.  The clips are concatenated in this order; the
    optional background music is mixed under the whole video afterwards and
    leaves the sequence of clips as it is. *)
Definition create_video (slide_images : list string)
  (audio_clips : list (option string * Q)) (disk : gmap string file)
  : list clip :=
  (fun pair : string * (option string * Q) =>
     let '(img_path, (audio_file, dur)) := pair in
     {| frame := img_path; duration := dur;
        audio := match audio_file with
                 | Some path =>
                     if bool_decide (is_Some (disk !! path)) then Some path else None
                 | None => None
                 end |})
  <$> Py.zip slide_images audio_clips.

(** The loading of the existing audio files in [create_video_complete]. *)
Fixpoint load_audio (audio_files : list string) (disk : gmap string file)
  : result (list (option string * Q)) :=
  match audio_files with
  | [] => Ok []
  | path :: rest =>
      match disk !! path with
      | Some (Mp3 _ dur) =>
          clips ← load_audio rest disk; Ok ((Some path, dur) :: clips)
      | _ => Raise OSError
      end
  end.

(** [create_video_complete] *)
Definition create_video_complete (tts : speech)
  (pdf_path slides_json_path images_dir audio_dir : string)
  (disk : gmap string file) : result (list clip) * gmap string file :=
  (* Step 1: convert the PDF to images (if not already done) *)
  let '(images, disk1) :=
    match glob disk images_dir "slide_" ".png" with
    | [] => convert_pdf_to_images pdf_path images_dir disk
    | found => (Ok (Py.sorted found), disk)
    end in
  match images with
  | Raise e => (Raise e, disk1)
  | Ok slide_images =>
      (* Step 2: generate the narration (if not already done) *)
      let '(clips, disk2) :=
        match glob disk1 audio_dir "audio_" ".mp3" with
        | [] => generate_tts_audio tts slides_json_path audio_dir
                  default_title_duration disk1
        | found => (load_audio (Py.sorted found) disk1, disk1)
        end in
      match clips with
      | Raise e => (Raise e, disk2)
      | Ok audio_clips =>
          (* Step 3: create the video *)
          (Ok (create_video slide_images audio_clips disk2), disk2)
      end
  end.

(** What a clip shows and what it speaks, read back from the files. *)
Definition shown_page (disk : gmap string file) (c : clip) : option nat :=
  match disk !! frame c with
  | Some (Png page) => Some page
  | _ => None
  end.

Definition spoken_text (disk : gmap string file) (c : clip) : option string :=
  match audio c with
  | Some path =>
      match disk !! path with
      | Some (Mp3 text _) => Some text
      | _ => None
      end
  | None => None
  end.

(** For every clip of a finished run, in order: the deck page it shows and
    the narration it speaks.  [None] when the run raised. *)
Definition pairing (run : result (list clip) * gmap string file)
  : option (list (option nat * option string)) :=
  match run.1 with
  | Ok clips => Some ((fun c => (shown_page run.2 c, spoken_text run.2 c)) <$> clips)
  | Raise _ => None
  end.

End VideoCreator.

(* ===================================================================== *)
(** ** slides.json between the stages *)
(* ===================================================================== *)

Module Interchange.

(** The dictionary of a content slide in slides.json, for a slide as the
    video stage reads it: [bullets] and [speaker_notes] are keys of the
    dictionary only when there. *)
Definition slide_json (s : VideoCreator.slide) : Summarizer.json :=
  Summarizer.JObj
    ([("title", Summarizer.JStr (VideoCreator.title s))]
     ++ match VideoCreator.bullets s with
        | Some bs => [("bullets", Summarizer.JArr (Summarizer.JStr <$> bs))]
        | None => []
        end
     ++ match VideoCreator.speaker_notes s with
        | Some notes => [("speaker_notes", Summarizer.JStr notes)]
        | None => []
        end).

End Interchange.

(* ===================================================================== *)
(** ** src/pdf_slide_creator.py: the pages of the deck *)
(* ===================================================================== *)

(** The renderer draws on a canvas; the model records the calls.  The deck
    is read as the icon stage reads it ([ImageGenerator.slides_data]): the
    titles and the subtitle are strings, the bullets of a slide a list of
    strings.  Coordinates are exact rationals where Python computes with
    floats; the icon files are the [files] of the icon stage. *)
Module PdfPages.
Import PdfSlideCreator.

Definition rgb := (Q * Q * Q)%type.

(** The calls made on the reportlab canvas, in the order they are made.
    [drawImage] is always called with [preserveAspectRatio=True] and
    [mask='auto']. *)
Inductive op :=
| SetFillColorRGB (color : rgb) (alpha : option Q)
| SetStrokeColorRGB (color : rgb)
| SetLineWidth (w : Q)
| SetFont (name : string) (size : Z)
| Rect (x y w h : Q) (fill stroke : bool)
| Circle (x y r : Q) (fill stroke : bool)
| DrawImage (path : string) (x y w h : Q)
| DrawString (x y : Q) (text : string)
| ShowPage
| Save.

(** [self.width], [self.height]: landscape, 10 by 7.5 inches at 72 dpi. *)
Definition width : Z := 720.
Definition height : Z := 540.

(** [self.colors] *)
Definition primary : rgb := (41 # 255, 98 # 255, 255 # 255)%Q.
Definition secondary : rgb := (16 # 255, 185 # 255, 129 # 255)%Q.
Definition accent : rgb := (251 # 255, 146 # 255, 60 # 255)%Q.
Definition purple : rgb := (139 # 255, 92 # 255, 246 # 255)%Q.
Definition pink : rgb := (236 # 255, 72 # 255, 153 # 255)%Q.
Definition bg_light : rgb := (248 # 255, 250 # 255, 252 # 255)%Q.
Definition text_color : rgb := (15 # 255, 23 # 255, 42 # 255)%Q.
Definition white : rgb := (1, 1, 1)%Q.

(** The icon of a page: nothing is drawn when the file is missing, or when
    reading or drawing it raises ([image_reader] tells whether it works for
    a file of this content). *)
Definition draw_icon (files : gmap string string) (image_reader : string -> bool)
  (icon_path : string) (x y w h : Q) : list op :=
  match files !! icon_path with
  | Some content =>
      if image_reader content then [DrawImage icon_path x y w h] else []
  | None => []
  end.

(** [for line in lines: ...drawString((self.width - text_width) / 2, y, line);
    y -= spacing], with the [y] the loop ends at. *)
Fixpoint draw_centered (stringWidth : measure) (font : string) (size : Z)
  (spacing : Z) (lines : list string) (y : Z) : list op * Z :=
  match lines with
  | [] => ([], y)
  | line :: rest =>
      let text_width := stringWidth line font size in
      let '(ops, y') :=
        draw_centered stringWidth font size spacing rest (y - spacing) in
      (DrawString ((inject_Z width - text_width) / 2) (inject_Z y) line :: ops,
       y')
  end.

(** [PDFSlideCreator._create_title_slide] *)
Definition _create_title_slide (files : gmap string string)
  (image_reader : string -> bool) (stringWidth : measure)
  (icons_dir : string) (data : ImageGenerator.slides_data) : list op :=
  let title_lines :=
    wrap_words (fun s => stringWidth s "Helvetica-Bold" 38%Z)
      (inject_Z (width - 120)) (Py.split_ws (ImageGenerator.title_of_deck data)) in
  let title_start_y := 290%Z in
  let line_spacing := 48%Z in
  let '(title_ops, y) :=
    draw_centered stringWidth "Helvetica-Bold" 38 line_spacing title_lines
      title_start_y in
  let subtitle_lines :=
    wrap_words (fun s => stringWidth s "Helvetica-Bold" 22%Z)
      (inject_Z (width - 160))
      (Py.split_ws (ImageGenerator.subtitle_of_deck data)) in
  let subtitle_start_y := (y - 60)%Z in
  let subtitle_line_spacing := 30%Z in
  [ SetFillColorRGB primary None;
    Rect 0 (inject_Z (height - 288)) (inject_Z width) 288 true false;
    SetFillColorRGB secondary None;
    Rect 0 0 (inject_Z width) (inject_Z (height - 288)) true false;
    SetFillColorRGB accent (Some (3 # 10)%Q);
    Circle (inject_Z (width - 72)) (inject_Z (height + 72)) 144 true false;
    SetFillColorRGB purple (Some (3 # 10)%Q);
    Circle (inject_Z (-72)) 0 126 true false ]
  ++ draw_icon files image_reader (Py.dir_prefix icons_dir +:+ "title.png")
       ((inject_Z width - 144) / 2) (inject_Z (height - 230)) 144 144
  ++ [ SetFillColorRGB white None; SetFont "Helvetica-Bold" 38 ]
  ++ title_ops
  ++ [ SetFont "Helvetica-Bold" 22 ]
  ++ (draw_centered stringWidth "Helvetica-Bold" 22 subtitle_line_spacing
        subtitle_lines subtitle_start_y).1.

(** The geometry of a content slide. *)
Definition title_x : Z := 252.
Definition title_y : Z := height - 90.
Definition title_width : Z := 432.
Definition title_height : Z := 100.
Definition content_x : Z := 230.
Definition content_y : Z := 80.
Definition content_height : Z := 302.

(** [color_options[slide_num % len(color_options)]] *)
Definition color_options : list rgb := [primary; secondary; purple; pink].

Definition slide_color (slide_num : nat) : rgb :=
  default primary (color_options !! (slide_num mod length color_options)).

(** [for line in lines[:3]: c.drawString(title_x, y, line); y -= 30] *)
Fixpoint draw_title_lines (lines : list string) (y : Z) : list op :=
  match lines with
  | [] => []
  | line :: rest =>
      DrawString (inject_Z title_x) (inject_Z y) line
      :: draw_title_lines rest (y - 30)
  end.

(** The lines of one bullet: [for line in lines: if y < content_y + 20:
    break; c.drawString(x, y, line); y -= 25], with the [y] the loop ends
    at. *)
Fixpoint draw_lines (x : Z) (lines : list string) (y : Z) : list op * Z :=
  match lines with
  | [] => ([], y)
  | line :: rest =>
      if (y <? content_y + 20)%Z then ([], y)
      else
        let '(ops, y') := draw_lines x rest (y - 25) in
        (DrawString (inject_Z x) (inject_Z y) line :: ops, y')
  end.

(** [for i, bullet in enumerate(slide_data['bullets']): ...] *)
Fixpoint draw_bullets (stringWidth : measure) (x : Z) (bullets : list string)
  (y : Z) : list op :=
  match bullets with
  | [] => []
  | bullet :: rest =>
      if (y <? content_y + 20)%Z then []   (* Prevent overflow *)
      else
        let lines := bullet_lines stringWidth bullet in
        let '(ops, y') := draw_lines x lines y in
        ops ++ draw_bullets stringWidth x rest (y' - 15)
  end.

(** Where the first bullet line goes. *)
Definition bullets_x : Z := content_x + 20.
Definition bullets_start_y : Z := content_y + content_height - 40.

(** [PDFSlideCreator._create_content_slide] *)
Definition _create_content_slide (files : gmap string string)
  (image_reader : string -> bool) (stringWidth : measure)
  (icons_dir : string) (slide_data : ImageGenerator.slide_content)
  (slide_num : nat) : list op :=
  let slide_color := slide_color slide_num in
  let icon_path :=
    Py.dir_prefix icons_dir +:+ "slide_" +:+ Py.fmt_02d slide_num +:+ ".png" in
  let icon_bg_x := 50%Z in
  let icon_bg_y := (height - 295)%Z in
  let icon_bg_size := 173%Z in
  let icon_size := 130%Z in
  let icon_x := (inject_Z icon_bg_x + (inject_Z icon_bg_size - inject_Z icon_size) / 2)%Q in
  let icon_y := (inject_Z icon_bg_y + (inject_Z icon_bg_size - inject_Z icon_size) / 2)%Q in
  let title_lines :=
    wrap_words (fun s => stringWidth s "Helvetica-Bold" 24%Z)
      (inject_Z title_width)
      (Py.split_ws (ImageGenerator.slide_title slide_data)) in
  [ SetFillColorRGB bg_light None;
    Rect 0 0 (inject_Z width) (inject_Z height) true false;
    SetFillColorRGB slide_color None;
    Rect 0 0 29 (inject_Z height) true false ]
  ++ (if bool_decide (is_Some (files !! icon_path))
      then [ SetFillColorRGB white None;
             SetStrokeColorRGB slide_color;
             SetLineWidth 3;
             Rect (inject_Z icon_bg_x) (inject_Z icon_bg_y)
               (inject_Z icon_bg_size) (inject_Z icon_bg_size) true true ]
           ++ draw_icon files image_reader icon_path icon_x icon_y
                (inject_Z icon_size) (inject_Z icon_size)
      else [])
  ++ [ SetFillColorRGB slide_color None;
       Rect (inject_Z (title_x - 14)) (inject_Z (title_y - 7))
         (inject_Z (title_width + 29)) (inject_Z (title_height + 14))
         true false;
       SetFillColorRGB white None;
       SetFont "Helvetica-Bold" 24 ]
  ++ draw_title_lines (take 3 title_lines) (title_y + 60)
  ++ [ SetFillColorRGB white None;
       SetStrokeColorRGB (226 # 255, 232 # 255, 240 # 255)%Q;
       SetLineWidth 2;
       Rect (inject_Z content_x) (inject_Z content_y)
         (inject_Z content_width) (inject_Z content_height) true true;
       SetFillColorRGB text_color None;
       SetFont "Helvetica" 18 ]
  ++ draw_bullets stringWidth bullets_x
       (ImageGenerator.slide_bullets slide_data) bullets_start_y
  ++ [ SetFillColorRGB slide_color (Some (2 # 10)%Q);
       Rect 612 0 144 108 true false ].

(** The [for i, slide_data in enumerate(self.data['content_slides'], 1)]
    loop of [create_presentation]. *)
Fixpoint content_pages (files : gmap string string)
  (image_reader : string -> bool) (stringWidth : measure) (icons_dir : string)
  (slides : list (nat * ImageGenerator.slide_content)) : list op :=
  match slides with
  | [] => []
  | (i, slide_data) :: rest =>
      _create_content_slide files image_reader stringWidth icons_dir slide_data i
      ++ [ShowPage]
      ++ content_pages files image_reader stringWidth icons_dir rest
  end.

(** [PDFSlideCreator.create_presentation]: the calls on the canvas, the last
    of which writes the file. *)
Definition create_presentation (files : gmap string string)
  (image_reader : string -> bool) (stringWidth : measure) (icons_dir : string)
  (data : ImageGenerator.slides_data) : list op :=
  _create_title_slide files image_reader stringWidth icons_dir data
  ++ [ShowPage]
  ++ content_pages files image_reader stringWidth icons_dir
       (Py.enumerate 1 (ImageGenerator.content_slides data))
  ++ [Save].

(** *** Reading slides.json

    The renderer works on what [json.load] gave and reads the fields where
    it needs them; a field that is missing or of another type raises there.
    A raise leaves nothing behind, because the file is written by
    [c.save()] at the very end only.  So the model reads the fields first,
    in the order in which the code reaches them, and draws afterwards. *)

(** [v.split()] is asked of the titles and of the subtitle: only a string
    has the method.  The result is the text to split. *)
Definition as_text (v : Summarizer.json) : result string :=
  match v with
  | Summarizer.JStr s => Ok s
  | _ => Raise AttributeError
  end.

(** [v[:40]], for the progress message: a string or a list can be sliced. *)
Definition py_slice_check (v : Summarizer.json) : result unit :=
  match v with
  | Summarizer.JStr _ | Summarizer.JArr _ => Ok tt
  | _ => Raise TypeError
  end.

(** The reads of [_create_title_slide]: [self.data['title_slide']], then
    [title_data['title']] and [title.split()], then
    [title_data['subtitle']] and [subtitle.split()]. *)
Definition read_title_slide (data : Summarizer.json) : result (string * string) :=
  title_data ← Summarizer.py_getitem data "title_slide";
  title ← Summarizer.py_getitem title_data "title";
  title ← as_text title;
  subtitle ← Summarizer.py_getitem title_data "subtitle";
  subtitle ← as_text subtitle;
  Ok (title, subtitle).

(** The reads for one content slide: [slide_data['title'][:40]] for the
    progress message of [create_presentation], then in
    [_create_content_slide] [slide_data['title']] with [title.split()] and
    the loop over [slide_data['bullets']]; a bullet is put into the line by
    an f-string, whatever its type. *)
Definition read_content_slide (py : Summarizer.python)
  (slide_data : Summarizer.json) : result ImageGenerator.slide_content :=
  title ← Summarizer.py_getitem slide_data "title";
  _ ← py_slice_check title;
  title ← as_text title;
  bullets ← Summarizer.py_getitem slide_data "bullets";
  bullets ← Summarizer.py_iter bullets;
  Ok {| ImageGenerator.slide_title := title;
        ImageGenerator.slide_bullets := Summarizer.format py <$> bullets |}.

Fixpoint read_content_slides (py : Summarizer.python)
  (slides : list Summarizer.json) : result (list ImageGenerator.slide_content) :=
  match slides with
  | [] => Ok []
  | slide_data :: rest =>
      slide ← read_content_slide py slide_data;
      slides' ← read_content_slides py rest;
      Ok (slide :: slides')
  end.

Definition read_deck (py : Summarizer.python) (data : Summarizer.json)
  : result ImageGenerator.slides_data :=
  title_slide ← read_title_slide data;
  content_slides ← Summarizer.py_getitem data "content_slides";
  content_slides ← Summarizer.py_iter content_slides;
  content_slides ← read_content_slides py content_slides;
  Ok {| ImageGenerator.title_of_deck := title_slide.1;
        ImageGenerator.subtitle_of_deck := title_slide.2;
        ImageGenerator.content_slides := content_slides |}.

(** [create_pdf_slides]: the constructor raises when there is no slides
    file; [slides_json] is the value [json.load] gives for the file that is
    there. *)
Definition create_pdf_slides (py : Summarizer.python)
  (slides_json : option Summarizer.json)
  (files : gmap string string) (image_reader : string -> bool)
  (stringWidth : measure) (icons_dir : string) : result (list op) :=
  match slides_json with
  | None => Raise FileNotFoundError
  | Some data =>
      deck ← read_deck py data;
      Ok (create_presentation files image_reader stringWidth icons_dir deck)
  end.

(** A content slide of slides.json as the schema has it: an object whose
    title is a string and whose bullets are a list of strings (other fields
    may be there). *)
Definition slide_as (slide_data : Summarizer.json)
  (slide : ImageGenerator.slide_content) : Prop :=
  exists fields,
    slide_data = Summarizer.JObj fields
    /\ Summarizer.lookup_field "title" fields
       = Some (Summarizer.JStr (ImageGenerator.slide_title slide))
    /\ Summarizer.lookup_field "bullets" fields
       = Some (Summarizer.JArr
                 (Summarizer.JStr <$> ImageGenerator.slide_bullets slide)).

(** A deck of slides.json as the schema has it: the title slide an object
    with a title and a subtitle that are strings, the content slides a list
    of slides as above. *)
Definition deck_as (data : Summarizer.json)
  (deck : ImageGenerator.slides_data) : Prop :=
  exists fields title_fields slides,
    data = Summarizer.JObj fields
    /\ Summarizer.lookup_field "title_slide" fields
       = Some (Summarizer.JObj title_fields)
    /\ Summarizer.lookup_field "title" title_fields
       = Some (Summarizer.JStr (ImageGenerator.title_of_deck deck))
    /\ Summarizer.lookup_field "subtitle" title_fields
       = Some (Summarizer.JStr (ImageGenerator.subtitle_of_deck deck))
    /\ Summarizer.lookup_field "content_slides" fields
       = Some (Summarizer.JArr slides)
    /\ Forall2 slide_as slides (ImageGenerator.content_slides deck).

(** The pages of a canvas: the calls between one [showPage] and the next.
    Calls after the last [showPage] belong to no page. *)
Fixpoint pages_go (current : list op) (ops : list op) : list (list op) :=
  match ops with
  | [] => []
  | ShowPage :: rest => current :: pages_go [] rest
  | o :: rest => pages_go (current ++ [o]) rest
  end.

Definition pages (ops : list op) : list (list op) := pages_go [] ops.

(** A call that draws text draws it at column [x], at a height between
    [lo] and [hi]. *)
Definition text_within (x lo hi : Z) (o : op) : Prop :=
  match o with
  | DrawString x' y' _ =>
      x' = inject_Z x /\ exists z, y' = inject_Z z /\ (lo <= z <= hi)%Z
  | _ => True
  end.

(** The text lines of a list of calls, top to bottom as drawn. *)
Definition texts (ops : list op) : list string :=
  omap (fun o => match o with DrawString _ _ t => Some t | _ => None end) ops.

End PdfPages.

(* ===================================================================== *)
(** ** Concrete inputs used by the examples below *)
(* ===================================================================== *)

Module Samples.
Import PdfParser.

Definition c5_page_short : page :=
  {| get_text := " 12 "; image_to_string := "Scanned heading
and one line of body text
" |}.

Definition c5_parser : PDFParser :=
  {| pdf_path := "in.pdf"; doc := [c5_page_short]; num_pages := 1;
     extraction_stats := fresh_stats; ocr_calls := [] |}.

(** A pool of three credentials; the first is over its quota, the second
    meets an error that is no rate limit. *)
Definition c7_keys : list string := ["key-A"; "key-B"; "key-C"].


Definition c7_request : Gemini.request :=
  {| Gemini.contents := Gemini.TitleSlidePrompt "Deep learning";
     Gemini.temperature := 4 # 10; Gemini.max_output_tokens := 200 |}.

(** An icon service that never finds anything. *)
Definition no_icons : ImageGenerator.icon_service :=
  {| ImageGenerator.search := fun _ _ _ => ImageGenerator.SearchReply 200 [];
     ImageGenerator.download := fun _ _ => ImageGenerator.DownloadRaises |}.

(** An AI service that suggests "Brain" first and " graph " afterwards. *)
Definition brain_graph : Gemini.service := fun sent _ _ =>
  if sent =? 0 then Gemini.Text "Brain" else Gemini.Text " graph ".

Definition empty_world : ImageGenerator.world :=
  {| ImageGenerator.attempts := []; ImageGenerator.files := ∅ |}.

(** A [json.loads] that knows the empty object and the empty array, and a
    [str()] that is never needed. *)
Definition toy_python : Summarizer.python :=
  {| Summarizer.loads := fun s =>
       if String.eqb s "{}" then Some (Summarizer.JObj [])
       else if String.eqb s "[]" then Some (Summarizer.JArr [])
       else None;
     Summarizer.str_of := fun _ => "?" |}.

(** An AI service that is down. *)
Definition service_down : Gemini.service := fun _ _ _ =>
  Gemini.Failure "503 service unavailable".

(** An AI service that answers the title prompt with an empty object and is
    down for everything else. *)
Definition empty_title : Gemini.service := fun _ _ req =>
  match Gemini.contents req with
  | Gemini.TitleSlidePrompt _ => Gemini.Text "{}"
  | _ => Gemini.Failure "503 service unavailable"
  end.

Definition two_paragraphs : string := "Deep learning stacks layers.

Each layer learns features.".

(** A deck of a title slide and two content slides, rendered to a PDF of
    three pages, before any video was made. *)
Definition two_slides : list VideoCreator.slide :=
  [ {| VideoCreator.title := "Layers";
       VideoCreator.bullets := Some ["Stacked"; "Trained end to end"];
       VideoCreator.speaker_notes := Some "Layers are stacked." |};
    {| VideoCreator.title := "Features";
       VideoCreator.bullets := Some ["Learned"; "Not designed"];
       VideoCreator.speaker_notes := None |} ].

Definition fresh_disk : gmap string VideoCreator.file :=
  <["output/slides.pdf" := VideoCreator.Pdf 3]>
    (<["output/intermediate/slides.json" := VideoCreator.SlidesJson two_slides]> ∅).

(** A speech service that takes a second for every ten characters. *)
Definition steady_voice : VideoCreator.speech := fun text =>
  Some (Z.of_nat (String.length text) # 10)%Q.

(** A content slide whose speaker notes are there but empty, and a disk
    with a slides file of this one slide. *)
Definition empty_notes_slide : VideoCreator.slide :=
  {| VideoCreator.title := "Features";
     VideoCreator.bullets := Some ["Learned"; "Not designed"];
     VideoCreator.speaker_notes := Some EmptyString |}.

Definition empty_notes_disk : gmap string VideoCreator.file :=
  <["slides.json" := VideoCreator.SlidesJson [empty_notes_slide]]> ∅.

(** A speech service that fails on every text but one. *)
Definition failing_voice : VideoCreator.speech := fun text =>
  if String.eqb text "Layers are stacked." then Some 2%Q else None.

Definition run_video (disk : gmap string VideoCreator.file)
  : result (list VideoCreator.clip) * gmap string VideoCreator.file :=
  VideoCreator.create_video_complete steady_voice "output/slides.pdf"
    "output/intermediate/slides.json" "output/intermediate/slide_images"
    "output/intermediate/audio" disk.

(** No failure of the AI service is a [json.JSONDecodeError]; and the
    opposite, with a service whose replies the client cannot decode. *)
Definition plain_errors : Summarizer.failure_class := fun _ _ _ => false.

Definition decode_errors : Summarizer.failure_class := fun _ _ _ => true.

Definition garbled_replies : Gemini.service := fun _ _ _ =>
  Gemini.Failure "Expecting value: line 1 column 1 (char 0)".

(** An AI service over its quota for every credential. *)
Definition always_limited : Gemini.service := fun _ _ _ =>
  Gemini.Failure "429 quota exceeded".

(** The same service once the first credentials have recovered: only the
    last credential of [c7_keys] is still over its quota. *)
Definition last_key_limited : Gemini.service := fun _ key _ =>
  if String.eqb key "key-C" then Gemini.Failure "429 quota exceeded"
  else Gemini.Text "ok".

(** An icon service that finds an icon for "neural" only. *)
Definition only_neural : ImageGenerator.icon_service :=
  {| ImageGenerator.search := fun _ query _ =>
       if String.eqb query "neural"
       then ImageGenerator.SearchReply 200
              [ {| ImageGenerator.thumbnail_url := None;
                   ImageGenerator.icon_url := Some "https://icons.example/neural.png" |} ]
       else ImageGenerator.SearchReply 200 [];
     ImageGenerator.download := fun _ _ =>
       ImageGenerator.DownloadReply 200 "PNG-neural" |}.

Definition one_slide_deck : ImageGenerator.slides_data :=
  {| ImageGenerator.title_of_deck := "Deep Learning";
     ImageGenerator.subtitle_of_deck := "An overview";
     ImageGenerator.content_slides :=
       [ {| ImageGenerator.slide_title := "Neural Networks";
            ImageGenerator.slide_bullets := ["Layers of neurons"] |} ] |}.

End Samples.

(* ===================================================================== *)
(** * Properties *)
(* ===================================================================== *)

Module PyFacts.

Lemma mem_true_iff x l : Py.mem x l = true <-> x ∈ l.
Proof.
  unfold Py.mem. rewrite existsb_exists. split.
  - intros (y & Hy & He). apply String.eqb_eq in He. subst.
    by apply list_elem_of_In.
  - intros H. exists x. split; [by apply list_elem_of_In | apply String.eqb_refl].
Qed.

Lemma mem_false_iff x l : Py.mem x l = false <-> x ∉ l.
Proof.
  rewrite <- mem_true_iff. destruct (Py.mem x l); split; congruence.
Qed.

Example split_ws_ex :
  Py.split_ws "  neural   network design " = ["neural"; "network"; "design"].
Proof. reflexivity. Qed.

Example strip_ex : Py.strip "  a b  " = "a b".
Proof. reflexivity. Qed.

Example split_on_ex : Py.split_on "ab" "xabyabab" = ["x"; "y"; ""; ""].
Proof. reflexivity. Qed.

Example fmt_02d_ex :
  Py.fmt_02d 7 = "07" /\ Py.fmt_02d 12 = "12" /\ Py.fmt_02d 0 = "00".
Proof. repeat split; reflexivity. Qed.

Example dir_prefix_ex :
  Py.dir_prefix "output/intermediate/audio" = "output/intermediate/audio/"
  /\ Py.dir_prefix "./images/" = "images/"
  /\ Py.dir_prefix "/tmp//deck" = "/tmp/deck/"
  /\ Py.dir_prefix "../x" = "../x/"
  /\ Py.dir_prefix "" = "" /\ Py.dir_prefix "." = "".
Proof. repeat split; reflexivity. Qed.

Example range_step_ex :
  Py.range_step 0 7 3 = [0; 3; 6] /\ Py.range_step 0 6 3 = [0; 3].
Proof. split; reflexivity. Qed.

Lemma has_space_rev_onto a : forall b,
  Py.has_space (Py.rev_onto a b) = Py.has_space a || Py.has_space b.
Proof.
  induction a as [|c a IH]; intros b; simpl; [done|].
  rewrite IH. simpl. destruct (Py.isspace c), (Py.has_space a); done.
Qed.

(** The words [split()] gives hold no white space. *)
Lemma split_ws_go_words s : forall cur w,
  Py.has_space cur = false -> w ∈ Py.split_ws_go cur s ->
  Py.has_space w = false.
Proof.
  assert (Hrev : forall cur, Py.has_space cur = false ->
                             Py.has_space (Py.rev cur) = false).
  { intros cur Hc. unfold Py.rev. by rewrite has_space_rev_onto, Hc. }
  induction s as [|c s IH]; intros cur w Hcur; simpl.
  - destruct cur; [by intros ?%elem_of_nil|].
    intros ->%list_elem_of_singleton. by apply Hrev.
  - destruct (Py.isspace c) eqn:Hc.
    + destruct cur as [|c0 cur]; [by apply IH|].
      intros [->|Hw]%elem_of_cons; [by apply Hrev | by apply (IH EmptyString)].
    + apply IH. simpl. by rewrite Hc.
Qed.

(** A string without white space is at most one word. *)
Lemma split_ws_go_one_word s : forall cur,
  Py.has_space s = false -> length (Py.split_ws_go cur s) <= 1.
Proof.
  induction s as [|c s IH]; intros cur Hs; simpl.
  - destruct cur; simpl; lia.
  - simpl in Hs. apply orb_false_iff in Hs as [-> Hs]. by apply IH.
Qed.

(** The first of several words is not the whole phrase. *)
Lemma first_word_differs query w0 w1 rest :
  Py.split_ws query = w0 :: w1 :: rest -> w0 <> query.
Proof.
  intros Hsplit ->.
  assert (Hns : Py.has_space query = false).
  { apply (split_ws_go_words query EmptyString); [done|].
    fold (Py.split_ws query). rewrite Hsplit. by left. }
  pose proof (split_ws_go_one_word query EmptyString Hns) as Hlen.
  fold (Py.split_ws query) in Hlen. rewrite Hsplit in Hlen. simpl in Hlen. lia.
Qed.

End PyFacts.

(* --------------------------------------------------------------------- *)
(** ** Extractor: per-page triage and the page counters *)
(* --------------------------------------------------------------------- *)

Module PdfParserFacts.
Import PdfParser Samples.

Lemma fresh_stats_total : stats_total fresh_stats = Some 0.
Proof. reflexivity. Qed.

Lemma counters_present_total s :
  counters_present s <-> is_Some (stats_total s).
Proof.
  unfold counters_present, stats_total. split.
  - intros ([d ->] & [o ->] & [h ->]). eauto.
  - destruct (s !! "digital_pages"), (s !! "ocr_pages"), (s !! "hybrid_pages");
      intros [k Hk]; try discriminate; eauto.
Qed.

Lemma init_counters_present path pages p :
  init path (Some pages) = Some p ->
  counters_present (extraction_stats p) /\ num_pages p = length (doc p).
Proof.
  intros [= <-]. simpl. split; [|done].
  apply counters_present_total. rewrite fresh_stats_total. eauto.
Qed.

(** Bumping one of the three counters raises the total by one and leaves the
    two other counters alone. *)
Lemma bump_total key s k :
  key ∈ ["digital_pages"; "ocr_pages"; "hybrid_pages"] ->
  stats_total s = Some k ->
  exists s', bump key s = Some s' /\ stats_total s' = Some (S k)
    /\ (forall v, s !! key = Some v -> s' !! key = Some (v + 1))
    /\ (forall other, other <> key -> s' !! other = s !! other).
Proof.
  intros Hkey Htot. unfold stats_total in Htot.
  destruct (s !! "digital_pages") as [d|] eqn:Hd; [|done].
  destruct (s !! "ocr_pages") as [o|] eqn:Ho; [|done].
  destruct (s !! "hybrid_pages") as [h|] eqn:Hh; [|done].
  injection Htot as <-.
  unfold bump.
  repeat (apply elem_of_cons in Hkey as [-> | Hkey]);
    [| | | by apply elem_of_nil in Hkey].
  all: first [rewrite Hd | rewrite Ho | rewrite Hh].
  all: eexists; split; [reflexivity|]; unfold stats_total.
  all: split; [simplify_map_eq; f_equal; lia|].
  all: split; [intros v Hv; simplify_map_eq; done|].
  all: intros other Hne; by rewrite lookup_insert_ne.
Qed.

(** What a call of [extract_text_from_page] on an existing page does, in one
    statement: the text returned, the OCR trace, and the counter bumped. *)
Lemma extract_text_from_page_spec n pg p k :
  doc p !! n = Some pg ->
  stats_total (extraction_stats p) = Some k ->
  let digital := Py.strip (get_text pg) in
  let ocr := Py.strip (image_to_string pg) in
  exists p',
    extract_text_from_page n p
      = Some (if MIN_DIGITAL_TEXT_THRESHOLD <? String.length digital then digital
              else if String.length digital <? String.length ocr then ocr
                   else digital, p')
    /\ ocr_calls p'
       = (if MIN_DIGITAL_TEXT_THRESHOLD <? String.length digital
          then ocr_calls p else ocr_calls p ++ [n])
    /\ stats_total (extraction_stats p') = Some (S k)
    /\ doc p' = doc p /\ num_pages p' = num_pages p.
Proof.
  intros Hpg Htot digital ocr. unfold extract_text_from_page. rewrite Hpg.
  fold digital. simpl. fold ocr.
  destruct (MIN_DIGITAL_TEXT_THRESHOLD <? String.length digital).
  - destruct (bump_total "digital_pages" _ k ltac:(set_solver) Htot)
      as (s' & -> & Hs' & _). eexists; repeat split; done.
  - destruct (String.length digital <? String.length ocr).
    + destruct (bump_total "ocr_pages" _ k ltac:(set_solver) Htot)
        as (s' & -> & Hs' & _). eexists; repeat split; done.
    + destruct (bump_total "hybrid_pages" _ k ltac:(set_solver) Htot)
        as (s' & -> & Hs' & _). eexists; repeat split; done.
Qed.

(** C5. For a page of the document, [extract_text_from_page] returns the
    (stripped) digital text whenever it has more than 100 characters, without
    calling the OCR engine; otherwise it calls the OCR engine on that page and
    returns the OCR text if it is strictly longer than the digital text, and
    the digital text if not. *)
Theorem extract_text_from_page_triage n pg p :
  doc p !! n = Some pg ->
  counters_present (extraction_stats p) ->
  let digital := Py.strip (get_text pg) in
  let ocr := Py.strip (image_to_string pg) in
  exists out p',
    extract_text_from_page n p = Some (out, p')
    /\ (100 < String.length digital ->
        out = digital /\ ocr_calls p' = ocr_calls p)
    /\ (String.length digital <= 100 ->
        ocr_calls p' = ocr_calls p ++ [n]
        /\ (String.length digital < String.length ocr -> out = ocr)
        /\ (String.length ocr <= String.length digital -> out = digital)).
Proof.
  intros Hpg Hc digital ocr.
  apply counters_present_total in Hc as [k Hk].
  destruct (extract_text_from_page_spec n pg p k Hpg Hk) as (p' & He & Ho & _).
  fold digital ocr in He, Ho. unfold MIN_DIGITAL_TEXT_THRESHOLD in *.
  eexists _, p'. split; [exact He|].
  destruct (Nat.ltb_spec 100 (String.length digital)) as [Hlt|Hge].
  - split; [done | lia].
  - split; [lia|]. intros _. split; [done|].
    destruct (Nat.ltb_spec (String.length digital) (String.length ocr));
      split; intros; first [done | lia].
Qed.

Lemma extract_text_from_page_triage_witness :
  exists out p',
    extract_text_from_page 0 c5_parser = Some (out, p')
    /\ out = "Scanned heading
and one line of body text"
    /\ ocr_calls p' = [0].
Proof.
  destruct (extract_text_from_page_triage 0 c5_page_short c5_parser)
    as (out & p' & He & _ & Hshort).
  - reflexivity.
  - unfold counters_present. simpl. repeat split; eexists; reflexivity.
  - exists out, p'. split; [exact He|].
    destruct Hshort as (Hlog & Hocr & _).
    + vm_compute. lia.
    + split; [apply Hocr; vm_compute; lia | exact Hlog].
Defined.

Lemma process_pages_total nums : forall p acc k,
  Forall (fun n => n < length (doc p)) nums ->
  stats_total (extraction_stats p) = Some k ->
  exists entries p',
    process_pages nums p acc = Some (entries, p')
    /\ stats_total (extraction_stats p') = Some (k + length nums)
    /\ length entries = length acc + length nums
    /\ num_pages p' = num_pages p.
Proof.
  induction nums as [|n nums IH]; intros p acc k Hin Htot; simpl.
  - exists acc, p. rewrite !Nat.add_0_r. done.
  - apply Forall_cons in Hin as [Hn Hin].
    destruct (lookup_lt_is_Some_2 (doc p) n Hn) as [pg Hpg].
    destruct (extract_text_from_page_spec n pg p k Hpg Htot)
      as (p' & -> & _ & Htot' & Hdoc & Hnum).
    match goal with |- context [process_pages nums p' ?a] =>
      destruct (IH p' a (S k)) as (entries & p'' & -> & Ht & Hl & Hn');
        [by rewrite Hdoc | done |]
    end.
    exists entries, p''. split; [done|].
    rewrite Ht, Hl, Hn', Hnum, length_app. simpl.
    repeat split; first [f_equal; lia | lia].
Qed.

(** C10. A call of [extract_structured_content] returns, and afterwards the
    three counters (on the parser and in the copy stored in the result) add
    up to the number of pages: they are reset first, and each page bumps
    exactly one of them. *)
Theorem extract_structured_content_counters p :
  num_pages p = length (doc p) ->
  exists c p' d o h,
    extract_structured_content p = Some (c, p')
    /\ extraction_stats p' !! "digital_pages" = Some d
    /\ extraction_stats p' !! "ocr_pages" = Some o
    /\ extraction_stats p' !! "hybrid_pages" = Some h
    /\ d + o + h = num_pages p
    /\ c_extraction_stats c = extraction_stats p'
    /\ c_num_pages c = num_pages p
    /\ length (pages c) = num_pages p.
Proof.
  intros Hn. unfold extract_structured_content.
  destruct (process_pages_total (seq 0 (num_pages (set_stats p fresh_stats)))
              (set_stats p fresh_stats) [] 0)
    as (entries & p' & -> & Htot & Hlen & Hnum).
  - simpl. rewrite Hn. apply Forall_forall. intros x Hx.
    apply list_elem_of_In, in_seq in Hx. lia.
  - reflexivity.
  - rewrite length_seq in Htot, Hlen. simpl in *.
    unfold stats_total in Htot.
    destruct (extraction_stats p' !! "digital_pages") as [d|] eqn:Hd; [|done].
    destruct (extraction_stats p' !! "ocr_pages") as [o|] eqn:Ho; [|done].
    destruct (extraction_stats p' !! "hybrid_pages") as [h|] eqn:Hh; [|done].
    injection Htot as Htot.
    eexists _, p', d, o, h. simpl. repeat split; done.
Qed.

Lemma extract_structured_content_counters_witness :
  exists c p' d o h,
    extract_structured_content c5_parser = Some (c, p')
    /\ extraction_stats p' !! "digital_pages" = Some d
    /\ extraction_stats p' !! "ocr_pages" = Some o
    /\ extraction_stats p' !! "hybrid_pages" = Some h
    /\ d + o + h = 1.
Proof.
  destruct (extract_structured_content_counters c5_parser)
    as (c & p' & d & o & h & H1 & H2 & H3 & H4 & H5 & _).
  - reflexivity.
  - exists c, p', d, o, h. repeat split; assumption.
Defined.

End PdfParserFacts.

(* --------------------------------------------------------------------- *)
(** ** AI service wrapper: credential rotation *)
(* --------------------------------------------------------------------- *)

Module GeminiFacts.
Import Gemini Samples.

Lemma init_on_key keys : keys <> [] -> on_key (init keys) 0.
Proof.
  destruct keys as [|k keys]; [done|]. intros _.
  unfold on_key, init, _init_client. simpl. repeat split. lia.
Qed.






End GeminiFacts.

(* --------------------------------------------------------------------- *)
(** ** Icon resolver: the acquisition chain *)
(* --------------------------------------------------------------------- *)

Module ImageGeneratorFacts.
Import Gemini ImageGenerator Samples.

Lemma try_search_download_log net q path limit w ok w' :
  _try_search_download net q path limit w = (ok, w') ->
  attempts w' = attempts w ++ [(q, ok)].
Proof.
  unfold _try_search_download.
  destruct (fetch_icon net (attempts w) q limit); intros [= <- <-]; done.
Qed.

(** The title heuristic avoids every failed query as long as fewer than five
    have failed (it has five generic terms to fall back on). *)
Lemma extract_alternative_fresh title avoid :
  length avoid < 5 -> _extract_alternative_from_title title avoid ∉ avoid.
Proof.
  intros Hlen. unfold _extract_alternative_from_title.
  destruct (find _ (important_words title)) as [c|] eqn:Hc.
  { apply find_some in Hc as [_ Hc]. apply negb_true_iff in Hc.
    by apply PyFacts.mem_false_iff. }
  destruct (find _ generic_fallbacks) as [f|] eqn:Hf.
  { apply find_some in Hf as [_ Hf]. apply negb_true_iff in Hf.
    by apply PyFacts.mem_false_iff. }
  exfalso.
  assert (Hsub : generic_fallbacks ⊆+ avoid).
  { apply NoDup_submseteq.
    - by apply (bool_decide_unpack _).
    - intros x Hx. apply list_elem_of_In in Hx.
      pose proof (find_none _ _ Hf x Hx) as Hn. simpl in Hn.
      apply negb_false_iff in Hn. by apply PyFacts.mem_true_iff. }
  apply submseteq_length in Hsub. simpl in Hsub. lia.
Qed.

(** Hence an alternative query never equals a query that already failed. *)
Lemma generate_alternative_query_fresh svc title bullets failed gen :
  length failed < 5 ->
  (generate_alternative_query svc title bullets failed gen).1 ∉ failed.
Proof.
  intros Hlen. unfold generate_alternative_query.
  destruct (_call_gemini svc _ gen) as [[[answer|]|e] gen'] eqn:Hcall; simpl;
    try by apply extract_alternative_fresh.
  destruct (Py.mem (clean_query answer) failed) eqn:Hmem; simpl.
  - by apply extract_alternative_fresh.
  - by apply PyFacts.mem_false_iff.
Qed.

Lemma NoDup_snoc (l : list string) x : NoDup l -> x ∉ l -> NoDup (l ++ [x]).
Proof.
  intros Hl Hx. apply NoDup_app. split; [done|]. split.
  - intros y Hy ->%list_elem_of_singleton. done.
  - apply NoDup_singleton.
Qed.

(** The alternatives loop: at most [retries] attempts, stopping at the first
    that succeeds; when none does, all of them are recorded as failed; and no
    alternative repeats a failed query or an earlier alternative. *)
Lemma alternatives_loop_log net svc path limit title bullets :
  forall retries failed w gen ok failed' w' gen',
  alternatives_loop net svc retries path limit title bullets failed w gen
    = (ok, failed', w', gen') ->
  exists tried : list (string * bool),
    attempts w' = attempts w ++ tried
    /\ length tried <= retries
    /\ (if ok
        then exists pre q, tried = pre ++ [(q, true)] /\ all_failed pre
        else all_failed tried /\ length tried = retries
             /\ failed' = failed ++ (fst <$> tried))
    /\ (length failed + retries <= 5 -> NoDup failed ->
        NoDup (failed ++ (fst <$> tried))).
Proof.
  induction retries as [|k IH]; intros failed w gen ok failed' w' gen' Hrun;
    simpl in Hrun.
  - injection Hrun as <- <- <- <-. exists []. simpl. rewrite !app_nil_r.
    repeat split; first [done | constructor].
  - pose proof (generate_alternative_query_fresh svc title bullets failed gen)
      as Hfresh.
    destruct (generate_alternative_query svc title bullets failed gen)
      as [alt gen1]. simpl in Hfresh.
    destruct (_try_search_download net alt path limit w) as [ok1 w1] eqn:Htry.
    apply try_search_download_log in Htry.
    destruct ok1.
    + injection Hrun as <- <- <- <-. exists [(alt, true)].
      split; [done|]. split; [simpl; lia|]. split.
      * exists [], alt. split; [done | constructor].
      * intros Hlen Hnd. simpl. apply NoDup_snoc; [done|]. apply Hfresh. lia.
    + apply IH in Hrun as (tried & Hlog & Hlen & Hok & Hnd).
      exists ((alt, false) :: tried).
      split; [rewrite Hlog, Htry, <- app_assoc; done|].
      split; [simpl; lia|]. split.
      * destruct ok.
        -- destruct Hok as (pre & q & -> & Hpre).
           exists ((alt, false) :: pre), q. split; [done|].
           by constructor.
        -- destruct Hok as (Hall & Hn & ->).
           repeat split; [by constructor | simpl; lia |].
           by rewrite <- app_assoc.
      * intros Hbound Hnodup. simpl.
        rewrite cons_middle, (assoc_L (++) failed [alt]). apply Hnd.
        -- rewrite length_app. simpl. lia.
        -- apply NoDup_snoc; [done|]. apply Hfresh. lia.
Qed.

(** Appends and maps over them, brought to right-nested form. *)
Ltac list_norm :=
  repeat first [progress simpl | rewrite <- app_assoc | rewrite fmap_app].

Lemma first_word_length query : length (first_word query) <= 1.
Proof.
  unfold first_word. destruct (1 <? length (Py.split_ws query)); simpl; [|lia].
  rewrite length_take. lia.
Qed.

Lemma all_failed_app l1 l2 : all_failed l1 -> all_failed l2 -> all_failed (l1 ++ l2).
Proof. unfold all_failed. intros. by apply Forall_app. Qed.

(** The whole chain.  The queries go out in the order original phrase, first
    word of a multi-word phrase, at most two alternatives, "circle"; the call
    stops at the first attempt that succeeds; when it reports failure every
    step of the plan was tried, "circle" last; no call makes more than five
    attempts; the attempts before the last are pairwise different, and the
    last one can repeat an earlier one only by being "circle". *)
Lemma search_and_download_chain net svc query path limit qg title bullets w ok w' qg' :
  search_and_download net svc query path limit qg title bullets w = (ok, w', qg') ->
  exists (alts : list string) (pre : list (string * bool)) (q : string),
    length alts <= 2
    /\ attempts w' = attempts w ++ pre ++ [(q, ok)]
    /\ all_failed pre
    /\ (fst <$> (pre ++ [(q, ok)]))
         `prefix_of` (query :: first_word query ++ alts ++ ["circle"])
    /\ (ok = false ->
        fst <$> (pre ++ [(q, ok)]) = query :: first_word query ++ alts ++ ["circle"])
    /\ length (pre ++ [(q, ok)]) <= 5
    /\ NoDup (fst <$> pre)
    /\ (q ∈ (fst <$> pre) -> q = "circle").
Proof.
  unfold search_and_download.
  destruct (_try_search_download net query path limit w) as [ok1 w1] eqn:H1.
  apply try_search_download_log in H1.
  destruct ok1.
  { intros [= <- <- <-]. exists [], [], query.
    repeat split; simpl; try done; try lia; try constructor.
    - eexists. reflexivity.
    - by intros ?%elem_of_nil. }
  destruct (first_word_attempt net query path limit [query] w1)
    as [[ok2 failed2] w2] eqn:H2.
  assert (exists tried2, attempts w2 = attempts w1 ++ tried2
            /\ NoDup (query :: (fst <$> tried2))
            /\ (if ok2 then exists w0, tried2 = [(w0, true)] /\ first_word query = [w0]
                else all_failed tried2 /\ fst <$> tried2 = first_word query
                     /\ failed2 = query :: (fst <$> tried2)))
    as (tried2 & Hlog2 & Hnd2 & Hok2).
  { unfold first_word. unfold first_word_attempt in H2.
    destruct (1 <? length (Py.split_ws query)) eqn:Hmw.
    - destruct (Py.split_ws query) as [|w0 [|second rest]] eqn:Hsplit;
        [done|done|].
      pose proof (PyFacts.first_word_differs _ _ _ _ Hsplit) as Hne.
      simpl in H2.
      destruct (_try_search_download net w0 path limit w1) as [okf wf] eqn:Hf.
      apply try_search_download_log in Hf. injection H2 as <- <- <-.
      exists [(w0, okf)]. split; [done|]. split.
      { simpl. apply NoDup_cons. split; [|apply NoDup_singleton].
        intros ->%list_elem_of_singleton. done. }
      destruct okf.
      + exists w0. done.
      + split; [repeat constructor | done].
    - injection H2 as <- <- <-. exists []. rewrite app_nil_r.
      split; [done|]. split; [apply NoDup_singleton|].
      repeat split. constructor. }
  clear H2. destruct ok2.
  { intros [= <- <- <-]. destruct Hok2 as (w0 & -> & Hfw).
    exists [], [(query, false)], w0. rewrite Hfw.
    repeat split; simpl; try done; try lia.
    - rewrite Hlog2, H1. by list_norm.
    - repeat constructor.
    - eexists. reflexivity.
    - apply NoDup_singleton.
    - intros ->%list_elem_of_singleton. simpl in Hnd2.
      apply NoDup_cons in Hnd2 as [Hnin _]. exfalso. apply Hnin. by left. }
  destruct Hok2 as (Hall2 & Hfst2 & Hfailed2).
  assert (Hlen2 : length tried2 <= 1).
  { rewrite <- (length_fmap fst), Hfst2. apply first_word_length. }
  destruct (alternatives_attempts net svc path limit qg title bullets failed2 w2)
    as [[[ok3 failed3] w3] gen3] eqn:H3.
  assert (exists tried3, attempts w3 = attempts w2 ++ tried3
            /\ length tried3 <= 2
            /\ (if ok3 then exists pre3 q3, tried3 = pre3 ++ [(q3, true)] /\ all_failed pre3
                else all_failed tried3)
            /\ NoDup (failed2 ++ (fst <$> tried3)))
    as (tried3 & Hlog3 & Hlen3 & Hok3 & Hnd3).
  { assert (Hskip : (false, failed2, w2, qg) = (ok3, failed3, w3, gen3) ->
              exists tried3, attempts w3 = attempts w2 ++ tried3
                /\ length tried3 <= 2
                /\ (if ok3 then exists pre3 q3,
                       tried3 = pre3 ++ [(q3, true)] /\ all_failed pre3
                    else all_failed tried3)
                /\ NoDup (failed2 ++ (fst <$> tried3))).
    { intros [= <- <- <- <-]. exists []. simpl. rewrite !app_nil_r.
      repeat split; [simpl; lia | constructor | by rewrite Hfailed2]. }
    unfold alternatives_attempts in H3.
    destruct qg as [gen|]; [|by apply Hskip].
    destruct title as [[|c t]|]; [by apply Hskip| |by apply Hskip].
    destruct bullets as [[|b bs]|]; [by apply Hskip| |by apply Hskip].
    destruct (alternatives_loop net svc 2 path limit (String c t) (b :: bs)
                failed2 w2 gen) as [[[oka faileda] wa] gena] eqn:Ha.
    injection H3 as <- <- <- <-.
    apply alternatives_loop_log in Ha as (tried3 & Hlog & Hlen & Hok & Hnd).
    exists tried3. split; [done|]. split; [done|]. split.
    - destruct oka; [done | by destruct Hok].
    - apply Hnd; [|by rewrite Hfailed2].
      rewrite Hfailed2. simpl. rewrite length_fmap. lia. }
  clear H3. rewrite Hfailed2 in Hnd3.
  destruct ok3.
  { intros [= <- <- <-]. destruct Hok3 as (pre3 & q3 & -> & Hpre3).
    exists (fst <$> (pre3 ++ [(q3, true)])), ((query, false) :: tried2 ++ pre3), q3.
    rewrite length_fmap. split; [done|].
    split; [rewrite Hlog3, Hlog2, H1; by list_norm|].
    split; [constructor; [done | by apply all_failed_app]|].
    split; [exists ["circle"]; list_norm; by rewrite Hfst2|].
    split; [done|].
    split; [rewrite length_app in Hlen3; simpl in *; rewrite !length_app; simpl; lia|].
    assert (Heq : (query :: (fst <$> tried2)) ++ (fst <$> (pre3 ++ [(q3, true)]))
                  = (fst <$> ((query, false) :: tried2 ++ pre3)) ++ [q3])
      by (by list_norm).
    rewrite Heq in Hnd3. apply NoDup_app in Hnd3 as (Hnd & Hdisj & _).
    split; [done|]. intros Hin. exfalso.
    apply (Hdisj q3 Hin). by left. }
  destruct (_try_search_download net "circle" path limit w3) as [ok4 w4] eqn:H4.
  apply try_search_download_log in H4.
  intros [= <- <- <-].
  exists (fst <$> tried3), ((query, false) :: tried2 ++ tried3), "circle".
  rewrite length_fmap. split; [done|].
  split; [rewrite H4, Hlog3, Hlog2, H1; by list_norm|].
  split; [constructor; [done | by apply all_failed_app]|].
  assert (Hplan : fst <$> ((query, false) :: tried2 ++ tried3) ++ [("circle", ok4)]
                  = query :: first_word query ++ (fst <$> tried3) ++ ["circle"]).
  { list_norm. by rewrite Hfst2. }
  split; [rewrite Hplan; done|]. split; [done|].
  split; [simpl; rewrite !length_app; simpl; lia|].
  split; [|done]. revert Hnd3. by list_norm.
Qed.

(** The icon dictionary of a deck: whatever key it has is "title" with the
    title icon, or the key of content slide [i], [1 <= i <= n], with the file
    slide_[i].png (two digits). *)
Lemma icon_for_entries net svc key path title bullets paths gen w dir first last :
  (forall k p, paths !! k = Some p -> icon_entry_ok dir first last k p) ->
  icon_entry_ok dir first last key path ->
  forall k p, (icon_for net svc key path title bullets paths gen w).1.1 !! k = Some p ->
    icon_entry_ok dir first last k p.
Proof.
  intros Hinv Hnew k p. unfold icon_for.
  destruct (generate_icon_query svc title bullets gen) as [query gen1].
  destruct (search_and_download _ _ _ _ _ _ _ _ _) as [[success w1] gen2]. simpl.
  destruct success; [|by apply Hinv].
  destruct (decide (key = k)) as [<-|Hne].
  - rewrite lookup_insert_eq. by intros [= <-].
  - rewrite lookup_insert_ne by done. by apply Hinv.
Qed.

Lemma icons_loop_entries net svc dir first : forall slides start paths gen w last,
  first <= start -> start + length slides <= S last ->
  (forall k p, paths !! k = Some p -> icon_entry_ok dir first last k p) ->
  forall k p,
    (icons_loop net svc dir (Py.enumerate start slides) paths gen w).1.1 !! k = Some p ->
    icon_entry_ok dir first last k p.
Proof.
  induction slides as [|slide slides IH]; intros start paths gen w last Hf Hl Hinv;
    simpl; [done|].
  pose proof (icon_for_entries net svc ("slide_" +:+ Py.str_of_nat start)
                (icon_path dir start) (slide_title slide) (slide_bullets slide)
                paths gen w dir first last Hinv) as Hstep.
  destruct (icon_for _ _ _ _ _ _ _ _ _) as [[paths' gen'] w']. simpl in Hstep.
  apply IH; [lia | simpl in Hl; lia |].
  apply Hstep. right. exists start. simpl in Hl. repeat split; lia.
Qed.

Lemma generate_icons_for_slides_entries net svc keys data dir w paths w' :
  generate_icons_for_slides net svc keys (Some data) dir w = (Ok paths, w') ->
  forall k p, paths !! k = Some p ->
    icon_entry_ok dir 1 (length (content_slides data)) k p.
Proof.
  unfold generate_icons_for_slides.
  pose proof (icon_for_entries net svc "title" (title_icon_path dir)
                (title_of_deck data) [subtitle_of_deck data] ∅ (init keys) w dir
                1 (length (content_slides data))) as Htitle.
  destruct (icon_for _ _ _ _ _ _ _ _ _) as [[paths0 gen1] w1]. simpl in Htitle.
  pose proof (icons_loop_entries net svc dir 1 (content_slides data) 1 paths0
                gen1 w1 (length (content_slides data))) as Hloop.
  destruct (icons_loop _ _ _ _ _ _ _) as [[paths1 gen2] w2]. simpl in Hloop.
  intros [= <- <-]. apply Hloop; [lia | lia |].
  apply Htitle; [by intros k p ?%lookup_empty_Some | by left].
Qed.

(** C1, at an input where the cap fails.  A two-word phrase, every search
    without result, the AI service suggesting two more phrases: the call goes
    through all five steps of the chain, one more than the [max_attempts = 4]
    the method declares. *)
Theorem search_and_download_exceeds_max_attempts :
  exists w' gen',
    search_and_download no_icons brain_graph "neural network"
      "images/slide_01.png" 1 (Some (init c7_keys)) (Some "Neural Networks")
      (Some ["Layers of neurons"]) empty_world = (false, w', gen')
    /\ fst <$> attempts w'
       = ["neural network"; "neural"; "brain"; "graph"; "circle"]
    /\ max_attempts < length (attempts w').
Proof.
  eexists _, _. split; [vm_compute; reflexivity|].
  split; [reflexivity | simpl; unfold max_attempts; lia].
Qed.

(** C3, at an input where a failed query is repeated.  The derived phrase is
    "circle"; it fails, and the final fallback sends "circle" again. *)
Theorem search_and_download_repeats_circle :
  exists w',
    search_and_download no_icons brain_graph "circle" "images/slide_01.png" 1
      None None None empty_world = (false, w', None)
    /\ attempts w' = [("circle", false); ("circle", false)]
    /\ ~ NoDup (fst <$> attempts w').
Proof.
  eexists. split; [vm_compute; reflexivity|]. split; [reflexivity|].
  simpl. intros Hnd. apply NoDup_cons in Hnd as [Hin _]. set_solver.
Qed.

End ImageGeneratorFacts.

(* --------------------------------------------------------------------- *)
(** ** Deck renderer: greedy word wrap *)
(* --------------------------------------------------------------------- *)

Module PdfSlideCreatorFacts.
Import PdfSlideCreator.

Lemma append_cons c s t : String c s +:+ t = String c (s +:+ t).
Proof. reflexivity. Qed.

Lemma append_assoc s t u : (s +:+ t) +:+ u = s +:+ t +:+ u.
Proof.
  induction s as [|c s IH]; [reflexivity|].
  by rewrite !append_cons, IH.
Qed.

Lemma nonempty_append s t : nonempty s = true -> nonempty (s +:+ t) = true.
Proof. by destruct s. Qed.

Lemma join_cons2 sep a b l :
  Py.join sep (a :: b :: l) = a +:+ sep +:+ Py.join sep (b :: l).
Proof. reflexivity. Qed.

(** Two neighbours glued with the separator join to the same string. *)
Lemma join_merge sep c w rest : forall pre,
  Py.join sep (pre ++ (c +:+ sep +:+ w) :: rest)
  = Py.join sep (pre ++ c :: w :: rest).
Proof.
  induction pre as [|a pre IH].
  - simpl app. rewrite join_cons2. destruct rest as [|r rest]; [done|].
    rewrite !join_cons2. by rewrite !append_assoc.
  - destruct pre as [|b pre].
    + simpl app in *. rewrite !join_cons2. by rewrite IH.
    + simpl app in *. rewrite !(join_cons2 sep a). by rewrite IH.
Qed.

Lemma rev_onto_nonempty a : forall b,
  b <> EmptyString -> Py.rev_onto a b <> EmptyString.
Proof. induction a as [|c a IH]; intros b Hb; simpl; [done|]. by apply IH. Qed.

(** The words [split()] gives are not empty. *)
Lemma split_ws_go_nonempty s : forall cur w,
  w ∈ Py.split_ws_go cur s -> nonempty w = true.
Proof.
  assert (Hrev : forall c cur, nonempty (Py.rev (String c cur)) = true).
  { intros c cur. unfold Py.rev. simpl.
    pose proof (rev_onto_nonempty cur (String c EmptyString) ltac:(done)) as H.
    by destruct (Py.rev_onto cur (String c EmptyString)). }
  induction s as [|c s IH]; intros cur w; simpl.
  - destruct cur; [by intros ?%elem_of_nil|].
    intros ->%list_elem_of_singleton. apply Hrev.
  - destruct (Py.isspace c).
    + destruct cur as [|c0 cur]; [by apply IH|].
      intros [->|Hw]%elem_of_cons; [apply Hrev | by apply (IH EmptyString)].
    + apply IH.
Qed.

Lemma wrap_loop_join width max_width words : forall lines cur,
  Forall (fun w => nonempty w = true) words ->
  Forall (fun l => nonempty l = true) lines ->
  nonempty cur = true \/ lines = [] ->
  let out := wrap_loop width max_width words lines cur in
  Py.join " " (flush out.1 out.2) = Py.join " " (flush lines cur ++ words)
  /\ Forall (fun l => nonempty l = true) (flush out.1 out.2).
Proof.
  induction words as [|word rest IH]; intros lines cur Hw Hl Hc; simpl.
  - rewrite app_nil_r. split; [done|]. unfold flush.
    destruct (nonempty cur) eqn:Hne; [|done].
    apply Forall_app. split; [done|]. by constructor.
  - apply Forall_cons in Hw as [Hword Hrest].
    destruct (nonempty cur) eqn:Hne.
    + destruct (Qlt_bool _ max_width).
      * destruct (IH lines (cur +:+ " " +:+ word) Hrest Hl) as [Hj Hf];
          [left; by apply nonempty_append|].
        split; [|exact Hf]. rewrite Hj. unfold flush.
        rewrite Hne, nonempty_append by done.
        rewrite <- !app_assoc. simpl app. apply join_merge.
      * destruct (IH (lines ++ [cur]) word Hrest) as [Hj Hf];
          [apply Forall_app; split; [done | by constructor] | by left |].
        split; [|exact Hf]. rewrite Hj. unfold flush. rewrite Hne, Hword.
        by rewrite <- !app_assoc.
    + destruct Hc as [Hc | ->]; [congruence|].
      destruct cur; [|done].
      change (EmptyString +:+ EmptyString +:+ word) with word.
      destruct (Qlt_bool _ max_width);
        (destruct (IH [] word Hrest) as [Hj Hf]; [constructor | by left |]);
        (split; [|exact Hf]); rewrite Hj; unfold flush; by rewrite Hword.
Qed.

Lemma Qlt_bool_iff a b : Qlt_bool a b = true <-> (a < b)%Q.
Proof.
  unfold Qlt_bool. rewrite negb_true_iff. split.
  - intros Hle. apply Qnot_le_lt. intros Hc.
    apply Qle_bool_iff in Hc. congruence.
  - intros Hlt. destruct (Qle_bool b a) eqn:Hle; [|done].
    apply Qle_bool_iff in Hle. by apply Qlt_not_le in Hlt.
Qed.

Section Wrap.
Variable width : string -> Q.
Variable max_width : Q.
Variable all_words : list string.

Local Abbreviation fits_or_word := (fits_or_word width max_width all_words).

Lemma wrap_loop_lines words : forall lines current_line lines' current_line',
  wrap_loop width max_width words lines current_line = (lines', current_line') ->
  (forall w, w ∈ words -> w ∈ all_words) ->
  Forall fits_or_word lines ->
  (nonempty current_line = true -> fits_or_word current_line) ->
  Forall fits_or_word lines'
  /\ (nonempty current_line' = true -> fits_or_word current_line').
Proof.
  induction words as [|word rest IH];
    intros lines cur lines' cur' Hrun Hsub Hlines Hcur; simpl in Hrun.
  - by injection Hrun as <- <-.
  - destruct (Qlt_bool _ max_width) eqn:Hfit.
    + eapply IH; [exact Hrun | | done |].
      * intros w Hw. apply Hsub. by right.
      * intros _. left. by apply Qlt_bool_iff.
    + eapply IH; [exact Hrun | | |].
      * intros w Hw. apply Hsub. by right.
      * destruct (nonempty cur) eqn:Hne; [|done].
        apply Forall_app. split; [done|]. constructor; [by apply Hcur | constructor].
      * intros _. right. apply Hsub. by left.
Qed.

Lemma wrap_words_lines line :
  line ∈ wrap_words width max_width all_words -> fits_or_word line.
Proof.
  unfold wrap_words.
  destruct (wrap_loop width max_width all_words [] EmptyString)
    as [lines cur] eqn:Hrun.
  apply wrap_loop_lines in Hrun as [Hlines Hcur]; [|done|constructor|done].
  intros Hin. destruct (nonempty cur).
  - apply elem_of_app in Hin as [Hin|Hin].
    + by eapply (proj1 (Forall_forall _ _) Hlines).
    + apply list_elem_of_singleton in Hin as ->. by apply Hcur.
  - by eapply (proj1 (Forall_forall _ _) Hlines).
Qed.

End Wrap.


Section Greedy.
Variable width : string -> Q.
Variable max_width : Q.






End Greedy.


(** The same for the bullets of a content slide. *)
Lemma bullet_lines_fit_or_single_word stringWidth bullet line :
  line ∈ bullet_lines stringWidth bullet ->
  (stringWidth line "Helvetica" 18%Z < inject_Z max_text_width)%Q
  \/ line ∈ Py.split_ws ("- " +:+ bullet).
Proof. unfold bullet_lines. apply wrap_words_lines. Qed.


End PdfSlideCreatorFacts.

(* --------------------------------------------------------------------- *)
(** ** Summarizer: bullets per slide and the shape of the deck *)
(* --------------------------------------------------------------------- *)

Module SummarizerFacts.
Import Gemini Summarizer Samples.

Lemma prefix_n_length n s : String.length (Py.prefix_n n s) <= n.
Proof.
  revert s. induction n as [|n IH]; intros [|c s]; simpl; try lia.
  specialize (IH s). lia.
Qed.

Lemma py_slice3_shape v v3 :
  py_slice3 v = Ok v3 ->
  (exists items, v3 = JArr items /\ length items <= 3)
  \/ (exists s, v3 = JStr s /\ String.length s <= 3).
Proof.
  destruct v; intros H; try discriminate H; injection H as <-.
  - right. exists (Py.prefix_n 3 s). split; [done | apply prefix_n_length].
  - left. exists (take 3 items). split; [done|]. rewrite length_take. lia.
Qed.

(** A slide that passes the validation carries the first three of the
    bullets the service sent: of a list, and as well of a text. *)
Lemma validate_slide_bullets slide d :
  validate_slide slide = Ok (Some d) ->
  bullets_list (fun n => n <= 3) d \/ bullets_chars d.
Proof.
  unfold validate_slide. intros H.
  destruct (py_in "title" slide) as [[]|]; simpl in H; try done.
  destruct (py_in "bullets" slide) as [[]|]; simpl in H; try done.
  destruct (py_in "speaker_notes" slide) as [[]|]; simpl in H; try done.
  destruct (py_getitem slide "title") as [t|]; simpl in H; try done.
  destruct (py_getitem slide "bullets") as [b|]; simpl in H; try done.
  destruct (py_slice3 b) as [b3|] eqn:Hb3; simpl in H; try done.
  destruct (py_getitem slide "speaker_notes") as [n|]; simpl in H; try done.
  injection H as <-.
  apply py_slice3_shape in Hb3 as [(items & -> & Hle) | (txt & -> & Hle)].
  - left. by exists t, items, n.
  - right. by exists t, txt, n.
Qed.

(** On a slide object with the three fields and a list of bullets, the
    validation keeps title and notes and cuts the bullets after the third. *)
Lemma validate_slide_first_three fields title items notes :
  lookup_field "title" fields = Some title ->
  lookup_field "bullets" fields = Some (JArr items) ->
  lookup_field "speaker_notes" fields = Some notes ->
  validate_slide (JObj fields)
  = Ok (Some (slide_dict title (JArr (take 3 items)) notes)).
Proof.
  intros Ht Hb Hn. unfold validate_slide. simpl. rewrite Ht, Hb, Hn. done.
Qed.

(** When the bullets are one text instead of a list, the validation lets
    the slide pass and keeps the first three characters of the text. *)
Lemma validate_slide_text fields title txt notes :
  lookup_field "title" fields = Some title ->
  lookup_field "bullets" fields = Some (JStr txt) ->
  lookup_field "speaker_notes" fields = Some notes ->
  validate_slide (JObj fields)
  = Ok (Some (slide_dict title (JStr (Py.prefix_n 3 txt)) notes)).
Proof.
  intros Ht Hb Hn. unfold validate_slide. simpl. rewrite Ht, Hb, Hn. done.
Qed.

Lemma validate_slides_bullets slides : forall validated out,
  validate_slides slides validated = Ok out ->
  Forall (fun d => bullets_list (fun n => n <= 3) d \/ bullets_chars d) validated ->
  Forall (fun d => bullets_list (fun n => n <= 3) d \/ bullets_chars d) out.
Proof.
  induction slides as [|slide rest IH]; intros validated out H Hv; simpl in H.
  - by injection H as <-.
  - destruct (validate_slide slide) as [[d|]|] eqn:Hd; simpl in H; try done.
    + apply (IH _ _ H). apply Forall_app. split; [done|].
      constructor; [by apply (validate_slide_bullets slide) | constructor].
    + by apply (IH _ _ H).
Qed.

Lemma slice_to_Forall {A} (P : A -> Prop) n l :
  Forall P l -> Forall P (Py.slice_to n l).
Proof. unfold Py.slice_to. intros H. destruct (0 <=? n)%Z; by apply Forall_take. Qed.

Lemma parse_key_points_bullets py answer max_slides slides :
  parse_key_points py answer max_slides = Ok slides ->
  Forall (fun d => bullets_list (fun n => n <= 3) d \/ bullets_chars d) slides.
Proof.
  unfold parse_key_points. destruct answer as [raw|]; [|done].
  destruct (loads py _) as [v|]; [|done].
  destruct (py_iter v) as [items|]; simpl; [|done].
  destruct (validate_slides items []) as [validated|] eqn:Hv; simpl; [|done].
  intros [= <-]. apply slice_to_Forall.
  by apply (validate_slides_bullets _ _ _ Hv).
Qed.

(** The paragraph-chunking fallback: every slide holds between one and three
    paragraphs as its bullets. *)
Lemma fallback_loop_bullets starts paragraphs pps num_points : forall slides,
  Forall bullets_paragraphs slides ->
  Forall bullets_paragraphs
    (fallback_loop starts paragraphs pps num_points slides).
Proof.
  induction starts as [|i rest IH]; intros slides Hs; simpl; [done|].
  destruct (take pps (drop i paragraphs)) as [|p chunk] eqn:Hchunk.
  - by apply IH.
  - assert (Hnew : Forall bullets_paragraphs
              (slides ++
               [slide_dict
                  (JStr ("Key Point " +:+ Py.str_of_nat (length slides + 1)))
                  (JArr (JStr <$> take 3 (p :: chunk)))
                  (JStr (Py.prefix_n 200 (Py.join " " (p :: chunk))))])).
    { apply Forall_app. split; [done|]. constructor; [|constructor].
      eexists _, _, _. split; [reflexivity|].
      rewrite length_take. cbn [length]. lia. }
    destruct (num_points <=? _)%Z; [done | by apply IH].
Qed.

Lemma fallback_extraction_bullets text num_points slides :
  _fallback_extraction text num_points = Ok slides ->
  Forall bullets_paragraphs slides.
Proof.
  unfold _fallback_extraction. destruct (num_points =? 0)%Z; [done|].
  intros [= <-]. apply fallback_loop_bullets. constructor.
Qed.

Lemma bullets_paragraphs_list slide :
  bullets_paragraphs slide -> bullets_list (fun n => 1 <= n <= 3) slide.
Proof.
  intros (t & ps & n & -> & Hlen). exists t, (JStr <$> ps), n.
  by rewrite length_fmap.
Qed.

(** Where the slides [extract_key_points] returns come from. *)
Lemma extract_key_points_origin py svc decode_error text num_points
    max_slides st slides st' :
  extract_key_points py svc decode_error text num_points max_slides st
  = (Ok slides, st') ->
  (exists answer, parse_key_points py answer max_slides = Ok slides)
  \/ _fallback_extraction text (Z.min num_points max_slides) = Ok slides.
Proof.
  unfold extract_key_points.
  destruct (_call_gemini svc _ st) as [[answer|e] st1].
  - simpl. destruct (parse_key_points py answer max_slides) as [sl|e] eqn:Hp.
    + intros [= <- <-]. left. eauto.
    + intros [= -> <-]. by right.
  - destruct e; simpl; try (intros [= -> <-]; by right).
    destruct (decode_error _ _ _); [done|]. intros [= -> <-]. by right.
Qed.

(** C6, as the code has it.  Every slide [extract_key_points] returns is the
    dictionary of the three fields title, bullets and speaker_notes, with the
    bullets cut after the third.  The slides are the validated answer of the
    AI service or the slides of the paragraph-chunking fallback.  A slide of
    the fallback has a list of one to three paragraphs.  A slide of the
    answer has the first three elements of the value the answer gave for
    its bullets: at most three items of a list, and the first three
    characters when the answer gave one text instead of a list.  Nothing
    enforces a minimum. *)
Theorem extract_key_points_bullets py svc decode_error text num_points
    max_slides st slides st' :
  extract_key_points py svc decode_error text num_points max_slides st
  = (Ok slides, st') ->
  Forall (fun slide => bullets_list (fun n => n <= 3) slide
                       \/ bullets_chars slide) slides
  /\ ((exists answer, parse_key_points py answer max_slides = Ok slides)
      \/ (_fallback_extraction text (Z.min num_points max_slides) = Ok slides
          /\ Forall bullets_paragraphs slides))
  /\ (forall fields title items notes,
      lookup_field "title" fields = Some title ->
      lookup_field "bullets" fields = Some (JArr items) ->
      lookup_field "speaker_notes" fields = Some notes ->
      validate_slide (JObj fields)
      = Ok (Some (slide_dict title (JArr (take 3 items)) notes)))
  /\ (forall fields title txt notes,
      lookup_field "title" fields = Some title ->
      lookup_field "bullets" fields = Some (JStr txt) ->
      lookup_field "speaker_notes" fields = Some notes ->
      validate_slide (JObj fields)
      = Ok (Some (slide_dict title (JStr (Py.prefix_n 3 txt)) notes))).
Proof.
  intros Hrun.
  split; [|split; [|split; [apply validate_slide_first_three
                          | apply validate_slide_text]]];
    destruct (extract_key_points_origin _ _ _ _ _ _ _ _ _ Hrun)
      as [[answer Hparse] | Hfb].
  - by eapply parse_key_points_bullets.
  - eapply Forall_impl; [by eapply fallback_extraction_bullets|].
    intros slide Hs. left. apply bullets_paragraphs_list in Hs.
    destruct Hs as (t & items & n & -> & Hlen). exists t, items, n.
    split; [done | lia].
  - left. eauto.
  - right. split; [done | by eapply fallback_extraction_bullets].
Qed.

Lemma extract_key_points_bullets_witness :
  exists slides st',
    extract_key_points toy_python service_down plain_errors two_paragraphs 8 12
      (init c7_keys) = (Ok slides, st')
    /\ Forall (fun slide => bullets_list (fun n => n <= 3) slide
                            \/ bullets_chars slide) slides.
Proof.
  destruct (extract_key_points toy_python service_down plain_errors
              two_paragraphs 8 12 (init c7_keys)) as [r st'] eqn:Hrun.
  assert (Hok : exists slides, r = Ok slides).
  { vm_compute in Hrun. injection Hrun as <- _. eauto. }
  destruct Hok as [slides ->]. exists slides, st'. split; [done|].
  exact (proj1 (extract_key_points_bullets _ _ _ _ _ _ _ _ _ Hrun)).
Defined.

(** C6 as stated fails: with the service down and a text of two paragraphs,
    the fallback makes two slides of one bullet each. *)
Lemma extract_key_points_single_bullet :
  ~ (forall py svc decode_error text num_points max_slides st slides st',
        extract_key_points py svc decode_error text num_points max_slides st
        = (Ok slides, st') ->
        Forall (bullets_list (fun n => 2 <= n <= 3)) slides).
Proof.
  intros Hclaim.
  specialize (Hclaim toy_python service_down plain_errors two_paragraphs 8%Z
                12%Z (init c7_keys) _ _ eq_refl).
  apply Forall_cons in Hclaim as [(t & items & n & Heq & Hlen) _].
  injection Heq as <- <- <-. simpl in Hlen. lia.
Qed.

Lemma generate_title_slide_cases py svc text filename st :
  (generate_title_slide py svc text filename st).1 = fallback_title filename
  \/ exists raw, loads py raw = Some (generate_title_slide py svc text filename st).1.
Proof.
  unfold generate_title_slide.
  destruct (_call_gemini svc _ st) as [[[raw|]|e] st']; simpl; try by left.
  destruct (loads py _) as [title_data|] eqn:Hl; simpl; [|by left].
  right. eauto.
Qed.

Lemma fallback_title_has_fields filename :
  has_title_and_subtitle (fallback_title filename).
Proof. eexists. split; [reflexivity|]. split; eexists; reflexivity. Qed.

(** The shape of the deck.  When [extract_slides_from_pdf_text] returns, the
    dictionary has exactly the fields title_slide, content_slides,
    total_slides and narration_script, in this order, and total_slides is the
    number of content slides plus one.  The title slide is either the
    fallback record, which has a title and a subtitle, or whatever value the
    AI answer parsed to, on which nothing is checked. *)
Lemma extract_slides_deck_shape py svc decode_error pdf_text num_slides keys
    deck st' :
  extract_slides_from_pdf_text py svc decode_error pdf_text num_slides keys
  = (Ok deck, st') ->
  exists title_slide content_slides narration_script,
    deck = JObj [("title_slide", title_slide);
                 ("content_slides", JArr content_slides);
                 ("total_slides", JNum (Z.of_nat (length content_slides) + 1));
                 ("narration_script", JStr narration_script)]
    /\ (forall fields, deck = JObj fields -> fst <$> fields = deck_fields)
    /\ ((title_slide = fallback_title "" /\ has_title_and_subtitle title_slide)
        \/ exists raw, loads py raw = Some title_slide).
Proof.
  unfold extract_slides_from_pdf_text.
  pose proof (generate_title_slide_cases py svc pdf_text "" (init keys)) as Ht.
  destruct (generate_title_slide py svc pdf_text "" (init keys))
    as [title_slide st1]. simpl in Ht.
  destruct (extract_key_points py svc decode_error pdf_text num_slides 12 st1)
    as [[content_slides|e] st2]; [|intros [=]].
  simpl. destruct (summarize_for_video py content_slides) as [script|e];
    simpl; [|intros [=]].
  intros [= <- <-]. exists title_slide, content_slides, script.
  split; [done|]. split; [by intros fields [= <-]|].
  destruct Ht as [->|Hraw]; [left | by right].
  split; [done | apply fallback_title_has_fields].
Qed.

Lemma extract_slides_deck_shape_example :
  exists title_slide content_slides narration_script st',
    extract_slides_from_pdf_text toy_python service_down plain_errors
      two_paragraphs 8 c7_keys
    = (Ok (JObj [("title_slide", title_slide);
                 ("content_slides", JArr content_slides);
                 ("total_slides", JNum (Z.of_nat (length content_slides) + 1));
                 ("narration_script", JStr narration_script)]), st').
Proof.
  destruct (extract_slides_from_pdf_text toy_python service_down plain_errors
              two_paragraphs 8 c7_keys) as [r st'] eqn:Hrun.
  assert (Hok : exists deck, r = Ok deck).
  { vm_compute in Hrun. injection Hrun as <- _. eauto. }
  destruct Hok as [deck ->].
  destruct (extract_slides_deck_shape _ _ _ _ _ _ _ _ Hrun)
    as (title_slide & content_slides & script & -> & _ & _).
  exists title_slide, content_slides, script, st'. reflexivity.
Qed.

(** C9, at an input where the title slide has neither title nor subtitle.
    The AI service answers the title prompt with the empty JSON object.
    [generate_title_slide] returns what [json.loads] gave without looking at
    it, and the deck carries the empty object as its title slide.  The
    rest of the code expects the two fields: the [except] branch of the same
    function always supplies both, the validation of the content slides
    drops an object without a title, and the renderer reads
    [title_data['title']] unguarded, so that [create_pdf_slides] raises
    KeyError on this deck. *)
Theorem extract_slides_title_unchecked :
  exists content_slides narration_script st',
    let deck :=
      JObj [("title_slide", JObj []);
            ("content_slides", JArr content_slides);
            ("total_slides", JNum (Z.of_nat (length content_slides) + 1));
            ("narration_script", JStr narration_script)] in
    extract_slides_from_pdf_text toy_python empty_title plain_errors
      two_paragraphs 8 c7_keys = (Ok deck, st')
    /\ ~ has_title_and_subtitle (JObj [])
    /\ has_title_and_subtitle (fallback_title "")
    /\ validate_slide (JObj []) = Ok None
    /\ forall files image_reader stringWidth icons_dir,
         PdfPages.create_pdf_slides toy_python (Some deck) files image_reader
           stringWidth icons_dir = Raise KeyError.
Proof.
  eexists _, _, _. split; [reflexivity|].
  split; [by intros (fields & [= <-] & [t Ht] & _)|].
  split; [apply fallback_title_has_fields|].
  split; reflexivity.
Qed.

End SummarizerFacts.

(* --------------------------------------------------------------------- *)
(** ** Video assembler: narration clips and their pairing with the frames *)
(* --------------------------------------------------------------------- *)

Module VideoCreatorFacts.
Import VideoCreator Samples.

Lemma enumerate_lookup {A} (l : list A) : forall start i,
  Py.enumerate start l !! i = (fun x => (start + i, x)) <$> l !! i.
Proof.
  induction l as [|x l IH]; intros start [|i]; simpl; try done.
  - by rewrite Nat.add_0_r.
  - rewrite IH. destruct (l !! i); simpl; [|done]. do 2 f_equal. lia.
Qed.

Lemma enumerate_length {A} (l : list A) start :
  length (Py.enumerate start l) = length l.
Proof. revert start. induction l as [|x l IH]; intros start; simpl; [done|]. by rewrite IH. Qed.

(** The narration loop, when the speech service answers for every slide:
    one entry per slide is appended, in slide order. *)
Lemma tts_loop_clips tts dir slides : forall start acc disk,
  (forall s, s ∈ slides -> is_Some (tts (narration_text s))) ->
  exists disk',
    tts_loop tts dir (Py.enumerate start slides) acc disk
    = (Ok (acc ++ ((fun p : nat * slide =>
                      (Some (audio_path dir p.1),
                       default 0%Q (tts (narration_text p.2))))
                   <$> Py.enumerate start slides)), disk').
Proof.
  induction slides as [|s slides IH]; intros start acc disk Hok; simpl.
  - exists disk. by rewrite app_nil_r.
  - destruct (Hok s ltac:(by left)) as [dur Hdur]. rewrite Hdur. simpl.
    destruct (IH (S start) (acc ++ [(Some (audio_path dir start), dur)])
                (<[audio_path dir start := Mp3 (narration_text s) dur]> disk))
      as [disk' ->]; [intros s' Hs'; apply Hok; by right|].
    exists disk'. by rewrite <- app_assoc.
Qed.

Lemma int_go_dec_go fuel : forall n acc,
  n < fuel -> Py.int_go 0 (Py.dec_go fuel n acc) = Py.int_go n acc.
Proof.
  induction fuel as [|f IH]; intros n acc Hn; [lia|].
  cbn [Py.dec_go].
  assert (Hd : nat_of_ascii (ascii_of_nat (48 + n mod 10)) - 48 = n mod 10).
  { rewrite nat_ascii_embedding; [lia|].
    pose proof (Nat.mod_upper_bound n 10). lia. }
  pose proof (Nat.div_mod_eq n 10) as Hdm.
  destruct (n / 10 =? 0) eqn:Hq.
  - apply Nat.eqb_eq in Hq. cbn [Py.int_go]. rewrite Hd. f_equal. lia.
  - apply Nat.eqb_neq in Hq. rewrite IH by lia.
    cbn [Py.int_go]. rewrite Hd. f_equal. lia.
Qed.

Lemma dec_go_append fuel t : forall n acc,
  Py.dec_go fuel n acc +:+ t = Py.dec_go fuel n (acc +:+ t).
Proof.
  induction fuel as [|f IH]; intros n acc; [done|].
  cbn [Py.dec_go]. destruct (n / 10 =? 0); [done|]. by rewrite IH.
Qed.

(** Reading back a number formatted with two digits at least. *)
Lemma int_go_fmt_02d n t : Py.int_go 0 (Py.fmt_02d n +:+ t) = Py.int_go n t.
Proof.
  unfold Py.fmt_02d, Py.str_of_nat.
  assert (H : Py.int_go 0 (Py.dec_go (S n) n EmptyString +:+ t) = Py.int_go n t).
  { rewrite dec_go_append. apply int_go_dec_go. lia. }
  destruct (_ <? 2); [|exact H].
  change (("0" +:+ ?x) +:+ t) with (String "0" (x +:+ t)).
  cbn [Py.int_go]. exact H.
Qed.

Lemma int_go_inj t : forall a b, Py.int_go a t = Py.int_go b t -> a = b.
Proof.
  induction t as [|c t IH]; intros a b; cbn [Py.int_go]; [done|].
  intros H%IH. lia.
Qed.

Lemma append_inj_l s : forall a b, s +:+ a = s +:+ b -> a = b.
Proof.
  induction s as [|c s IH]; intros a b; [done|].
  intros [= H]. by apply IH.
Qed.

Lemma fmt_02d_append_inj a b t :
  Py.fmt_02d a +:+ t = Py.fmt_02d b +:+ t -> a = b.
Proof.
  intros H. apply (int_go_inj t).
  rewrite <- (int_go_fmt_02d a t), <- (int_go_fmt_02d b t). by rewrite H.
Qed.

(** Different pages, different image files; different slides, different
    audio files. *)
Lemma image_path_inj dir a b : image_path dir a = image_path dir b -> a = b.
Proof.
  unfold image_path. intros H%append_inj_l%append_inj_l.
  by apply fmt_02d_append_inj in H.
Qed.

Lemma audio_path_inj dir a b : audio_path dir a = audio_path dir b -> a = b.
Proof.
  unfold audio_path. intros H%append_inj_l%append_inj_l.
  by apply fmt_02d_append_inj in H.
Qed.

Lemma save_pages_run dir nos : forall acc disk,
  NoDup nos ->
  let out := save_pages dir nos acc disk in
  out.1 = acc ++ (image_path dir <$> nos)
  /\ (forall i, i ∈ nos -> out.2 !! image_path dir i = Some (Png i))
  /\ (forall p, (forall i, i ∈ nos -> p <> image_path dir i) ->
      out.2 !! p = disk !! p).
Proof.
  induction nos as [|n nos IH]; intros acc disk Hnd; cbn [save_pages].
  - simpl. rewrite app_nil_r. split; [done|]. split; [|done].
    by intros i ?%elem_of_nil.
  - apply NoDup_cons in Hnd as [Hn Hnd].
    destruct (IH (acc ++ [image_path dir n])
                (<[image_path dir n := Png n]> disk) Hnd) as (H1 & H2 & H3).
    split; [|split].
    + rewrite H1, fmap_cons. by rewrite <- app_assoc.
    + intros i [->|Hi]%elem_of_cons; [|by apply H2].
      rewrite H3; [by rewrite lookup_insert_eq|].
      intros j Hj Heq%image_path_inj. congruence.
    + intros p Hp. rewrite H3.
      * rewrite lookup_insert_ne; [done|]. intros Heq.
        apply (Hp n); [by left | done].
      * intros i Hi. apply Hp. by right.
Qed.

Lemma tts_loop_files tts dir slides : forall start acc disk,
  let out := tts_loop tts dir (Py.enumerate start slides) acc disk in
  (forall k s, slides !! k = Some s ->
     (forall j s', j <= k -> slides !! j = Some s' ->
        is_Some (tts (narration_text s'))) ->
     exists dur, tts (narration_text s) = Some dur
       /\ out.2 !! audio_path dir (start + k) = Some (Mp3 (narration_text s) dur))
  /\ (forall p, (forall k, k < length slides -> p <> audio_path dir (start + k)) ->
      out.2 !! p = disk !! p)
  /\ ((exists s, s ∈ slides /\ tts (narration_text s) = None)
      <-> out.1 = Raise SpeechError)
  /\ ((exists s, s ∈ slides /\ tts (narration_text s) = None)
      \/ exists clips, out.1 = Ok clips).
Proof.
  induction slides as [|s0 slides IH]; intros start acc disk;
    cbn [Py.enumerate tts_loop].
  - simpl. split; [by intros k s; rewrite lookup_nil|]. split; [done|].
    split; [|right; by eexists].
    split; [by intros (s & ?%elem_of_nil & _) | done].
  - destruct (tts (narration_text s0)) as [dur0|] eqn:Hs0.
    + destruct (IH (S start) (acc ++ [(Some (audio_path dir start), dur0)])
                  (<[audio_path dir start := Mp3 (narration_text s0) dur0]> disk))
        as (H1 & H2 & H3 & H4).
      split; [|split; [|split]].
      * intros [|k] s Hs Hall.
        -- injection Hs as <-. exists dur0. split; [done|].
           rewrite Nat.add_0_r, H2; [by rewrite lookup_insert_eq|].
           intros k _ Heq%audio_path_inj. lia.
        -- destruct (H1 k s Hs) as (dur & Hd & Hf).
           { intros j s' Hj Hs'. apply (Hall (S j) s'); [lia | done]. }
           exists dur. split; [done|].
           by replace (start + S k) with (S start + k) by lia.
      * intros p Hp. rewrite H2.
        -- rewrite lookup_insert_ne; [done|]. intros Heq.
           apply (Hp 0); [simpl; lia | by rewrite Nat.add_0_r].
        -- intros k Hk. replace (S start + k) with (start + S k) by lia.
           apply Hp. simpl. lia.
      * rewrite <- H3. split.
        -- intros (s & [->|Hs]%elem_of_cons & Hn); [congruence | eauto].
        -- intros (s & Hs & Hn). exists s. split; [by right | done].
      * destruct H4 as [(s & Hs & Hn) | H4]; [left | by right].
        exists s. split; [by right | done].
    + simpl. split; [|split; [|split]].
      * intros k s Hs Hall. destruct (Hall 0 s0 ltac:(lia) eq_refl) as [d Hd].
        congruence.
      * done.
      * split; [done|]. intros _. exists s0. split; [by left | done].
      * left. exists s0. split; [by left | done].
Qed.

(** C8, as the code has it.  With the slides file in place and the speech
    service answering, [generate_tts_audio] returns a list whose first entry
    is the title slide (no audio file, 3.0 seconds), followed by exactly one
    clip per content slide, in order: the [i]-th content slide (counting
    from 1) gets the file audio_[i].mp3 in the output directory, [i] written
    with two digits, the file holds the synthesised narration, and the entry
    has its duration.  The
    narration is the speaker notes when they are present and not empty; when
    they are absent or empty it is the title, a full stop and the bullets
    joined by spaces. *)
Theorem generate_tts_audio_clips tts path dir disk slides :
  disk !! path = Some (SlidesJson slides) ->
  (forall s, s ∈ slides -> is_Some (tts (narration_text s))) ->
  exists clips disk',
    generate_tts_audio tts path dir default_title_duration disk = (Ok clips, disk')
    /\ clips !! 0 = Some (None, 3%Q)
    /\ length clips = S (length slides)
    /\ forall i s, slides !! i = Some s ->
         exists dur,
           clips !! (S i) = Some (Some (audio_path dir (S i)), dur)
           /\ tts (narration_text s) = Some dur
           /\ disk' !! audio_path dir (S i) = Some (Mp3 (narration_text s) dur)
           /\ (forall c notes, speaker_notes s = Some (String c notes) ->
               narration_text s = String c notes)
           /\ (speaker_notes s = None \/ speaker_notes s = Some EmptyString ->
               narration_text s
               = title s +:+ ". " +:+ Py.join " " (default [] (bullets s))).
Proof.
  intros Hfile Hok. unfold generate_tts_audio. rewrite Hfile.
  pose proof (tts_loop_files tts dir slides 1 [(None, default_title_duration)]
                disk) as (Hfiles & _).
  destruct (tts_loop_clips tts dir slides 1 [(None, default_title_duration)]
              disk Hok) as [disk' Hrun].
  rewrite Hrun in Hfiles |- *. cbn [fst snd] in Hfiles.
  eexists _, disk'. split; [reflexivity|]. split; [reflexivity|].
  split; [simpl; by rewrite length_fmap, enumerate_length|].
  intros i s Hs.
  assert (Hin : s ∈ slides) by (apply list_elem_of_lookup; eauto).
  destruct (Hfiles i s Hs) as (dur & Hdur & Hfile').
  { intros j s' _ Hs'. apply Hok. by eapply list_elem_of_lookup_2. }
  exists dur. split.
  { simpl. rewrite list_lookup_fmap, enumerate_lookup, Hs. simpl.
    by rewrite Hdur. }
  split; [done|]. split; [exact Hfile'|]. unfold narration_text.
  split; [by intros c notes ->|]. by intros [-> | ->].
Qed.

Lemma generate_tts_audio_clips_witness :
  exists clips disk',
    generate_tts_audio steady_voice "output/intermediate/slides.json"
      "output/intermediate/audio" default_title_duration fresh_disk
    = (Ok clips, disk')
    /\ clips !! 0 = Some (None, 3%Q)
    /\ length clips = 3.
Proof.
  destruct (generate_tts_audio_clips steady_voice
              "output/intermediate/slides.json" "output/intermediate/audio"
              fresh_disk two_slides)
    as (clips & disk' & Hrun & Hhead & Hlen & _).
  - vm_compute. reflexivity.
  - intros s _. unfold steady_voice. eauto.
  - exists clips, disk'. repeat split; assumption.
Defined.

(** C8 as stated fails for speaker notes that are present but empty: the
    narration is then made of the title and the bullets, not of the notes. *)
Lemma generate_tts_audio_empty_notes :
  ~ (forall tts path dir disk slides clips disk',
        disk !! path = Some (SlidesJson slides) ->
        generate_tts_audio tts path dir default_title_duration disk
        = (Ok clips, disk') ->
        forall i s notes,
          slides !! i = Some s -> speaker_notes s = Some notes ->
          exists dur, disk' !! audio_path dir (S i) = Some (Mp3 notes dur)).
Proof.
  intros Hclaim.
  assert (Hjson : empty_notes_disk !! "slides.json"
                  = Some (SlidesJson [empty_notes_slide]))
    by apply lookup_insert_eq.
  pose proof (tts_loop_files steady_voice "audio" [empty_notes_slide] 1
                [(None, default_title_duration)] empty_notes_disk)
    as (Hfiles & _).
  destruct (tts_loop_clips steady_voice "audio" [empty_notes_slide] 1
              [(None, default_title_duration)] empty_notes_disk)
    as [disk' Hrun]; [intros s _; unfold steady_voice; eauto|].
  rewrite Hrun in Hfiles. cbn [fst snd] in Hfiles.
  destruct (Hfiles 0 empty_notes_slide eq_refl) as (dur & _ & Hfile).
  { intros j s' _ _. unfold steady_voice. eauto. }
  assert (Hgen : generate_tts_audio steady_voice "slides.json" "audio"
                   default_title_duration empty_notes_disk
                 = (Ok ([(None, default_title_duration)] ++
                        ((fun p : nat * slide =>
                            (Some (audio_path "audio" p.1),
                             default 0%Q (steady_voice (narration_text p.2))))
                         <$> Py.enumerate 1 [empty_notes_slide])), disk'))
    by (unfold generate_tts_audio; rewrite Hjson; exact Hrun).
  destruct (Hclaim _ _ _ _ _ _ _ Hjson Hgen 0 empty_notes_slide EmptyString
              eq_refl eq_refl) as [dur' Hdur].
  change (1 + 0) with 1 in Hfile. rewrite Hfile in Hdur. discriminate Hdur.
Qed.

Lemma zip_lookup {A B} (a : list A) : forall (b : list B) i x y,
  Py.zip a b !! i = Some (x, y) <-> a !! i = Some x /\ b !! i = Some y.
Proof.
  induction a as [|x0 a IH]; intros [|y0 b] [|i] x y; simpl;
    try (split; [done | by intros []]).
  - split; [by intros [= <- <-] | by intros [[= <-] [= <-]]].
  - apply IH.
Qed.

(** [create_video] pairs by position: clip [i] holds image [i] for the
    duration of audio entry [i]. *)
Lemma create_video_pairs images clips disk i c :
  create_video images clips disk !! i = Some c ->
  images !! i = Some (frame c)
  /\ exists audio_file, clips !! i = Some (audio_file, duration c)
       /\ (audio c = None \/ audio c = audio_file).
Proof.
  unfold create_video. rewrite list_lookup_fmap.
  destruct (Py.zip images clips !! i) as [[img [a d]]|] eqn:Hz; [|done].
  apply zip_lookup in Hz as [Hi Hc]. simpl. intros [= <-]. simpl.
  split; [done|]. exists a. split; [done|].
  destruct a as [path|]; [|by left]. destruct (bool_decide _); auto.
Qed.

(** The audio list rebuilt from existing files has no silent entry: nothing
    in it stands for the title slide, which [generate_tts_audio] puts first. *)
Lemma load_audio_all_voiced files disk : forall clips,
  load_audio files disk = Ok clips ->
  Forall (fun entry => is_Some entry.1) clips /\ length clips = length files.
Proof.
  induction files as [|path files IH]; intros clips; simpl.
  - intros [= <-]. split; [constructor | done].
  - destruct (disk !! path) as [[| | |text dur]|]; try done.
    destruct (load_audio files disk) as [rest|]; simpl; [|done].
    intros [= <-]. destruct (IH rest eq_refl) as [Hall Hlen].
    split; [constructor; [by eexists | done] | simpl; by rewrite Hlen].
Qed.

(** C2, at an input where the pairing fails.  The pipeline is run once on a
    deck of a title and two content slides: the three clips pair page [i]
    with entry [i], the title silent.  It is run again on the files the first
    run left: the audio list is rebuilt from audio_01.mp3 and audio_02.mp3
    only, without the title entry, so the title page is shown with the
    narration of content slide 1, page 1 with the narration of content slide
    2, and page 2 is dropped. *)
Theorem create_video_complete_resume_shifts_audio :
  pairing (run_video fresh_disk)
  = Some [(Some 0, None);
          (Some 1, Some "Layers are stacked.");
          (Some 2, Some "Features. Learned Not designed")]
  /\ pairing (run_video (run_video fresh_disk).2)
     = Some [(Some 0, Some "Layers are stacked.");
             (Some 1, Some "Features. Learned Not designed")].
Proof. split; vm_compute; reflexivity. Qed.

End VideoCreatorFacts.

(* ===================================================================== *)
(** * Further properties of the code *)
(* ===================================================================== *)

(* --------------------------------------------------------------------- *)
(** ** AI service wrapper: what a call does to the credential state *)
(* --------------------------------------------------------------------- *)

Module GeminiState.
Import Gemini Samples.

Lemma init_client_fields st :
  api_keys (_init_client st) = api_keys st
  /\ current_key_index (_init_client st) = current_key_index st
  /\ sent (_init_client st) = sent st.
Proof. unfold _init_client. by destruct (api_keys st !! current_key_index st). Qed.

Lemma call_loop_state svc req : forall a last st,
  api_keys (call_loop svc req a last st).2 = api_keys st
  /\ current_key_index st <= current_key_index (call_loop svc req a last st).2
  /\ sent st <= sent (call_loop svc req a last st).2
  /\ sent (call_loop svc req a last st).2 <= sent st + a.
Proof.
  induction a as [|a IH]; intros last st; simpl; [repeat split; lia|].
  destruct (client st) as [key|]; simpl; [|repeat split; lia].
  destruct (svc (sent st) key req) as [s| |msg]; simpl; try (repeat split; lia).
  destruct (is_rate_limit msg); simpl; [|repeat split; lia].
  unfold _try_next_key. simpl.
  destruct (_ <? _); simpl; [|repeat split; lia].
  match goal with |- context [call_loop svc req a ?l ?s] =>
    destruct (IH l s) as (Hk & Hi & Hs1 & Hs2);
    destruct (init_client_fields
                {| api_keys := api_keys st;
                   current_key_index := current_key_index st + 1;
                   client := client (tick st); sent := sent (tick st) |})
      as (Hk0 & Hi0 & Hs0)
  end.
  simpl in *. rewrite Hk, Hk0. rewrite Hi0 in Hi. rewrite Hs0 in Hs1, Hs2.
  repeat split; lia.
Qed.

(** X1. Whatever the service answers, a call of [_call_gemini] leaves the
    pool of credentials as it is, never moves the credential index back, and
    sends no more requests than the pool has credentials. *)
Theorem call_gemini_never_goes_back svc req st :
  api_keys (_call_gemini svc req st).2 = api_keys st
  /\ current_key_index st <= current_key_index (_call_gemini svc req st).2
  /\ sent st <= sent (_call_gemini svc req st).2
  /\ sent (_call_gemini svc req st).2 <= sent st + length (api_keys st).
Proof. apply call_loop_state. Qed.

(** X2. Exhaustion is permanent.  Once the credential index is past the end
    of the pool, a later call sends exactly one request, with the client that
    was built last; an answer is returned, and a rate-limit failure raises
    "All API keys failed" at once: the credentials before it are never tried
    again. *)
Theorem call_gemini_after_exhaustion svc req st key :
  length (api_keys st) <= current_key_index st ->
  api_keys st <> [] ->
  client st = Some key ->
  sent (_call_gemini svc req st).2 = sent st + 1
  /\ (forall s, svc (sent st) key req = Text s ->
      (_call_gemini svc req st).1 = Ok (Some s))
  /\ (forall m, svc (sent st) key req = Failure m -> is_rate_limit m = true ->
      (_call_gemini svc req st).1 = Raise (AllKeysFailed (Some m))).
Proof.
  intros Hpast Hne Hclient. unfold _call_gemini.
  destruct (api_keys st) as [|k0 keys] eqn:Hkeys; [done|]. simpl.
  rewrite Hclient.
  destruct (svc (sent st) key req) as [s| |msg]; simpl.
  - split; [done|]. split; [by intros s' [= <-] | done].
  - done.
  - destruct (is_rate_limit msg) eqn:Hrl; simpl.
    + unfold _try_next_key. simpl. rewrite Hkeys. simpl.
      destruct (Nat.ltb_spec (current_key_index st + 1) (S (length keys)));
        [simpl in Hpast; lia|].
      simpl. split; [done|]. split; [done|]. by intros m [= <-] _.
    + split; [done|]. split; [done|]. intros m [= <-]. congruence.
Qed.

Lemma call_gemini_after_exhaustion_witness :
  let exhausted := (_call_gemini always_limited c7_request (init c7_keys)).2 in
  (_call_gemini last_key_limited c7_request exhausted).1
  = Raise (AllKeysFailed (Some "429 quota exceeded"))
  /\ sent (_call_gemini last_key_limited c7_request exhausted).2
     = sent exhausted + 1.
Proof.
  intros exhausted.
  destruct (call_gemini_after_exhaustion last_key_limited c7_request exhausted
              "key-C") as (Hsent & _ & Hfail).
  - vm_compute. lia.
  - vm_compute. discriminate.
  - reflexivity.
  - split; [|exact Hsent].
    apply (Hfail "429 quota exceeded"); reflexivity.
Defined.

End GeminiState.

(* --------------------------------------------------------------------- *)
(** ** Icon resolver: queries, files and the icon dictionary *)
(* --------------------------------------------------------------------- *)

Module IconResolver.
Import Gemini ImageGenerator Samples.

(** X3. The acquisition chain of [search_and_download], for every call: the
    queries go out in the order original phrase, first word of a multi-word
    phrase, at most two alternatives, "circle"; all attempts but the last
    failed and the result is that of the last; a call that fails has tried
    the whole plan; there are at most five attempts; the attempts before the
    last are pairwise different, and the last repeats an earlier one only if
    it is "circle". *)
Theorem search_and_download_plan net svc query path limit qg title bullets w ok w' qg' :
  search_and_download net svc query path limit qg title bullets w = (ok, w', qg') ->
  exists (alts : list string) (pre : list (string * bool)) (q : string),
    length alts <= 2
    /\ attempts w' = attempts w ++ pre ++ [(q, ok)]
    /\ all_failed pre
    /\ (fst <$> (pre ++ [(q, ok)]))
         `prefix_of` (query :: first_word query ++ alts ++ ["circle"])
    /\ (ok = false ->
        fst <$> (pre ++ [(q, ok)]) = query :: first_word query ++ alts ++ ["circle"])
    /\ length (pre ++ [(q, ok)]) <= 5
    /\ NoDup (fst <$> pre)
    /\ (q ∈ (fst <$> pre) -> q = "circle").
Proof. apply ImageGeneratorFacts.search_and_download_chain. Qed.

Lemma search_and_download_plan_witness :
  exists (w' : world) (pre : list (string * bool)) (q : string) (ok : bool),
    attempts w' = pre ++ [(q, ok)]
    /\ all_failed pre /\ length (pre ++ [(q, ok)]) <= 5
    /\ NoDup (fst <$> pre).
Proof.
  destruct (search_and_download only_neural brain_graph "neural network"
              "images/slide_01.png" 1 (Some (init c7_keys))
              (Some "Neural Networks") (Some ["Layers of neurons"]) empty_world)
    as [[ok w'] qg'] eqn:Hrun.
  destruct (search_and_download_plan _ _ _ _ _ _ _ _ _ _ _ _ Hrun)
    as (alts & pre & q & _ & Hlog & Hall & _ & _ & Hlen & Hnd & _).
  exists w', pre, q, ok. repeat split; assumption.
Defined.

Lemma extract_alternative_new_or_circle title avoid :
  let q := _extract_alternative_from_title title avoid in
  ((q ∉ avoid) /\ (q ∈ important_words title \/ q ∈ generic_fallbacks))
  \/ (q = "circle" /\ forall g, g ∈ generic_fallbacks -> g ∈ avoid).
Proof.
  unfold _extract_alternative_from_title.
  destruct (find _ (important_words title)) as [c|] eqn:Hc.
  { apply find_some in Hc as [Hin Hc]. apply negb_true_iff in Hc.
    left. split; [by apply PyFacts.mem_false_iff|].
    left. by apply list_elem_of_In. }
  destruct (find _ generic_fallbacks) as [f|] eqn:Hf.
  { apply find_some in Hf as [Hin Hf]. apply negb_true_iff in Hf.
    left. split; [by apply PyFacts.mem_false_iff|].
    right. by apply list_elem_of_In. }
  right. split; [done|]. intros g Hg. apply list_elem_of_In in Hg.
  pose proof (find_none _ _ Hf g Hg) as Hn. simpl in Hn.
  apply negb_false_iff in Hn. by apply PyFacts.mem_true_iff.
Qed.

(** X4. [_extract_alternative_from_title] prefers the title: when the title
    has an important word that was not tried yet, the answer is such a word;
    in every case the answer was not tried before, unless all five generic
    terms were, and then it is "circle". *)
Theorem extract_alternative_prefers_title title avoid :
  let q := _extract_alternative_from_title title avoid in
  ((exists w, w ∈ important_words title /\ w ∉ avoid) ->
   q ∈ important_words title /\ q ∉ avoid)
  /\ (q ∉ avoid \/ (q = "circle" /\ forall g, g ∈ generic_fallbacks -> g ∈ avoid)).
Proof.
  intros q. split.
  - intros (w & Hw & Hnew). subst q. unfold _extract_alternative_from_title.
    destruct (find _ (important_words title)) as [c|] eqn:Hc.
    + apply find_some in Hc as [Hin Hc]. apply negb_true_iff in Hc.
      split; [by apply list_elem_of_In | by apply PyFacts.mem_false_iff].
    + exfalso. apply list_elem_of_In in Hw.
      pose proof (find_none _ _ Hc w Hw) as Hn. simpl in Hn.
      apply negb_false_iff, PyFacts.mem_true_iff in Hn. done.
  - destruct (extract_alternative_new_or_circle title avoid) as [[H _]|H];
      [by left | by right].
Qed.

Lemma extract_alternative_prefers_title_witness :
  _extract_alternative_from_title "The Future of Neural Networks" ["future"]
    ∈ important_words "The Future of Neural Networks"
  /\ _extract_alternative_from_title "The Future of Neural Networks" ["future"]
    ∉ ["future"].
Proof.
  apply (extract_alternative_prefers_title "The Future of Neural Networks"
           ["future"]).
  exists "neural". split; by apply (bool_decide_unpack _).
Defined.

(** X5. Whatever the AI service answers (a phrase, nothing, or an error),
    the query [generate_alternative_query] returns is none of the failed
    queries, unless all five generic terms have failed already, in which case
    it may be "circle". *)
Theorem alternative_query_new_or_circle svc title bullets failed gen :
  let q := (generate_alternative_query svc title bullets failed gen).1 in
  q ∉ failed \/ (q = "circle" /\ forall g, g ∈ generic_fallbacks -> g ∈ failed).
Proof.
  unfold generate_alternative_query.
  assert (Hx : let q := _extract_alternative_from_title title failed in
               q ∉ failed
               \/ (q = "circle" /\ forall g, g ∈ generic_fallbacks -> g ∈ failed)).
  { destruct (extract_alternative_new_or_circle title failed) as [[H _]|H];
      [by left | by right]. }
  destruct (_call_gemini svc _ gen) as [[[answer|]|e] gen']; simpl; try exact Hx.
  destruct (Py.mem (clean_query answer) failed) eqn:Hmem; simpl; [exact Hx|].
  left. by apply PyFacts.mem_false_iff.
Qed.

Lemma try_search_download_files net q path limit w :
  let out := _try_search_download net q path limit w in
  if out.1 then exists content, files out.2 = <[path := content]> (files w)
  else files out.2 = files w.
Proof.
  unfold _try_search_download.
  destruct (fetch_icon net (attempts w) q limit); simpl; eauto.
Qed.

Lemma alternatives_loop_files net svc path limit title bullets :
  forall retries failed w gen,
  let out := alternatives_loop net svc retries path limit title bullets failed w gen in
  if out.1.1.1 then exists content, files out.1.2 = <[path := content]> (files w)
  else files out.1.2 = files w.
Proof.
  induction retries as [|k IH]; intros failed w gen; simpl; [done|].
  destruct (generate_alternative_query svc title bullets failed gen)
    as [alt gen1].
  pose proof (try_search_download_files net alt path limit w) as Htry.
  destruct (_try_search_download net alt path limit w) as [[] w1];
    simpl in Htry; simpl; [done|].
  specialize (IH (failed ++ [alt]) w1 gen1). simpl in IH.
  destruct (alternatives_loop _ _ _ _ _ _ _ _ _ _) as [[[ok f'] w'] g']. simpl in *.
  by rewrite <- Htry.
Qed.

(** What one call of the chain does to the files. *)
Lemma search_and_download_touches net svc query path limit qg title bullets w :
  let out := search_and_download net svc query path limit qg title bullets w in
  if out.1.1 then exists content, files out.1.2 = <[path := content]> (files w)
  else files out.1.2 = files w.
Proof.
  unfold search_and_download.
  pose proof (try_search_download_files net query path limit w) as H1.
  destruct (_try_search_download net query path limit w) as [[] w1];
    simpl in H1; simpl; [done|].
  assert (H2 : let out := first_word_attempt net query path limit [query] w1 in
               if out.1.1 then exists content,
                   files out.2 = <[path := content]> (files w)
               else files out.2 = files w).
  { unfold first_word_attempt. destruct (1 <? _); simpl; [|done].
    pose proof (try_search_download_files net
                  (default EmptyString (head (Py.split_ws query))) path limit w1)
      as Hf.
    destruct (_try_search_download _ _ _ _ _) as [[] wf]; simpl in *;
      by rewrite <- H1. }
  destruct (first_word_attempt net query path limit [query] w1)
    as [[[] failed2] w2]; simpl in H2; simpl; [done|].
  assert (H3 : let out := alternatives_attempts net svc path limit qg title
                            bullets failed2 w2 in
               if out.1.1.1 then exists content,
                   files out.1.2 = <[path := content]> (files w)
               else files out.1.2 = files w).
  { unfold alternatives_attempts.
    destruct qg as [gen|]; [|done].
    destruct title as [[|c t]|]; [done| |done].
    destruct bullets as [[|b bs]|]; [done| |done].
    pose proof (alternatives_loop_files net svc path limit (String c t) (b :: bs)
                  2 failed2 w2 gen) as Hl.
    destruct (alternatives_loop _ _ _ _ _ _ _ _ _ _) as [[[[] f'] w'] g'];
      simpl in *; by rewrite <- H2. }
  destruct (alternatives_attempts _ _ _ _ _ _ _ _ _)
    as [[[[] failed3] w3] gen3]; simpl in H3; simpl; [done|].
  pose proof (try_search_download_files net "circle" path limit w3) as H4.
  destruct (_try_search_download net "circle" path limit w3) as [[] w4];
    simpl in *; by rewrite <- H3.
Qed.

(** X6. [search_and_download] touches one file at most.  When it returns
    [False] the files are exactly as before the call; when it returns [True]
    the only change is that [save_path] now holds the downloaded icon. *)
Theorem search_and_download_files net svc query path limit qg title bullets w :
  let out := search_and_download net svc query path limit qg title bullets w in
  if out.1.1 then exists content, files out.1.2 = <[path := content]> (files w)
  else files out.1.2 = files w.
Proof. apply search_and_download_touches. Qed.

(** X7. The icon dictionary [generate_icons_for_slides] returns holds
    nothing but the title icon under "title" and, for content slides [i]
    between 1 and the number of content slides, the file slide_[i].png
    (two digits) under the key slide_[i].  The paths are the strings pathlib
    gives for these files in [Path(output_dir)]: for the directory
    ./images/ the icon of slide 1 is images/slide_01.png. *)
Theorem icon_dictionary_entries net svc keys data dir w paths w' :
  generate_icons_for_slides net svc keys (Some data) dir w = (Ok paths, w') ->
  forall key path, paths !! key = Some path ->
    (key = "title" /\ path = title_icon_path dir)
    \/ exists i, 1 <= i <= length (content_slides data)
         /\ key = "slide_" +:+ Py.str_of_nat i
         /\ path = icon_path dir i.
Proof.
  intros Hrun key path Hlook.
  exact (ImageGeneratorFacts.generate_icons_for_slides_entries
           net svc keys data dir w paths w' Hrun key path Hlook).
Qed.

Lemma icon_dictionary_entries_witness :
  exists paths w',
    generate_icons_for_slides only_neural service_down c7_keys
      (Some one_slide_deck) "./images/" empty_world = (Ok paths, w')
    /\ paths !! "slide_1" = Some "images/slide_01.png"
    /\ paths !! "title" = None.
Proof.
  destruct (generate_icons_for_slides only_neural service_down c7_keys
              (Some one_slide_deck) "./images/" empty_world) as [r w'] eqn:Hrun.
  assert (Hok : exists paths, r = Ok paths
                  /\ is_Some (paths !! "slide_1") /\ paths !! "title" = None).
  { vm_compute in Hrun. injection Hrun as <- _.
    eexists. split; [reflexivity|]. split; [eexists|]; vm_compute; reflexivity. }
  destruct Hok as (paths & -> & [p Hp] & Hnone).
  exists paths, w'. split; [done|]. split; [|done].
  destruct (icon_dictionary_entries _ _ _ _ _ _ _ _ Hrun "slide_1" p Hp)
    as [[Hk _]|(i & Hi & Hk & ->)]; [discriminate Hk|].
  simpl in Hi. assert (i = 1) as -> by lia. exact Hp.
Defined.

(** X8. The heuristic query of [_fallback_query] is "document" or a word of
    the lower-cased title, stripped of surrounding punctuation, that is no
    stop word and has more than three characters: the first such word of
    the title, and "document" when the title has none. *)
Theorem fallback_query_word title :
  let q := _fallback_query title in
  (q = "document" /\ important_words title = [])
  \/ (head (important_words title) = Some q
      /\ (q ∉ stop_words) /\ 3 < String.length q
      /\ exists w, w ∈ Py.split_ws (Py.lower title)
           /\ q = Py.strip_chars ",:;.!?" w).
Proof.
  unfold _fallback_query.
  destruct (important_words title) as [|w ws] eqn:Hw; [by left|].
  right. split; [done|].
  assert (Hin : w ∈ important_words title) by (rewrite Hw; by left).
  unfold important_words in Hin.
  apply list_elem_of_filter in Hin as [Hp Hin].
  apply andb_true_iff in Hp as [Hstop Hlen].
  apply negb_true_iff, PyFacts.mem_false_iff in Hstop.
  apply Nat.ltb_lt in Hlen.
  apply list_elem_of_fmap in Hin as (w0 & -> & Hw0).
  repeat split; try done. by exists w0.
Qed.

End IconResolver.

(* --------------------------------------------------------------------- *)
(** ** Summarizer: the fallback, the slide limit and a dead service *)
(* --------------------------------------------------------------------- *)

Module SummarizerLimits.
Import Gemini Summarizer Samples.

Lemma range_step_below stop step i :
  0 < step -> i ∈ Py.range_step 0 stop step -> i < stop.
Proof.
  intros Hstep Hin. unfold Py.range_step in Hin.
  apply list_elem_of_fmap in Hin as (k & -> & Hk).
  apply list_elem_of_In, in_seq in Hk. simpl in *.
  rewrite Nat.sub_0_r in Hk.
  assert (Hdiv : (stop + (step - 1)) / step * step <= stop + (step - 1)).
  { rewrite Nat.mul_comm. apply Nat.Div0.mul_div_le. }
  nia.
Qed.

Lemma range_step_length stop step :
  0 < step -> length (Py.range_step 0 stop step) <= stop
              /\ (0 < stop -> 0 < length (Py.range_step 0 stop step)).
Proof.
  intros Hstep. unfold Py.range_step. rewrite length_fmap, length_seq.
  rewrite Nat.sub_0_r. split.
  - destruct stop as [|stop]; [rewrite Nat.div_small; simpl; lia|].
    apply Nat.Div0.div_le_upper_bound. nia.
  - intros Hstop. apply Nat.div_str_pos. lia.
Qed.

(** What the fallback loop does to the number of slides. *)
Lemma fallback_loop_length paragraphs pps num_points : forall starts slides,
  0 < pps -> Forall (fun i => i < length paragraphs) starts ->
  let out := fallback_loop starts paragraphs pps num_points slides in
  length slides <= length out
  /\ length out <= length slides + length starts
  /\ (starts <> [] -> length slides < length out)
  /\ ((Z.of_nat (length slides) < num_points)%Z ->
      (Z.of_nat (length out) <= num_points)%Z)
  /\ ((num_points <= Z.of_nat (length slides))%Z ->
      length out <= S (length slides)).
Proof.
  induction starts as [|i rest IH]; intros slides Hpps Hin; simpl.
  - repeat split; try lia. done.
  - apply Forall_cons in Hin as [Hi Hin].
    destruct (take pps (drop i paragraphs)) as [|p chunk] eqn:Hchunk.
    { exfalso. apply (f_equal length) in Hchunk.
      rewrite length_take, length_drop in Hchunk. simpl in Hchunk. lia. }
    match goal with |- context [(num_points <=? Z.of_nat (length ?s'))%Z] =>
      set (slides' := s') end.
    assert (Hlen' : length slides' = S (length slides)).
    { subst slides'. rewrite length_app. simpl. lia. }
    destruct (Z.leb_spec num_points (Z.of_nat (length slides'))) as [Hstop|Hgo].
    + rewrite Hlen'. repeat split; lia.
    + destruct (IH slides' Hpps Hin) as (H1 & H2 & _ & H4 & _).
      rewrite Hlen' in *. repeat split; try lia.
Qed.

Lemma fallback_count text num_points slides :
  _fallback_extraction text num_points = Ok slides ->
  ((0 < num_points)%Z -> (Z.of_nat (length slides) <= num_points)%Z)
  /\ length slides <= length (paragraphs_of text)
  /\ ((num_points < 0)%Z -> length slides <= 1)
  /\ (paragraphs_of text <> [] -> 1 <= length slides).
Proof.
  unfold _fallback_extraction.
  destruct (Z.eqb_spec num_points 0) as [|Hnz]; [done|]. intros [= <-].
  set (paragraphs := paragraphs_of text).
  set (pps := Z.to_nat (Z.max 1 (Z.of_nat (length paragraphs) / num_points))).
  assert (Hpps : 0 < pps) by (subst pps; lia).
  destruct (range_step_length (length paragraphs) pps Hpps) as [Hle Hpos].
  destruct (fallback_loop_length paragraphs pps num_points
              (Py.range_step 0 (length paragraphs) pps) [] Hpps)
    as (_ & H2 & H3 & H4 & H5).
  { apply Forall_forall. intros i Hi. by eapply range_step_below. }
  simpl in *. repeat split.
  - intros Hp. apply H4. lia.
  - lia.
  - intros Hn. specialize (H5 ltac:(lia)). lia.
  - intros Hne. assert (0 < length paragraphs).
    { destruct paragraphs; [done | simpl; lia]. }
    specialize (Hpos ltac:(lia)).
    assert (Py.range_step 0 (length paragraphs) pps <> []).
    { intros Heq. rewrite Heq in Hpos. simpl in Hpos. lia. }
    specialize (H3 ltac:(done)). lia.
Qed.

(** X9. The number of slides the paragraph-chunking fallback makes.  For a
    target of at least 1 it makes at most that many slides and at most one
    per paragraph; for a negative target it stops after the first slide; a
    text with a paragraph gives at least one slide, a text without any gives
    none. *)
Theorem fallback_extraction_count text num_points slides :
  _fallback_extraction text num_points = Ok slides ->
  ((0 < num_points)%Z -> (Z.of_nat (length slides) <= num_points)%Z)
  /\ length slides <= length (paragraphs_of text)
  /\ ((num_points < 0)%Z -> length slides <= 1)
  /\ (paragraphs_of text <> [] -> 1 <= length slides).
Proof. apply fallback_count. Qed.

Lemma fallback_extraction_count_witness :
  exists slides,
    _fallback_extraction two_paragraphs 8 = Ok slides
    /\ (Z.of_nat (length slides) <= 8)%Z /\ 1 <= length slides.
Proof.
  destruct (_fallback_extraction two_paragraphs 8) as [slides|e] eqn:Hrun;
    [|vm_compute in Hrun; discriminate Hrun].
  destruct (fallback_extraction_count two_paragraphs 8 slides Hrun)
    as (Hmax & _ & _ & Hmin).
  exists slides. split; [done|]. split; [apply Hmax; lia|].
  apply Hmin. vm_compute. discriminate.
Defined.

(** The slides the fallback loop adds: numbered titles, up to three
    paragraphs as bullets, notes cut at 200 characters. *)
Lemma fallback_loop_slides paragraphs pps num_points : forall starts slides,
  let P := fun (i : nat) (s : json) =>
    exists chunk, chunk <> [] /\ chunk ⊆ paragraphs
      /\ s = slide_dict (JStr ("Key Point " +:+ Py.str_of_nat (i + 1)))
               (JArr (JStr <$> take 3 chunk))
               (JStr (Py.prefix_n 200 (Py.join " " chunk))) in
  (forall i s, slides !! i = Some s -> P i s) ->
  forall i s,
    fallback_loop starts paragraphs pps num_points slides !! i = Some s -> P i s.
Proof.
  induction starts as [|i0 rest IH]; intros slides P Hinv; simpl; [done|].
  destruct (take pps (drop i0 paragraphs)) as [|p chunk] eqn:Hchunk;
    [by apply IH|].
  match goal with |- context [(num_points <=? Z.of_nat (length ?s'))%Z] =>
    set (slides' := s') end.
  assert (Hinv' : forall i s, slides' !! i = Some s -> P i s).
  { intros i s Hs. subst slides'.
    apply lookup_app_Some in Hs as [Hs|[Hge Hs]]; [by apply Hinv|].
    apply list_lookup_singleton_Some in Hs as [Hi <-].
    assert (i = length slides) as -> by lia.
    exists (p :: chunk). split; [done|]. split; [|done].
    rewrite <- Hchunk. intros x Hx.
    by apply subseteq_take, subseteq_drop in Hx. }
  destruct (num_points <=? _)%Z; [exact Hinv' | by apply IH].
Qed.

(** X10. The slides of the fallback, one by one: the slide at position [i]
    (from 0) is titled Key Point [i+1]; its bullets are the first three of a
    non-empty run of paragraphs of the text, each a stripped and non-empty
    piece of the text between blank lines; its speaker notes are those
    paragraphs joined by spaces, cut to at most 200 characters. *)
Theorem fallback_extraction_slides text num_points slides :
  _fallback_extraction text num_points = Ok slides ->
  forall i s, slides !! i = Some s ->
    exists chunk notes,
      chunk <> []
      /\ (forall p, p ∈ chunk ->
          p <> EmptyString /\ p ∈ (Py.strip <$> Py.split_on "

" text))
      /\ notes = Py.prefix_n 200 (Py.join " " chunk)
      /\ String.length notes <= 200
      /\ s = slide_dict (JStr ("Key Point " +:+ Py.str_of_nat (i + 1)))
               (JArr (JStr <$> take 3 chunk)) (JStr notes).
Proof.
  unfold _fallback_extraction.
  destruct (num_points =? 0)%Z; [done|]. intros [= <-] i s Hs.
  apply fallback_loop_slides in Hs as (chunk & Hne & Hsub & ->);
    [|intros ? ? Hnil; by rewrite lookup_nil in Hnil].
  exists chunk, (Py.prefix_n 200 (Py.join " " chunk)).
  split; [done|]. split.
  { intros p Hp. apply Hsub in Hp. unfold paragraphs_of in Hp.
    by apply list_elem_of_filter in Hp as [Hp1 Hp2]. }
  split; [done|]. split; [apply SummarizerFacts.prefix_n_length | done].
Qed.

Lemma fallback_extraction_slides_witness :
  exists slides chunk,
    _fallback_extraction two_paragraphs 8 = Ok slides
    /\ slides !! 1
       = Some (slide_dict (JStr "Key Point 2") (JArr (JStr <$> take 3 chunk))
                 (JStr (Py.prefix_n 200 (Py.join " " chunk)))).
Proof.
  destruct (_fallback_extraction two_paragraphs 8) as [slides|e] eqn:Hrun;
    [|vm_compute in Hrun; discriminate Hrun].
  assert (Hs : is_Some (slides !! 1)).
  { vm_compute in Hrun. injection Hrun as <-. by eexists. }
  destruct Hs as [s Hs].
  destruct (fallback_extraction_slides two_paragraphs 8 slides Hrun 1 s Hs)
    as (chunk & notes & _ & _ & -> & _ & ->).
  exists slides, chunk. split; [done | exact Hs].
Defined.

Lemma slice_to_length {A} (n : Z) (l : list A) :
  (0 <= n)%Z -> (Z.of_nat (length (Py.slice_to n l)) <= n)%Z.
Proof.
  intros Hn. unfold Py.slice_to. destruct (Z.leb_spec 0 n); [|lia].
  rewrite length_take. lia.
Qed.

Lemma parse_key_points_length py answer max_slides slides :
  (0 <= max_slides)%Z ->
  parse_key_points py answer max_slides = Ok slides ->
  (Z.of_nat (length slides) <= max_slides)%Z.
Proof.
  intros Hmax. unfold parse_key_points. destruct answer as [raw|]; [|done].
  destruct (loads py _) as [v|]; [|done].
  destruct (py_iter v) as [items|]; simpl; [|done].
  destruct (validate_slides items []) as [validated|]; simpl; [|done].
  intros [= <-]. by apply slice_to_length.
Qed.

(** X11. With a target of at least one slide, [extract_key_points] never
    returns more than [max_slides] slides, whether they come from the AI
    answer or from the fallback; and it does return slides, unless the
    handler of a JSONDecodeError raised by the client fails with
    UnboundLocalError. *)
Theorem extract_key_points_at_most_max py svc decode_error text num_points
    max_slides st :
  (1 <= Z.min num_points max_slides)%Z ->
  let r := (extract_key_points py svc decode_error text num_points max_slides
              st).1 in
  (exists slides, r = Ok slides /\ (Z.of_nat (length slides) <= max_slides)%Z)
  \/ r = Raise UnboundLocalError.
Proof.
  intros Hmin.
  assert (Hfb : exists fb,
             _fallback_extraction text (Z.min num_points max_slides) = Ok fb
             /\ (Z.of_nat (length fb) <= max_slides)%Z).
  { destruct (_fallback_extraction text (Z.min num_points max_slides))
      as [fb|e'] eqn:Hfb.
    - exists fb. split; [done|].
      destruct (fallback_count _ _ _ Hfb) as (Hle & _). lia.
    - exfalso. unfold _fallback_extraction in Hfb.
      destruct (Z.eqb_spec (Z.min num_points max_slides) 0); [lia | done]. }
  destruct Hfb as (fb & Hfb & Hlen).
  unfold extract_key_points.
  destruct (_call_gemini svc _ st) as [[answer|e] st'].
  - simpl. destruct (parse_key_points py answer max_slides) as [slides|e] eqn:Hp.
    + left. exists slides. split; [done|].
      eapply parse_key_points_length; [lia | exact Hp].
    + left. exists fb. by rewrite Hfb.
  - destruct e; simpl; try (left; exists fb; by rewrite Hfb).
    destruct (decode_error _ _ _); simpl; [by right|].
    left. exists fb. by rewrite Hfb.
Qed.

Lemma extract_key_points_at_most_max_witness :
  exists slides,
    (extract_key_points toy_python service_down plain_errors two_paragraphs
       8 12 (init c7_keys)).1 = Ok slides
    /\ (Z.of_nat (length slides) <= 12)%Z.
Proof.
  destruct (extract_key_points_at_most_max toy_python service_down plain_errors
              two_paragraphs 8 12 (init c7_keys)) as [H | H].
  - vm_compute. discriminate.
  - exact H.
  - vm_compute in H. discriminate H.
Defined.

(** X12. The errors [extract_key_points] lets through.  It returns slides,
    or raises ZeroDivisionError, or raises UnboundLocalError.  It raises
    ZeroDivisionError only when the target, the smaller of [num_points] and
    [max_slides], is 0 and the fallback is needed.  It raises
    UnboundLocalError exactly when [_call_gemini] raises an exception of the
    client again that is a JSONDecodeError: the handler for it reads
    [result_text], which has no value yet.  Every other failure (another
    exception of the client, all credentials used up, an answer without
    text, an answer that is no JSON or not of the expected shape) ends in
    the fallback. *)
Theorem extract_key_points_raises py svc decode_error text num_points
    max_slides st :
  let req := {| contents := KeyPointsPrompt (Z.min num_points max_slides) text;
                temperature := 3 # 10; max_output_tokens := 4000 |} in
  let call := _call_gemini svc req st in
  let r := (extract_key_points py svc decode_error text num_points max_slides
              st).1 in
  ((exists slides, r = Ok slides)
   \/ (r = Raise ZeroDivisionError /\ Z.min num_points max_slides = 0%Z)
   \/ r = Raise UnboundLocalError)
  /\ (r = Raise UnboundLocalError
      <-> exists msg, call.1 = Raise (ServiceError msg)
            /\ decode_error (sent call.2 - 1)
                 (default EmptyString (client call.2)) req = true).
Proof.
  intros req call r. unfold r, call, extract_key_points. fold req.
  assert (Hfb : (exists slides,
                   _fallback_extraction text (Z.min num_points max_slides)
                   = Ok slides)
                \/ (_fallback_extraction text (Z.min num_points max_slides)
                    = Raise ZeroDivisionError
                    /\ Z.min num_points max_slides = 0%Z)).
  { unfold _fallback_extraction.
    destruct (Z.eqb_spec (Z.min num_points max_slides) 0) as [Hz|Hnz];
      [by right | left; eauto]. }
  destruct (_call_gemini svc req st) as [[answer|e] st']; cbn [fst snd].
  - simpl.
    destruct (parse_key_points py answer max_slides) as [slides|e]; simpl.
    + split; [left; eauto|]. split; [done | by intros (msg & ? & _)].
    + split; [|split; [|by intros (msg & ? & _)]].
      * destruct Hfb as [[fb ->] | [-> Hz]]; [left; eauto | right; by left].
      * destruct Hfb as [[fb ->] | [-> Hz]]; done.
  - destruct e as [msg| | | | | | | | | |];
      try (simpl; split;
           [destruct Hfb as [[fb ->] | [-> Hz]]; [left; eauto | right; by left]
           |split; [destruct Hfb as [[fb ->] | [-> Hz]]; done
                   |by intros (m & ? & _)]]).
    destruct (decode_error _ _ _) eqn:Hd; simpl.
    + split; [right; by right|]. split; [eauto | done].
    + split; [|split; [|by intros (m & _ & ?)]].
      * destruct Hfb as [[fb ->] | [-> Hz]]; [left; eauto | right; by left].
      * destruct Hfb as [[fb ->] | [-> Hz]]; done.
Qed.

(** The failure at an input: the client cannot decode the replies of the
    service, and the call ends in UnboundLocalError instead of the
    fallback. *)
Example extract_key_points_unbound :
  (extract_key_points toy_python garbled_replies decode_errors two_paragraphs
     8 12 (init c7_keys)).1 = Raise UnboundLocalError.
Proof. reflexivity. Qed.

(** A service that fails every request makes every call of the wrapper
    raise. *)
Lemma call_loop_dead_service svc req :
  (forall n key r, exists m, svc n key r = Failure m) ->
  forall a last st, exists e, (call_loop svc req a last st).1 = Raise e.
Proof.
  intros Hdead. induction a as [|a IH]; intros last st; simpl; [eauto|].
  destruct (client st) as [key|]; simpl; [|eauto].
  destruct (Hdead (sent st) key req) as [m ->].
  destruct (is_rate_limit m); simpl; [|eauto].
  destruct (_try_next_key (tick st)) as [[] st1]; simpl; [apply IH | eauto].
Qed.

Lemma all_str_strings l : all_str (JStr <$> l) = Some l.
Proof.
  induction l as [|x l IH]; [done|].
  rewrite fmap_cons. cbn [all_str]. by rewrite IH.
Qed.

(** The script part of a slide whose fields are all strings. *)
Lemma script_part_strings py title bullets notes :
  script_part py (slide_dict (JStr title) (JArr (JStr <$> bullets)) (JStr notes))
  = Ok (JStr (if String.eqb notes EmptyString
              then title +:+ ". " +:+ Py.join " " bullets else notes)).
Proof.
  unfold script_part, slide_dict, py_get, py_getitem. simpl.
  destruct (String.eqb notes EmptyString); simpl; [|done].
  unfold py_join. by rewrite all_str_strings.
Qed.

Lemma fallback_slides_script py paragraphs pps num_points : forall starts slides,
  (exists parts, script_parts py slides = Ok (JStr <$> parts)) ->
  exists parts,
    script_parts py (fallback_loop starts paragraphs pps num_points slides)
    = Ok (JStr <$> parts).
Proof.
  assert (Happ : forall l1 l2 p1 p2,
             script_parts py l1 = Ok (JStr <$> p1) ->
             script_parts py l2 = Ok (JStr <$> p2) ->
             script_parts py (l1 ++ l2) = Ok (JStr <$> (p1 ++ p2))).
  { induction l1 as [|s l1 IHl]; intros l2 p1 p2 H1 H2; simpl in *.
    - destruct p1; [done | discriminate H1].
    - destruct (script_part py s) as [part|]; simpl in *; [|done].
      destruct (script_parts py l1) as [parts1|] eqn:Hl1; simpl in *; [|done].
      destruct p1 as [|x p1]; [discriminate H1|]. simpl in H1.
      injection H1 as -> ->. by rewrite (IHl l2 p1 p2 eq_refl H2). }
  induction starts as [|i rest IH]; intros slides Hs; simpl; [done|].
  destruct (take pps (drop i paragraphs)) as [|p chunk] eqn:Hc; [by apply IH|].
  match goal with |- context [(num_points <=? Z.of_nat (length ?s'))%Z] =>
    set (slides' := s') end.
  assert (Hs' : exists parts, script_parts py slides' = Ok (JStr <$> parts)).
  { destruct Hs as [parts Hparts]. subst slides'.
    assert (Hone : exists x, script_parts py
              [slide_dict (JStr ("Key Point " +:+ Py.str_of_nat (length slides + 1)))
                 (JArr (JStr <$> take 3 (p :: chunk)))
                 (JStr (Py.prefix_n 200 (Py.join " " (p :: chunk))))]
              = Ok (JStr <$> [x])).
    { unfold script_parts. rewrite script_part_strings. simpl. by eexists. }
    destruct Hone as [x Hx]. exists (parts ++ [x]). by apply Happ. }
  destruct (num_points <=? _)%Z; [exact Hs' | by apply IH].
Qed.

(** X13. A dead AI service does not stop the summarizer, as long as its
    failures are no JSONDecodeError.  When every request fails, with an
    exception of another class whatever its message, and the slide target is
    not 0, [extract_slides_from_pdf_text] returns a deck: the title slide is
    the fallback record, the content slides are those of the
    paragraph-chunking fallback for the smaller of the target and 12, and
    total_slides counts them plus one. *)
Theorem extract_slides_with_dead_service py svc decode_error pdf_text
    num_slides keys :
  (forall n key r, exists m, svc n key r = Failure m) ->
  (forall n key r, decode_error n key r = false) ->
  num_slides <> 0%Z ->
  exists slides script st',
    extract_slides_from_pdf_text py svc decode_error pdf_text num_slides keys
    = (Ok (JObj [("title_slide", fallback_title "");
                 ("content_slides", JArr slides);
                 ("total_slides", JNum (Z.of_nat (length slides) + 1));
                 ("narration_script", JStr script)]), st')
    /\ _fallback_extraction pdf_text (Z.min num_slides 12) = Ok slides.
Proof.
  intros Hdead Hplain Hnz. unfold extract_slides_from_pdf_text.
  unfold generate_title_slide, _call_gemini.
  match goal with |- context [call_loop svc ?r ?a ?l ?s] =>
    destruct (call_loop_dead_service svc r Hdead a l s) as [e He];
    destruct (call_loop svc r a l s) as [r1 st1]
  end.
  simpl in He. subst r1.
  unfold extract_key_points, _call_gemini.
  match goal with |- context [call_loop svc ?r ?a ?l ?s] =>
    destruct (call_loop_dead_service svc r Hdead a l s) as [e2 He2];
    destruct (call_loop svc r a l s) as [r2 st2]
  end.
  simpl in He2. subst r2.
  assert (Hfall : forall A (x y : A),
             match e2 with
             | ServiceError _ =>
                 if decode_error (sent st2 - 1)
                      (default EmptyString (client st2))
                      {| contents := KeyPointsPrompt (Z.min num_slides 12) pdf_text;
                         temperature := 3 # 10; max_output_tokens := 4000 |}
                 then x else y
             | _ => y
             end = y).
  { intros A x y. destruct e2; try done. by rewrite Hplain. }
  simpl. rewrite Hfall.
  unfold _fallback_extraction.
  destruct (Z.eqb_spec (Z.min num_slides 12) 0) as [|_]; [lia|]. simpl.
  match goal with |- context [fallback_loop ?a ?b ?c ?d []] =>
    destruct (fallback_slides_script py b c d a []) as [parts Hparts];
      [by exists [] |];
    set (slides := fallback_loop a b c d []) in *
  end.
  unfold summarize_for_video. rewrite Hparts. simpl.
  rewrite all_str_strings. simpl. by eexists _, _, _.
Qed.

Lemma extract_slides_with_dead_service_witness :
  exists slides script st',
    extract_slides_from_pdf_text toy_python service_down plain_errors
      two_paragraphs 8 c7_keys
    = (Ok (JObj [("title_slide", fallback_title "");
                 ("content_slides", JArr slides);
                 ("total_slides", JNum (Z.of_nat (length slides) + 1));
                 ("narration_script", JStr script)]), st').
Proof.
  destruct (extract_slides_with_dead_service toy_python service_down
              plain_errors two_paragraphs 8 c7_keys)
    as (slides & script & st' & Hrun & _).
  - intros n key r. by eexists.
  - done.
  - discriminate.
  - by exists slides, script, st'.
Defined.

Lemma script_part_slide_json py (s : VideoCreator.slide) :
  script_part py (Interchange.slide_json s)
  = Ok (JStr (VideoCreator.narration_text s)).
Proof.
  destruct s as [title bullets notes].
  unfold script_part, Interchange.slide_json, VideoCreator.narration_text,
    py_get, py_getitem.
  destruct notes as [[|c notes]|], bullets as [bs|]; simpl;
    unfold py_join; rewrite ?all_str_strings; try done.
Qed.

(** X14. The narration script and the narration agree.  For the content
    slides of a slides.json, [summarize_for_video] gives exactly the texts
    that [generate_tts_audio] speaks for them (speaker notes when present and
    not empty, else title, full stop, bullets), joined by single spaces. *)
Theorem narration_script_is_spoken_text py (slides : list VideoCreator.slide) :
  summarize_for_video py (Interchange.slide_json <$> slides)
  = Ok (Py.join " " (VideoCreator.narration_text <$> slides)).
Proof.
  unfold summarize_for_video.
  assert (Hparts : script_parts py (Interchange.slide_json <$> slides)
                   = Ok (JStr <$> (VideoCreator.narration_text <$> slides))).
  { induction slides as [|s slides IH]; [done|].
    rewrite !fmap_cons. cbn [script_parts].
    rewrite script_part_slide_json, IH. done. }
  rewrite Hparts. simpl. by rewrite all_str_strings.
Qed.

End SummarizerLimits.

(* --------------------------------------------------------------------- *)
(** ** Extractor: whole-document runs *)
(* --------------------------------------------------------------------- *)

Module ParserRuns.
Import PdfParser Samples.

(** One page: the text, the counters, the OCR trace; nothing else of the
    parser changes. *)
Lemma extract_page_step n pg p k :
  doc p !! n = Some pg ->
  stats_total (extraction_stats p) = Some k ->
  exists p',
    extract_text_from_page n p = Some (best_text pg, p')
    /\ stats_total (extraction_stats p') = Some (S k)
    /\ ocr_calls p' = ocr_calls p ++ (if needs_ocr pg then [n] else [])
    /\ doc p' = doc p /\ num_pages p' = num_pages p /\ pdf_path p' = pdf_path p.
Proof.
  intros Hpg Htot. unfold extract_text_from_page, best_text, needs_ocr.
  rewrite Hpg. simpl.
  destruct (MIN_DIGITAL_TEXT_THRESHOLD <? _); simpl.
  - destruct (PdfParserFacts.bump_total "digital_pages" _ k ltac:(set_solver) Htot)
      as (s' & -> & Hs' & _).
    eexists; repeat split; simpl; first [done | by rewrite app_nil_r].
  - destruct (_ <? _).
    + destruct (PdfParserFacts.bump_total "ocr_pages" _ k ltac:(set_solver) Htot)
        as (s' & -> & Hs' & _). eexists; repeat split; done.
    + destruct (PdfParserFacts.bump_total "hybrid_pages" _ k ltac:(set_solver) Htot)
        as (s' & -> & Hs' & _). eexists; repeat split; done.
Qed.

(** The counters after a page depend on the counters before and on the page,
    not on the rest of the parser. *)
Lemma extract_page_stats n p q t p' :
  doc p = doc q -> extraction_stats p = extraction_stats q ->
  extract_text_from_page n p = Some (t, p') ->
  exists q', extract_text_from_page n q = Some (t, q')
    /\ extraction_stats q' = extraction_stats p'.
Proof.
  intros Hd Hs. unfold extract_text_from_page. rewrite <- Hd.
  destruct (doc p !! n) as [pg|]; [|done]. simpl. rewrite <- Hs.
  destruct (MIN_DIGITAL_TEXT_THRESHOLD <? _).
  - destruct (bump _ _); [|done]. intros [= <- <-]. by eexists.
  - destruct (_ <? _); (destruct (bump _ _); [|done]);
      intros [= <- <-]; by eexists.
Qed.

Lemma process_pages_run nums : forall p acc k,
  Forall (fun n => n < length (doc p)) nums ->
  stats_total (extraction_stats p) = Some k ->
  exists p',
    process_pages nums p acc
    = Some (acc ++ omap (fun n => entry_for n <$> doc p !! n) nums, p')
    /\ stats_total (extraction_stats p') = Some (k + length nums)
    /\ ocr_calls p'
       = ocr_calls p
         ++ filter (fun n => from_option needs_ocr false (doc p !! n) = true) nums
    /\ doc p' = doc p /\ num_pages p' = num_pages p /\ pdf_path p' = pdf_path p.
Proof.
  induction nums as [|n nums IH]; intros p acc k Hin Htot; simpl.
  - exists p. rewrite !app_nil_r, Nat.add_0_r. done.
  - apply Forall_cons in Hin as [Hn Hin].
    destruct (lookup_lt_is_Some_2 (doc p) n Hn) as [pg Hpg].
    destruct (extract_page_step n pg p k Hpg Htot)
      as (p1 & -> & Htot1 & Hocr1 & Hdoc1 & Hnum1 & Hpath1).
    match goal with |- context [process_pages nums p1 ?a] =>
      destruct (IH p1 a (S k)) as (p' & -> & Ht & Ho & Hd & Hnn & Hpp);
        [by rewrite Hdoc1 | done |]
    end.
    exists p'. rewrite Hpg. simpl. rewrite <- app_assoc. simpl.
    rewrite Hdoc1. split; [done|].
    rewrite Ht, Ho, Hocr1, Hd, Hnn, Hpp, Hdoc1, Hnum1, Hpath1.
    destruct (needs_ocr pg) eqn:Hneed.
    + rewrite filter_cons_True by (rewrite Hpg; simpl; by rewrite Hneed).
      rewrite <- app_assoc. repeat split; first [done | f_equal; lia].
    + rewrite filter_cons_False by (rewrite Hpg; simpl; by rewrite Hneed).
      rewrite app_nil_r. repeat split; first [done | f_equal; lia].
Qed.

Lemma seq_entries (d : list page) :
  omap (fun n => entry_for n <$> d !! n) (seq 0 (length d))
  = (fun ip : nat * page => entry_for ip.1 ip.2) <$> Py.enumerate 0 d.
Proof.
  assert (H : forall pre d, omap (fun n => entry_for n <$> (pre ++ d) !! n)
                              (seq (length pre) (length d))
                            = (fun ip : nat * page => entry_for ip.1 ip.2)
                              <$> Py.enumerate (length pre) d).
  { intros pre d0. revert pre. induction d0 as [|pg d0 IH]; intros pre; [done|].
    simpl. rewrite lookup_app_r by lia. rewrite Nat.sub_diag. simpl. f_equal.
    specialize (IH (pre ++ [pg])). rewrite <- app_assoc, length_app in IH.
    simpl in IH. rewrite Nat.add_1_r in IH. exact IH. }
  exact (H [] d).
Qed.

(** X15. The pages of the structured content.  For a parser on a document
    (with [num_pages] the length of the document, as [__init__] sets it),
    [extract_structured_content] returns one entry per page, in page order:
    entry [i] (from 0) has page_num [i + 1], as text the text the triage
    picks for page [i], and as char_count and word_count the length and the
    number of words of that text; full_text is the texts joined by blank
    lines. *)
Theorem structured_content_pages p :
  num_pages p = length (doc p) ->
  exists c p',
    extract_structured_content p = Some (c, p')
    /\ pages c = (fun ip : nat * page => entry_for ip.1 ip.2)
                 <$> Py.enumerate 0 (doc p)
    /\ full_text c = Py.join "

" (best_text <$> doc p)
    /\ filename c = Py.basename (pdf_path p)
    /\ c_num_pages c = length (doc p).
Proof.
  intros Hn. unfold extract_structured_content.
  destruct (process_pages_run (seq 0 (num_pages (set_stats p fresh_stats)))
              (set_stats p fresh_stats) [] 0)
    as (p' & -> & _ & _ & Hd & Hnum & Hpath).
  - simpl. rewrite Hn. apply Forall_forall. intros x Hx.
    apply list_elem_of_In, in_seq in Hx. lia.
  - reflexivity.
  - simpl in *. eexists _, p'. split; [reflexivity|]. simpl.
    rewrite Hn, seq_entries, Hpath, Hnum, Hn.
    repeat split.
    f_equal. rewrite <- list_fmap_compose.
    clear. generalize 0.
    induction (doc p) as [|pg d IH]; intros start; [done|].
    simpl. f_equal. apply IH.
Qed.

Lemma structured_content_pages_witness :
  exists c p',
    extract_structured_content c5_parser = Some (c, p')
    /\ pages c = [entry_for 0 c5_page_short].
Proof.
  destruct (structured_content_pages c5_parser) as (c & p' & Hrun & Hp & _).
  - reflexivity.
  - exists c, p'. split; [exact Hrun | exact Hp].
Defined.

(** X16. OCR runs once for every page whose stripped digital text has at
    most 100 characters, in page order, and for no other page: this is what
    a call of [extract_structured_content] adds to the trace of OCR calls. *)
Theorem structured_content_ocr_calls p :
  num_pages p = length (doc p) ->
  exists c p',
    extract_structured_content p = Some (c, p')
    /\ ocr_calls p'
       = ocr_calls p
         ++ (fst <$> filter (fun ip : nat * page => needs_ocr ip.2 = true)
                       (Py.enumerate 0 (doc p))).
Proof.
  intros Hn. unfold extract_structured_content.
  destruct (process_pages_run (seq 0 (num_pages (set_stats p fresh_stats)))
              (set_stats p fresh_stats) [] 0)
    as (p' & -> & _ & Ho & _).
  - simpl. rewrite Hn. apply Forall_forall. intros x Hx.
    apply list_elem_of_In, in_seq in Hx. lia.
  - reflexivity.
  - simpl in *. eexists _, p'. split; [reflexivity|]. rewrite Ho, Hn. f_equal.
    assert (H : forall pre d,
               filter (fun n => from_option needs_ocr false ((pre ++ d) !! n) = true)
                 (seq (length pre) (length d))
               = fst <$> filter (fun ip : nat * page => needs_ocr ip.2 = true)
                           (Py.enumerate (length pre) d)).
    { intros pre d. revert pre. induction d as [|pg d IH]; intros pre; [done|].
      specialize (IH (pre ++ [pg])). rewrite <- app_assoc, length_app in IH.
      simpl in IH. rewrite Nat.add_1_r in IH.
      assert (Hpg : (pre ++ pg :: d) !! length pre = Some pg).
      { rewrite lookup_app_r by lia. by rewrite Nat.sub_diag. }
      cbn [length seq Py.enumerate].
      destruct (needs_ocr pg) eqn:Hneed.
      - rewrite !filter_cons_True by (rewrite ?Hpg; simpl; by rewrite Hneed).
        rewrite fmap_cons. simpl. by rewrite IH.
      - rewrite !filter_cons_False by (rewrite ?Hpg; simpl; by rewrite Hneed).
        exact IH. }
    exact (H [] (doc p)).
Qed.

Lemma structured_content_ocr_calls_witness :
  exists c p',
    extract_structured_content c5_parser = Some (c, p') /\ ocr_calls p' = [0].
Proof.
  destruct (structured_content_ocr_calls c5_parser) as (c & p' & Hrun & Ho).
  - reflexivity.
  - exists c, p'. split; [exact Hrun | exact Ho].
Defined.

Lemma extract_page_keeps n p t p' :
  extract_text_from_page n p = Some (t, p') ->
  doc p' = doc p /\ num_pages p' = num_pages p /\ pdf_path p' = pdf_path p.
Proof.
  unfold extract_text_from_page.
  destruct (doc p !! n) as [pg|]; [|done]. simpl.
  destruct (MIN_DIGITAL_TEXT_THRESHOLD <? _).
  - destruct (bump _ _); [|done]. by intros [= <- <-].
  - destruct (_ <? _); (destruct (bump _ _); [|done]); by intros [= <- <-].
Qed.

Lemma process_pages_again nums : forall p q acc entries p',
  doc p = doc q -> extraction_stats p = extraction_stats q ->
  num_pages p = num_pages q -> pdf_path p = pdf_path q ->
  process_pages nums p acc = Some (entries, p') ->
  exists q', process_pages nums q acc = Some (entries, q')
    /\ extraction_stats q' = extraction_stats p'
    /\ num_pages q' = num_pages p' /\ pdf_path q' = pdf_path p'.
Proof.
  induction nums as [|n nums IH]; intros p q acc entries p' Hd Hs Hn Hp; simpl.
  - intros [= <- <-]. by exists q.
  - destruct (extract_text_from_page n p) as [[t p1]|] eqn:H1; [|done].
    destruct (extract_page_stats n p q t p1 Hd Hs H1) as (q1 & Hq & Hs1).
    destruct (extract_page_keeps _ _ _ _ H1) as (Hd1 & Hn1 & Hp1).
    destruct (extract_page_keeps _ _ _ _ Hq) as (Hdq & Hnq & Hpq).
    rewrite Hq. intros Hrun.
    eapply IH; [| | | |exact Hrun]; congruence.
Qed.

(** X17. [extract_structured_content] can be repeated: a second call on the
    parser the first call left returns the same content, counters included,
    since the counters are reset at the start of every call. *)
Theorem structured_content_repeatable p c p' :
  extract_structured_content p = Some (c, p') ->
  exists p'', extract_structured_content p' = Some (c, p'').
Proof.
  unfold extract_structured_content.
  destruct (process_pages _ (set_stats p fresh_stats) [])
    as [[entries p1]|] eqn:Hrun; [|done].
  intros [= <- <-].
  assert (Hkeep : doc p1 = doc p /\ num_pages p1 = num_pages p
                  /\ pdf_path p1 = pdf_path p).
  { clear -Hrun. simpl in Hrun.
    assert (H : forall nums q acc e q', process_pages nums q acc = Some (e, q') ->
                doc q' = doc q /\ num_pages q' = num_pages q
                /\ pdf_path q' = pdf_path q).
    { induction nums as [|n nums IH]; intros q acc e q'; simpl.
      - by intros [= <- <-].
      - destruct (extract_text_from_page n q) as [[t q1]|] eqn:H1; [|done].
        destruct (extract_page_keeps _ _ _ _ H1) as (a & b & d).
        intros Hr. apply IH in Hr as (a' & b' & d'). split; [|split]; congruence. }
    apply H in Hrun. exact Hrun. }
  destruct Hkeep as (Hd & Hn & Hp). simpl in *. rewrite Hn.
  destruct (process_pages_again (seq 0 (num_pages p)) (set_stats p fresh_stats)
              (set_stats p1 fresh_stats) [] entries p1)
    as (q' & -> & Hs' & Hn' & Hp'); simpl; try done.
  eexists. rewrite Hs', Hn', Hp', ?Hn. reflexivity.
Qed.

Lemma structured_content_repeatable_witness :
  exists c p' p'',
    extract_structured_content c5_parser = Some (c, p')
    /\ extract_structured_content p' = Some (c, p'').
Proof.
  destruct (extract_structured_content c5_parser) as [[c p']|] eqn:Hrun;
    [|vm_compute in Hrun; discriminate Hrun].
  destruct (structured_content_repeatable c5_parser c p' Hrun) as [p'' Hagain].
  by exists c, p', p''.
Defined.

Lemma extract_all_text_loop_run nums : forall p all_text k,
  Forall (fun n => n < length (doc p)) nums ->
  stats_total (extraction_stats p) = Some k ->
  exists p',
    extract_all_text_loop nums p all_text
    = Some (all_text
            ++ omap (fun n => (fun pg => ("
--- Page " +:+ Py.str_of_nat (n + 1) +:+ " ---
") +:+ best_text pg) <$> doc p !! n) nums, p')
    /\ stats_total (extraction_stats p') = Some (k + length nums).
Proof.
  induction nums as [|n nums IH]; intros p acc k Hin Htot; simpl.
  - exists p. rewrite app_nil_r, Nat.add_0_r. done.
  - apply Forall_cons in Hin as [Hn Hin].
    destruct (lookup_lt_is_Some_2 (doc p) n Hn) as [pg Hpg].
    destruct (extract_page_step n pg p k Hpg Htot)
      as (p1 & -> & Htot1 & _ & Hdoc1 & _).
    match goal with |- context [extract_all_text_loop nums p1 ?a] =>
      destruct (IH p1 a (S k)) as (p' & -> & Ht);
        [by rewrite Hdoc1 | done |]
    end.
    exists p'. rewrite Hpg. simpl. rewrite <- app_assoc. simpl.
    rewrite Hdoc1. split; [reflexivity|]. rewrite Ht. f_equal. lia.
Qed.

(** X18. [extract_all_text] does not reset the counters: it returns the
    pages' texts, each under its page header, and leaves the three counters
    adding up to what they added up to before plus the number of pages, so
    the statistics of successive calls pile up. *)
Theorem extract_all_text_accumulates p k :
  num_pages p = length (doc p) ->
  stats_total (extraction_stats p) = Some k ->
  exists all_text p',
    extract_all_text p = Some (Py.join "
" all_text, p')
    /\ length all_text = num_pages p
    /\ (forall i pg, doc p !! i = Some pg ->
        all_text !! i = Some (("
--- Page " +:+ Py.str_of_nat (i + 1) +:+ " ---
") +:+ best_text pg))
    /\ stats_total (extraction_stats p') = Some (k + num_pages p).
Proof.
  intros Hn Htot. unfold extract_all_text.
  destruct (extract_all_text_loop_run (seq 0 (num_pages p)) p [] k)
    as (p' & -> & Ht); [|done|].
  { rewrite Hn. apply Forall_forall. intros x Hx.
    apply list_elem_of_In, in_seq in Hx. lia. }
  rewrite length_seq in Ht. simpl.
  eexists _, p'. split; [reflexivity|].
  assert (H : forall pre d,
             omap (fun n => (fun pg => ("
--- Page " +:+ Py.str_of_nat (n + 1) +:+ " ---
") +:+ best_text pg) <$> (pre ++ d) !! n) (seq (length pre) (length d))
             = (fun ip : nat * page => ("
--- Page " +:+ Py.str_of_nat (ip.1 + 1) +:+ " ---
") +:+ best_text ip.2) <$> Py.enumerate (length pre) d).
  { intros pre d. revert pre. induction d as [|pg d IH]; intros pre; [done|].
    simpl. rewrite lookup_app_r by lia. rewrite Nat.sub_diag. simpl. f_equal.
    specialize (IH (pre ++ [pg])). rewrite <- app_assoc, length_app in IH.
    simpl in IH. rewrite Nat.add_1_r in IH. exact IH. }
  rewrite Hn. pose proof (H [] (doc p)) as Hx.
  change (@nil page ++ doc p) with (doc p) in Hx.
  change (length (@nil page)) with 0 in Hx. rewrite Hx. clear H Hx.
  split; [by rewrite length_fmap, VideoCreatorFacts.enumerate_length|].
  split; [|by rewrite <- Hn].
  intros i pg Hi.
  rewrite list_lookup_fmap, VideoCreatorFacts.enumerate_lookup, Hi. done.
Qed.

Lemma extract_all_text_accumulates_witness :
  exists all_text p',
    extract_all_text c5_parser = Some (Py.join "
" all_text, p')
    /\ stats_total (extraction_stats p') = Some 1.
Proof.
  destruct (extract_all_text_accumulates c5_parser 0)
    as (all_text & p' & Hrun & _ & _ & Htot); [reflexivity | reflexivity |].
  by exists all_text, p'.
Defined.

End ParserRuns.

(* --------------------------------------------------------------------- *)
(** ** Deck renderer: what wrapping does to the words *)
(* --------------------------------------------------------------------- *)

Module Wrapping.
Import PdfSlideCreator.

(** X19. Wrapping loses no word and changes no word: the lines
    [_wrap_text] returns, joined by single spaces, are the words of the text
    joined by single spaces; and no line is empty. *)
Theorem wrap_text_keeps_words (stringWidth : measure) text max_width font size :
  Py.join " " (_wrap_text stringWidth text max_width font size)
  = Py.join " " (Py.split_ws text)
  /\ Forall (fun line => line <> EmptyString)
       (_wrap_text stringWidth text max_width font size).
Proof.
  unfold _wrap_text, wrap_words.
  pose proof (PdfSlideCreatorFacts.wrap_loop_join (fun s => stringWidth s font size)
                (inject_Z max_width) (Py.split_ws text) [] EmptyString) as H.
  destruct (wrap_loop _ _ (Py.split_ws text) [] EmptyString) as [lines cur].
  destruct H as [Hj Hf]; [|constructor|by right|].
  { apply Forall_forall. intros w Hw. by eapply PdfSlideCreatorFacts.split_ws_go_nonempty. }
  simpl in Hj, Hf. unfold flush in Hj, Hf. simpl in Hj. split; [exact Hj|].
  eapply Forall_impl; [exact Hf|]. intros l Hl ->. done.
Qed.

End Wrapping.

(* --------------------------------------------------------------------- *)
(** ** Video assembler: the files it writes *)
(* --------------------------------------------------------------------- *)

Module VideoFiles.
Import VideoCreator Samples.

Example image_path_ex :
  image_path "output/intermediate/slide_images" 0
  = "output/intermediate/slide_images/slide_00.png"
  /\ image_path "imgs/" 0 = "imgs/slide_00.png"
  /\ image_path "" 7 = "slide_07.png"
  /\ audio_path "./audio" 1 = "audio/audio_01.mp3"
  /\ audio_path "" 1 = "audio_01.mp3".
Proof. repeat split; reflexivity. Qed.

(** X20. [convert_pdf_to_images] raises FileNotFoundError and leaves the
    files alone when the PDF is missing.  For a PDF of [n] pages it returns
    the [n] paths of slide_00.png, slide_01.png, ... in the output
    directory, in page order and as pathlib writes them (imgs/slide_00.png
    for the directory imgs/); afterwards the file of page [i] holds page [i]
    (no page overwrites another, also past page 99), and every other file is
    as before. *)
Theorem convert_pdf_to_images_files pdf_path output_dir disk :
  let out := convert_pdf_to_images pdf_path output_dir disk in
  (disk !! pdf_path = None -> out = (Raise FileNotFoundError, disk))
  /\ forall n, disk !! pdf_path = Some (Pdf n) ->
       out.1 = Ok (image_path output_dir <$> seq 0 n)
       /\ (forall i, i < n -> out.2 !! image_path output_dir i = Some (Png i))
       /\ (forall p, (forall i, i < n -> p <> image_path output_dir i) ->
           out.2 !! p = disk !! p).
Proof.
  unfold convert_pdf_to_images. split; [by intros ->|].
  intros n ->.
  pose proof (VideoCreatorFacts.save_pages_run output_dir (seq 0 n) [] disk
                (NoDup_seq 0 n)) as H.
  destruct (save_pages output_dir (seq 0 n) [] disk) as [paths disk'].
  simpl in H. destruct H as (H1 & H2 & H3). simpl.
  split; [by rewrite H1|]. split.
  - intros i Hi. apply H2. apply elem_of_seq. lia.
  - intros p Hp. apply H3. intros i Hi%elem_of_seq. apply Hp. lia.
Qed.

(** X21. [generate_tts_audio] does not clean up after a failure.  The
    slides file holds content slides with a string as title, a list of
    strings as bullets and a string as speaker notes (the last two may be
    missing).  When the speech service fails for a slide the call raises;
    whether it raises or returns, the file audio_[k+1].mp3 of the output
    directory holds the narration of content slide [k] for every slide up
    to which the service answered, and no file but the audio files of the
    slides is touched. *)
Theorem generate_tts_audio_files tts path dir title_duration disk slides :
  disk !! path = Some (SlidesJson slides) ->
  let out := generate_tts_audio tts path dir title_duration disk in
  (forall k s, slides !! k = Some s ->
     (forall j s', j <= k -> slides !! j = Some s' ->
        is_Some (tts (narration_text s'))) ->
     exists dur, tts (narration_text s) = Some dur
       /\ out.2 !! audio_path dir (S k) = Some (Mp3 (narration_text s) dur))
  /\ (forall p, (forall k, k < length slides -> p <> audio_path dir (S k)) ->
      out.2 !! p = disk !! p)
  /\ ((exists s, s ∈ slides /\ tts (narration_text s) = None) ->
      out.1 = Raise SpeechError).
Proof.
  intros Hfile. unfold generate_tts_audio. rewrite Hfile.
  pose proof (VideoCreatorFacts.tts_loop_files tts dir slides 1
                [(None, title_duration)] disk) as (H1 & H2 & H3 & _).
  split; [exact H1|]. split; [exact H2|]. apply H3.
Qed.

Lemma generate_tts_audio_files_witness :
  let out := generate_tts_audio failing_voice "output/intermediate/slides.json"
               "./audio" default_title_duration fresh_disk in
  out.1 = Raise SpeechError
  /\ out.2 !! "audio/audio_01.mp3" = Some (Mp3 "Layers are stacked." 2%Q).
Proof.
  destruct (generate_tts_audio_files failing_voice
              "output/intermediate/slides.json" "./audio"
              default_title_duration fresh_disk two_slides)
    as (Hfiles & _ & Hraise).
  - vm_compute. reflexivity.
  - split.
    + apply Hraise. exists (Slide "Features" (Some ["Learned"; "Not designed"]) None).
      split; [apply (list_elem_of_lookup_2 _ 1) |]; reflexivity.
    + destruct (Hfiles 0 _ eq_refl) as (dur & Hd & Hf).
      * intros [|j] s' Hj Hs'; [|lia]. injection Hs' as <-. by eexists.
      * vm_compute in Hd. injection Hd as <-. exact Hf.
Defined.

(** X22. [create_video] makes as many clips as the shorter of its two lists
    has entries and drops the rest without an error.  Clip [i] shows image
    [i] for the duration of audio entry [i], and carries an audio track
    exactly when that entry names a file that exists. *)
Theorem create_video_clips slide_images audio_clips disk :
  let clips := create_video slide_images audio_clips disk in
  length clips = Nat.min (length slide_images) (length audio_clips)
  /\ forall i img audio_file dur,
       slide_images !! i = Some img ->
       audio_clips !! i = Some (audio_file, dur) ->
       exists c, clips !! i = Some c
         /\ frame c = img /\ duration c = dur
         /\ forall path, audio c = Some path
              <-> audio_file = Some path /\ is_Some (disk !! path).
Proof.
  unfold create_video. split.
  - rewrite length_fmap. revert audio_clips.
    induction slide_images as [|x l IH]; intros [|y l']; simpl; try done.
    by rewrite IH.
  - intros i img audio_file dur Hi Ha. rewrite list_lookup_fmap.
    assert (Hz : Py.zip slide_images audio_clips !! i = Some (img, (audio_file, dur)))
      by (by apply VideoCreatorFacts.zip_lookup).
    rewrite Hz. simpl. eexists. split; [done|]. simpl. split; [done|].
    split; [done|]. intros path. destruct audio_file as [p|].
    + destruct (bool_decide (is_Some (disk !! p))) eqn:Hb.
      * apply bool_decide_eq_true in Hb. split; [by intros [= <-] | by intros [[= <-] _]].
      * apply bool_decide_eq_false in Hb. split; [done | by intros [[= <-] ?]].
    + split; [done | by intros [? _]].
Qed.

End VideoFiles.

(* --------------------------------------------------------------------- *)
(** ** Deck renderer: what is drawn on the pages *)
(* --------------------------------------------------------------------- *)

Module DeckPages.
Import PdfSlideCreator PdfPages.

Lemma text_within_weaken x lo hi lo' hi' o :
  (lo' <= lo)%Z -> (hi <= hi')%Z -> text_within x lo hi o -> text_within x lo' hi' o.
Proof.
  destruct o; simpl; try done. intros ? ? (-> & z & -> & ?).
  split; [done|]. exists z. split; [done | lia].
Qed.

Lemma texts_app ops1 ops2 : texts (ops1 ++ ops2) = texts ops1 ++ texts ops2.
Proof. apply omap_app. Qed.

Lemma texts_draw x y t ops : texts (DrawString x y t :: ops) = t :: texts ops.
Proof. reflexivity. Qed.

Lemma draw_lines_run x lines : forall y,
  let out := draw_lines x lines y in
  exists k, k <= length lines
    /\ texts out.1 = take k lines
    /\ out.2 = (y - 25 * Z.of_nat k)%Z
    /\ Forall (text_within x (content_y + 20) y) out.1
    /\ (k < length lines -> (out.2 < content_y + 20)%Z)
    /\ ((content_y + 20 <= y - 25 * (Z.of_nat (length lines) - 1))%Z ->
        k = length lines)
    /\ (0 < k -> (content_y + 20 <= y - 25 * (Z.of_nat k - 1))%Z).
Proof.
  induction lines as [|line rest IH]; intros y; cbn [draw_lines].
  - exists 0. simpl. repeat split; try done; try lia.
  - destruct (y <? content_y + 20)%Z eqn:Hy.
    + apply Z.ltb_lt in Hy. exists 0. simpl.
      repeat split; try done; try lia.
    + apply Z.ltb_ge in Hy.
      destruct (IH (y - 25)%Z) as (k & Hk & Ht & Hy' & Hin & Hbrk & Hall & Hpos).
      destruct (draw_lines x rest (y - 25)) as [ops y'] eqn:Hd.
      simpl in Ht, Hy', Hin, Hbrk. exists (S k). cbn [fst snd length].
      split; [lia|]. split; [by rewrite texts_draw, Ht|].
      split; [lia|]. split; [|split; [|split]].
      * constructor.
        -- simpl. split; [done|]. exists y. split; [done | lia].
        -- eapply Forall_impl; [exact Hin|]. intros o.
           apply text_within_weaken; lia.
      * intros Hlt. apply Hbrk. lia.
      * intros Hfit. f_equal. apply Hall. lia.
      * intros _. destruct k; [lia|]. specialize (Hpos ltac:(lia)). lia.
Qed.

Lemma draw_bullets_below stringWidth x bullets y :
  (y < content_y + 20)%Z -> draw_bullets stringWidth x bullets y = [].
Proof.
  intros Hy%Z.ltb_lt. destruct bullets; [done|]. cbn [draw_bullets].
  by rewrite Hy.
Qed.

Lemma draw_bullets_run stringWidth x bullets : forall y,
  let ops := draw_bullets stringWidth x bullets y in
  let all := concat (bullet_lines stringWidth <$> bullets) in
  (exists k, texts ops = take k all)
  /\ Forall (text_within x (content_y + 20) y) ops
  /\ (25 * Z.of_nat (length (texts ops)) <= Z.max 0 (y - (content_y - 5)))%Z
  /\ ((25 * (Z.of_nat (length all) - 1)
       + 15 * (Z.of_nat (length bullets) - 1) <= y - (content_y + 20))%Z ->
      texts ops = all).
Proof.
  induction bullets as [|bullet rest IH]; intros y; cbn [draw_bullets].
  - simpl. split; [by exists 0|]. repeat split; try done. unfold content_y. lia.
  - cbn [fmap list_fmap concat length].
    destruct (y <? content_y + 20)%Z eqn:Hy.
    + apply Z.ltb_lt in Hy. simpl.
      split; [by exists 0|]. split; [done|].
      split; [unfold content_y in *; lia|].
      rewrite length_app. intros Hfit.
      destruct (bullet_lines stringWidth bullet), (concat _); simpl in *;
        try done; unfold content_y in *; lia.
    + apply Z.ltb_ge in Hy.
      destruct (draw_lines_run x (bullet_lines stringWidth bullet) y)
        as (k1 & Hk1 & Ht1 & Hy1 & Hin1 & Hbrk1 & Hall1 & Hpos1).
      destruct (draw_lines x (bullet_lines stringWidth bullet) y) as [ops1 y1].
      simpl in Ht1, Hy1, Hin1, Hbrk1.
      destruct (IH (y1 - 15)%Z) as ([k2 Ht2] & Hin2 & Hn2 & Hall2).
      set (ops2 := draw_bullets stringWidth x rest (y1 - 15)) in *.
      set (lines := bullet_lines stringWidth bullet) in *.
      set (more := concat (bullet_lines stringWidth <$> rest)) in *.
      assert (Hlen1 : length (texts ops1) = k1)
        by (rewrite Ht1, length_take; lia).
      rewrite texts_app, length_app.
      split; [|split; [|split]].
      * destruct (decide (k1 = length lines)) as [->|Hne].
        -- exists (length lines + k2).
           rewrite Ht1, Ht2, firstn_all, take_app_add'; done.
        -- exists k1. unfold ops2.
           rewrite draw_bullets_below by (specialize (Hbrk1 ltac:(lia)); lia).
           simpl. rewrite app_nil_r, Ht1.
           rewrite take_app_le by lia. done.
      * apply Forall_app. split; [done|].
        eapply Forall_impl; [exact Hin2|]. intros o.
        apply text_within_weaken; lia.
      * rewrite Hlen1. unfold content_y in *.
        destruct k1; [lia|]. specialize (Hpos1 ltac:(lia)). lia.
      * rewrite length_app. intros Hfit.
        assert (k1 = length lines) as -> by (apply Hall1; lia).
        rewrite Ht1, firstn_all. f_equal. apply Hall2.
        subst y1. destruct rest as [|b' rest'].
        -- simpl in *. unfold more. simpl. lia.
        -- simpl length in *. lia.
Qed.

Lemma draw_title_lines_run lines : forall y,
  texts (draw_title_lines lines y) = lines
  /\ Forall (text_within title_x (y - 30 * (Z.of_nat (length lines) - 1)) y)
       (draw_title_lines lines y).
Proof.
  induction lines as [|line rest IH]; intros y; cbn [draw_title_lines].
  - split; [done | constructor].
  - destruct (IH (y - 30)%Z) as [Ht Hin]. split; [by rewrite texts_draw, Ht|].
    constructor.
    + simpl. split; [done|]. exists y. split; [done|]. simpl length. lia.
    + eapply Forall_impl; [exact Hin|]. intros o.
      apply text_within_weaken; simpl length; lia.
Qed.

Lemma texts_draw_icon files image_reader path x y w h :
  texts (draw_icon files image_reader path x y w h) = [].
Proof.
  unfold draw_icon. destruct (files !! path); [|done].
  by destruct (image_reader _).
Qed.

(** The text of a content slide: title lines, then bullet lines. *)
Lemma content_slide_texts_split files image_reader stringWidth icons_dir
    slide_data slide_num :
  texts (_create_content_slide files image_reader stringWidth icons_dir
           slide_data slide_num)
  = texts (draw_title_lines
             (take 3 (wrap_words (fun s => stringWidth s "Helvetica-Bold" 24%Z)
                        (inject_Z title_width)
                        (Py.split_ws (ImageGenerator.slide_title slide_data))))
             (title_y + 60))
    ++ texts (draw_bullets stringWidth bullets_x
                (ImageGenerator.slide_bullets slide_data) bullets_start_y).
Proof.
  unfold _create_content_slide. rewrite !texts_app.
  destruct (bool_decide _); [rewrite texts_app, texts_draw_icon|];
    simpl; by rewrite app_nil_r.
Qed.

Lemma texts_drawn ops :
  Forall (fun o => forall x y t, o = DrawString x y t -> t ∈ texts ops) ops.
Proof.
  apply Forall_forall. intros o Ho x y t ->.
  apply list_elem_of_omap. by exists (DrawString x y t).
Qed.

Lemma concat_bullet_lines stringWidth bullets line :
  line ∈ concat (bullet_lines stringWidth <$> bullets) ->
  exists bullet, bullet ∈ bullets /\ line ∈ bullet_lines stringWidth bullet.
Proof.
  intros Hin%list_elem_of_In%in_concat. destruct Hin as (lines & Hl & Hin).
  apply list_elem_of_In, list_elem_of_fmap in Hl as (bullet & -> & Hb).
  exists bullet. split; [done|]. by apply list_elem_of_In.
Qed.

(** X23. Where the text of a content slide is drawn, however long the title
    and the bullets are.  A title line starts at x = 252 with its base line
    between 450 and 510 (the coloured box spans 443 to 557), and it measures
    under 432 points in Helvetica-Bold 24 or is a single word of the title.
    A bullet line starts at x = 250 with its base line between 100 and 342
    (the white card spans 80 to 382), and it measures under 414 points in
    Helvetica 18 or is a single word of the bullet with its dash.  So a line
    of several words ends inside its box, while a single word is drawn
    whatever its width and can run past the box.  At most 13 lines of text
    are drawn, 3 of them for the title. *)
Theorem content_slide_text_inside files image_reader stringWidth icons_dir
    slide_data slide_num :
  let ops := _create_content_slide files image_reader stringWidth icons_dir
               slide_data slide_num in
  (forall x y t, DrawString x y t ∈ ops ->
     exists z, y = inject_Z z
       /\ ((x = inject_Z 252 /\ (450 <= z <= 510)%Z
            /\ ((stringWidth t "Helvetica-Bold" 24%Z < inject_Z 432)%Q
                \/ t ∈ Py.split_ws (ImageGenerator.slide_title slide_data)))
           \/ (x = inject_Z 250 /\ (100 <= z <= 342)%Z
               /\ ((stringWidth t "Helvetica" 18%Z < inject_Z 414)%Q
                   \/ exists bullet,
                        bullet ∈ ImageGenerator.slide_bullets slide_data
                        /\ t ∈ Py.split_ws ("- " +:+ bullet)))))
  /\ length (texts ops) <= 13.
Proof.
  set (title_lines :=
         take 3 (wrap_words (fun s => stringWidth s "Helvetica-Bold" 24%Z)
                   (inject_Z title_width)
                   (Py.split_ws (ImageGenerator.slide_title slide_data)))).
  set (all := concat (bullet_lines stringWidth
                        <$> ImageGenerator.slide_bullets slide_data)).
  assert (Hlen3 : length title_lines <= 3) by (unfold title_lines; rewrite length_take; lia).
  destruct (draw_title_lines_run title_lines (title_y + 60)) as [Htt Htin].
  destruct (draw_bullets_run stringWidth bullets_x
              (ImageGenerator.slide_bullets slide_data) bullets_start_y)
    as ([k Hbt] & Hbin & Hbn & _).
  split.
  - assert (Hall : Forall (fun o =>
                       (text_within title_x 450 510 o
                        /\ forall x y t, o = DrawString x y t -> t ∈ title_lines)
                       \/ (text_within bullets_x 100 342 o
                           /\ forall x y t, o = DrawString x y t -> t ∈ all))
                     (_create_content_slide files image_reader stringWidth
                        icons_dir slide_data slide_num)).
    { unfold _create_content_slide. fold title_lines.
      assert (Hplain : forall o : op,
                 (forall x y t, o <> DrawString x y t) ->
                 (text_within title_x 450 510 o
                  /\ forall x y t, o = DrawString x y t -> t ∈ title_lines)
                 \/ (text_within bullets_x 100 342 o
                     /\ forall x y t, o = DrawString x y t -> t ∈ all)).
      { intros o Ho. left. split; [|intros x y t ->; by destruct (Ho x y t)].
        destruct o; try exact I. exfalso. by eapply Ho. }
      repeat (apply Forall_app; split);
        try (repeat (constructor; [by apply Hplain|]); by constructor).
      - destruct (bool_decide _); [|constructor].
        apply Forall_app. split;
          [repeat (constructor; [by apply Hplain|]); by constructor|].
        unfold draw_icon. destruct (files !! _); [|constructor].
        destruct (image_reader _);
          repeat (constructor; [by apply Hplain|]); by constructor.
      - pose proof (texts_drawn (draw_title_lines title_lines (title_y + 60)))
          as Hdrawn.
        rewrite Htt in Hdrawn.
        eapply Forall_impl; [exact (proj2 (Forall_and _ _) (conj Htin Hdrawn))|].
        intros o [Ho Ht]. left. split; [|done].
        revert Ho. apply text_within_weaken; unfold title_y, height; lia.
      - pose proof (texts_drawn (draw_bullets stringWidth bullets_x
                                   (ImageGenerator.slide_bullets slide_data)
                                   bullets_start_y)) as Hdrawn.
        rewrite Hbt in Hdrawn.
        eapply Forall_impl; [exact (proj2 (Forall_and _ _) (conj Hbin Hdrawn))|].
        intros o [Ho Ht]. right. split.
        + revert Ho. apply text_within_weaken;
            unfold bullets_start_y, content_y, content_height; lia.
        + intros x y t Heq. eapply subseteq_take, Ht, Heq. }
    intros x y t Hin. rewrite Forall_forall in Hall.
    destruct (Hall _ Hin) as [[(-> & z & -> & Hz) Ht] | [(-> & z & -> & Hz) Ht]];
      exists z; (split; [done|]); [left | right]; (split; [done|]);
      (split; [done|]); specialize (Ht _ _ _ eq_refl).
    + apply subseteq_take in Ht.
      by apply PdfSlideCreatorFacts.wrap_words_lines in Ht.
    + apply concat_bullet_lines in Ht as (bullet & Hb & Ht).
      apply PdfSlideCreatorFacts.bullet_lines_fit_or_single_word in Ht
        as [Ht|Ht]; [by left | right; by exists bullet].
  - rewrite content_slide_texts_split, length_app. fold title_lines.
    rewrite Htt.
    set (n := length (texts _)) in *. clearbody n.
    unfold bullets_start_y, content_y, content_height in Hbn. lia.
Qed.

(** A single word wider than the card is drawn all the same: at 10.8 points
    a character in a fixed-pitch measure, the 41 characters of this word
    take 442.8 points from x = 250, past the right edge of the card at 684. *)
Example content_slide_wide_word :
  let word := "pneumonoultramicroscopicsilicovolcanoconi" in
  let ops := _create_content_slide ∅ (fun _ => true) fixed_pitch "icons"
               (ImageGenerator.SlideContent "Lungs" [word]) 1 in
  DrawString (inject_Z 250) (inject_Z 317) word ∈ ops
  /\ (inject_Z content_x + inject_Z content_width
      < inject_Z 250 + fixed_pitch word "Helvetica" 18%Z)%Q.
Proof.
  split; [|by vm_compute].
  vm_compute. set_solver.
Qed.

Lemma concat_length_bound stringWidth bullets n :
  Forall (fun b => length (bullet_lines stringWidth b) <= n) bullets ->
  length (concat (bullet_lines stringWidth <$> bullets)) <= n * length bullets.
Proof.
  induction 1 as [|b bs Hb _ IH]; [simpl; lia|].
  rewrite fmap_cons. cbn [concat length]. rewrite length_app. lia.
Qed.

(** X24. What a content slide shows of its text: the first three lines of
    the wrapped title, then a prefix of the wrapped lines of the bullets in
    order (nothing is reordered or repeated, the rest is dropped without a
    notice).  All bullet lines are shown when 25 points per line and 15
    points per gap between bullets fit in 242 points: three bullets of up to
    three lines each always do. *)
Theorem content_slide_texts files image_reader stringWidth icons_dir
    slide_data slide_num :
  let title_lines :=
    wrap_words (fun s => stringWidth s "Helvetica-Bold" 24%Z) (inject_Z 432)
      (Py.split_ws (ImageGenerator.slide_title slide_data)) in
  let bullets := ImageGenerator.slide_bullets slide_data in
  let all := concat (bullet_lines stringWidth <$> bullets) in
  let shown := texts (_create_content_slide files image_reader stringWidth
                        icons_dir slide_data slide_num) in
  (exists k, shown = take 3 title_lines ++ take k all)
  /\ ((25 * (Z.of_nat (length all) - 1)
       + 15 * (Z.of_nat (length bullets) - 1) <= 242)%Z ->
      shown = take 3 title_lines ++ all)
  /\ (length bullets <= 3 ->
      Forall (fun b => length (bullet_lines stringWidth b) <= 3) bullets ->
      shown = take 3 title_lines ++ all).
Proof.
  intros title_lines bullets all shown.
  assert (Hshown : shown = take 3 title_lines
                           ++ texts (draw_bullets stringWidth bullets_x bullets
                                       bullets_start_y)).
  { unfold shown. rewrite content_slide_texts_split.
    by rewrite (proj1 (draw_title_lines_run _ _)). }
  destruct (draw_bullets_run stringWidth bullets_x bullets bullets_start_y)
    as ([k Hk] & _ & _ & Hfit).
  fold all in Hk, Hfit.
  assert (Hcond : (25 * (Z.of_nat (length all) - 1)
                   + 15 * (Z.of_nat (length bullets) - 1) <= 242)%Z ->
                  shown = take 3 title_lines ++ all).
  { intros Hc. rewrite Hshown. f_equal. apply Hfit.
    unfold bullets_start_y, content_y, content_height. lia. }
  split; [exists k; by rewrite Hshown, Hk|]. split; [exact Hcond|].
  intros Hb Hl. apply Hcond.
  pose proof (concat_length_bound _ _ 3 Hl) as Hsum. fold all in Hsum. lia.
Qed.

Lemma pages_go_page ops : forall current rest,
  Forall (fun o => o <> ShowPage) ops ->
  pages_go current (ops ++ ShowPage :: rest) = (current ++ ops) :: pages_go [] rest.
Proof.
  induction ops as [|o ops IH]; intros current rest Hno; simpl.
  - by rewrite app_nil_r.
  - apply Forall_cons in Hno as [Ho Hno].
    destruct o; try done; cbn [pages_go]; rewrite IH by done;
      by rewrite <- app_assoc.
Qed.

Lemma draw_centered_no_page stringWidth font size spacing lines : forall y,
  Forall (fun o => o <> ShowPage)
    (draw_centered stringWidth font size spacing lines y).1.
Proof.
  induction lines as [|line rest IH]; intros y; cbn [draw_centered];
    [constructor|].
  specialize (IH (y - spacing)%Z).
  destruct (draw_centered stringWidth font size spacing rest (y - spacing)).
  simpl in *. by constructor.
Qed.

Lemma draw_icon_no_page files image_reader path x y w h :
  Forall (fun o => o <> ShowPage) (draw_icon files image_reader path x y w h).
Proof.
  unfold draw_icon. destruct (files !! path); [|constructor].
  destruct (image_reader _); repeat constructor; done.
Qed.

Lemma title_slide_no_page files image_reader stringWidth icons_dir data :
  Forall (fun o => o <> ShowPage)
    (_create_title_slide files image_reader stringWidth icons_dir data).
Proof.
  unfold _create_title_slide.
  pose proof (draw_centered_no_page stringWidth "Helvetica-Bold" 38 48
                (wrap_words (fun s => stringWidth s "Helvetica-Bold" 38%Z)
                   (inject_Z (width - 120))
                   (Py.split_ws (ImageGenerator.title_of_deck data))) 290) as Ht.
  destruct (draw_centered stringWidth "Helvetica-Bold" 38 48 _ 290) as [tops y].
  repeat (apply Forall_app; split);
    try (repeat constructor; done);
    auto using draw_icon_no_page, draw_centered_no_page.
Qed.

Lemma draw_lines_no_page x lines : forall y,
  Forall (fun o => o <> ShowPage) (draw_lines x lines y).1.
Proof.
  induction lines as [|line rest IH]; intros y; cbn [draw_lines];
    [constructor|].
  destruct (_ <? _)%Z; [constructor|]. specialize (IH (y - 25)%Z).
  destruct (draw_lines x rest (y - 25)). simpl in *. by constructor.
Qed.

Lemma draw_bullets_no_page stringWidth x bullets : forall y,
  Forall (fun o => o <> ShowPage) (draw_bullets stringWidth x bullets y).
Proof.
  induction bullets as [|b rest IH]; intros y; cbn [draw_bullets];
    [constructor|].
  destruct (_ <? _)%Z; [constructor|].
  pose proof (draw_lines_no_page x (bullet_lines stringWidth b) y) as Hl.
  destruct (draw_lines x (bullet_lines stringWidth b) y) as [ops y'].
  apply Forall_app. split; [done | apply IH].
Qed.

Lemma draw_title_lines_no_page lines : forall y,
  Forall (fun o => o <> ShowPage) (draw_title_lines lines y).
Proof.
  induction lines as [|line rest IH]; intros y; cbn [draw_title_lines];
    constructor; [done | apply IH].
Qed.

Lemma content_slide_no_page files image_reader stringWidth icons_dir
    slide_data slide_num :
  Forall (fun o => o <> ShowPage)
    (_create_content_slide files image_reader stringWidth icons_dir
       slide_data slide_num).
Proof.
  unfold _create_content_slide.
  repeat (apply Forall_app; split);
    try (repeat constructor; done);
    auto using draw_title_lines_no_page, draw_bullets_no_page.
  destruct (bool_decide _); [|constructor].
  apply Forall_app. split; [repeat constructor; done | apply draw_icon_no_page].
Qed.

Lemma content_pages_pages files image_reader stringWidth icons_dir slides :
  forall tail,
  pages_go [] (content_pages files image_reader stringWidth icons_dir slides
               ++ tail)
  = ((fun p : nat * ImageGenerator.slide_content =>
        _create_content_slide files image_reader stringWidth icons_dir p.2 p.1)
     <$> slides) ++ pages_go [] tail.
Proof.
  induction slides as [|[i sd] rest IH]; intros tail; [done|].
  cbn [content_pages].
  pose proof (content_slide_no_page files image_reader stringWidth icons_dir
                sd i) as Hno.
  set (page := _create_content_slide _ _ _ _ sd i) in *.
  rewrite <- (app_assoc page).
  change (pages_go [] (page ++ ShowPage
                       :: (content_pages files image_reader stringWidth
                             icons_dir rest ++ tail))
          = (page :: ((fun p : nat * ImageGenerator.slide_content =>
                         _create_content_slide files image_reader stringWidth
                           icons_dir p.2 p.1) <$> rest)) ++ pages_go [] tail).
  rewrite pages_go_page by done. by rewrite IH.
Qed.

Lemma create_presentation_pages files image_reader stringWidth icons_dir data :
  pages (create_presentation files image_reader stringWidth icons_dir data)
  = _create_title_slide files image_reader stringWidth icons_dir data
    :: ((fun p : nat * ImageGenerator.slide_content =>
           _create_content_slide files image_reader stringWidth icons_dir
             p.2 p.1)
        <$> Py.enumerate 1 (ImageGenerator.content_slides data)).
Proof.
  unfold pages, create_presentation.
  pose proof (title_slide_no_page files image_reader stringWidth icons_dir
                data) as Hno.
  set (page := _create_title_slide _ _ _ _ data) in *.
  change (pages_go [] (page ++ ShowPage
                       :: (content_pages files image_reader stringWidth
                             icons_dir
                             (Py.enumerate 1 (ImageGenerator.content_slides data))
                           ++ [Save]))
          = page :: ((fun p : nat * ImageGenerator.slide_content =>
                        _create_content_slide files image_reader stringWidth
                          icons_dir p.2 p.1)
                     <$> Py.enumerate 1 (ImageGenerator.content_slides data))).
  rewrite pages_go_page by done.
  rewrite content_pages_pages. simpl. by rewrite app_nil_r.
Qed.

Lemma read_content_slides_as py items slides :
  Forall2 slide_as items slides -> read_content_slides py items = Ok slides.
Proof.
  induction 1 as [|item slide items slides (fields & -> & Ht & Hb) _ IH];
    [done|].
  cbn [read_content_slides]. unfold read_content_slide.
  cbn [Summarizer.py_getitem]. rewrite Ht, Hb. simpl. rewrite IH. simpl.
  do 2 f_equal. destruct slide as [t bs]. simpl. f_equal.
  rewrite <- list_fmap_compose. by rewrite <- (list_fmap_id bs) at 2.
Qed.

Lemma read_deck_as py data deck : deck_as data deck -> read_deck py data = Ok deck.
Proof.
  intros (fields & tf & slides & -> & Hts & Ht & Hs & Hc & Hall).
  unfold read_deck, read_title_slide. cbn [Summarizer.py_getitem].
  rewrite Hts. simpl. rewrite Ht, Hs. simpl. rewrite Hc. simpl.
  rewrite (read_content_slides_as py slides _ Hall). simpl.
  by destruct deck.
Qed.

(** X25. [create_pdf_slides] raises FileNotFoundError without a slides file.
    On a deck as the schema has it (title and subtitle strings; every
    content slide with a string as title and a list of strings as bullets)
    it saves the canvas as its last call, with one page per slide in slide
    order: page 0 is the title slide and page [k] is content slide [k]
    (counted from 1), so [n] content slides give [n + 1] pages.  On a deck
    whose title slide has no title (the summarizer passes on whatever object
    the AI answered) it raises KeyError, and nothing is saved. *)
Theorem create_pdf_slides_pages py slides_json files image_reader stringWidth
    icons_dir :
  let run :=
    create_pdf_slides py slides_json files image_reader stringWidth icons_dir in
  (slides_json = None -> run = Raise FileNotFoundError)
  /\ (forall data deck, slides_json = Some data -> deck_as data deck ->
      exists ops,
        run = Ok ops
        /\ last ops = Some Save
        /\ length (pages ops) = S (length (ImageGenerator.content_slides deck))
        /\ pages ops !! 0
           = Some (_create_title_slide files image_reader stringWidth
                     icons_dir deck)
        /\ forall k slide_data,
             ImageGenerator.content_slides deck !! k = Some slide_data ->
             pages ops !! (S k)
             = Some (_create_content_slide files image_reader stringWidth
                       icons_dir slide_data (S k)))
  /\ (forall fields title_fields,
      slides_json = Some (Summarizer.JObj fields) ->
      Summarizer.lookup_field "title_slide" fields
      = Some (Summarizer.JObj title_fields) ->
      Summarizer.lookup_field "title" title_fields = None ->
      run = Raise KeyError).
Proof.
  intros run. unfold run. split; [by intros ->|]. split.
  - intros data deck -> Hdeck. unfold create_pdf_slides.
    rewrite (read_deck_as py data deck Hdeck). simpl.
    eexists. split; [reflexivity|].
    pose proof (create_presentation_pages files image_reader stringWidth
                  icons_dir deck) as Hpages.
    split; [|rewrite Hpages; split; [|split]].
    + unfold create_presentation. rewrite !app_assoc. apply last_snoc.
    + simpl. by rewrite length_fmap, VideoCreatorFacts.enumerate_length.
    + done.
    + intros k sd Hk. simpl.
      by rewrite list_lookup_fmap, VideoCreatorFacts.enumerate_lookup, Hk.
  - intros fields tf -> Hts Ht. unfold create_pdf_slides, read_deck,
      read_title_slide. cbn [Summarizer.py_getitem]. rewrite Hts. simpl.
    by rewrite Ht.
Qed.

End DeckPages.

(* --------------------------------------------------------------------- *)
(** ** Icon queries: their shape *)
(* --------------------------------------------------------------------- *)

Module QueryShape.
Import Gemini ImageGenerator.

Lemma append_nil_r s : s +:+ EmptyString = s.
Proof. induction s as [|c s IH]; [done|]. by rewrite PdfSlideCreatorFacts.append_cons, IH. Qed.

Lemma rev_onto_rev_onto a : forall b c,
  Py.rev_onto (Py.rev_onto a b) c = Py.rev_onto b (a +:+ c).
Proof.
  induction a as [|x a IH]; intros b c; [done|].
  cbn [Py.rev_onto]. by rewrite IH.
Qed.

Lemma rev_rev s : Py.rev (Py.rev s) = s.
Proof. unfold Py.rev. rewrite rev_onto_rev_onto. simpl. apply append_nil_r. Qed.

Lemma split_ws_go_word w : forall cur s,
  Py.has_space w = false ->
  Py.split_ws_go cur (w +:+ s) = Py.split_ws_go (Py.rev_onto w cur) s.
Proof.
  induction w as [|c w IH]; intros cur s Hw; [done|].
  simpl in Hw. apply orb_false_iff in Hw as [Hc Hw].
  rewrite PdfSlideCreatorFacts.append_cons. cbn [Py.split_ws_go Py.rev_onto].
  rewrite Hc. by apply IH.
Qed.

(** A word on its own stays one word. *)
Lemma split_ws_word w :
  Py.has_space w = false -> w <> EmptyString -> Py.split_ws w = [w].
Proof.
  intros Hs Hne. unfold Py.split_ws.
  rewrite <- (append_nil_r w) at 1. rewrite split_ws_go_word by done.
  cbn [Py.split_ws_go].
  pose proof (rev_rev w) as Hrr. unfold Py.rev at 2 in Hrr.
  destruct (Py.rev_onto w EmptyString) eqn:Hr; [|by rewrite Hrr].
  destruct w; [done|]. simpl in Hr.
  by apply PdfSlideCreatorFacts.rev_onto_nonempty in Hr.
Qed.

(** Splitting what was joined by single spaces gives the words back. *)
Lemma split_ws_join words :
  Forall (fun w => Py.has_space w = false /\ w <> EmptyString) words ->
  Py.split_ws (Py.join " " words) = words.
Proof.
  induction 1 as [|w rest [Hs Hne] Hrest IH]; [done|].
  destruct rest as [|w2 rest]; [by apply split_ws_word|].
  rewrite PdfSlideCreatorFacts.join_cons2. unfold Py.split_ws in *.
  rewrite split_ws_go_word by done.
  rewrite PdfSlideCreatorFacts.append_cons. cbn [Py.split_ws_go].
  change (Py.isspace " ") with true. cbv iota.
  change (EmptyString +:+ ?x) with x. rewrite IH.
  pose proof (rev_rev w) as Hrr. unfold Py.rev at 2 in Hrr.
  destruct (Py.rev_onto w EmptyString) eqn:Hr; [|by rewrite Hrr].
  destruct w; [done|]. simpl in Hr.
  by apply PdfSlideCreatorFacts.rev_onto_nonempty in Hr.
Qed.

Lemma split_ws_words text :
  Forall (fun w => Py.has_space w = false /\ w <> EmptyString)
    (Py.split_ws text).
Proof.
  apply Forall_forall. intros w Hw. split.
  - by apply (PyFacts.split_ws_go_words text EmptyString).
  - apply PdfSlideCreatorFacts.split_ws_go_nonempty in Hw. by destruct w.
Qed.

(** A query is in shape when it is made of at most three words separated
    by single spaces, without white space around them. *)
Lemma clean_query_shape answer :
  length (Py.split_ws (clean_query answer)) <= 3
  /\ clean_query answer = Py.join " " (Py.split_ws (clean_query answer)).
Proof.
  unfold clean_query.
  set (words := Py.split_ws (Py.lower _)).
  assert (Hw : Forall (fun w => Py.has_space w = false /\ w <> EmptyString)
                 (take 3 words)).
  { apply Forall_take, split_ws_words. }
  rewrite (split_ws_join _ Hw). split; [rewrite length_take; lia | done].
Qed.

Lemma has_space_lstrip_by p s :
  Py.has_space s = false -> Py.has_space (Py.lstrip_by p s) = false.
Proof.
  induction s as [|c s IH]; [done|]. cbn [Py.lstrip_by].
  destruct (p c); [|done]. simpl. intros [_ Hs]%orb_false_iff. by apply IH.
Qed.

Lemma has_space_strip_by p s :
  Py.has_space s = false -> Py.has_space (Py.strip_by p s) = false.
Proof.
  intros Hs. unfold Py.strip_by, Py.rev.
  rewrite PyFacts.has_space_rev_onto, orb_false_r.
  apply has_space_lstrip_by.
  rewrite PyFacts.has_space_rev_onto, orb_false_r.
  by apply has_space_lstrip_by.
Qed.

Lemma important_words_word title w :
  w ∈ important_words title -> Py.split_ws w = [w].
Proof.
  unfold important_words. intros [Hp Hin]%list_elem_of_filter.
  apply andb_true_iff in Hp as [_ Hlen%Nat.ltb_lt].
  apply list_elem_of_fmap in Hin as (w0 & -> & Hw0).
  apply split_ws_word.
  - apply has_space_strip_by.
    by apply (PyFacts.split_ws_go_words (Py.lower title) EmptyString).
  - intros Heq. rewrite Heq in Hlen. simpl in Hlen. lia.
Qed.

Lemma fallback_query_one_word title :
  Py.split_ws (_fallback_query title) = [_fallback_query title].
Proof.
  unfold _fallback_query.
  destruct (important_words title) as [|w ws] eqn:Hw; [done|].
  apply (important_words_word title). rewrite Hw. by left.
Qed.

Lemma extract_alternative_one_word title avoid :
  Py.split_ws (_extract_alternative_from_title title avoid)
  = [_extract_alternative_from_title title avoid].
Proof.
  unfold _extract_alternative_from_title.
  destruct (List.find _ (important_words title)) as [w|] eqn:Hf.
  - apply find_some in Hf as [Hin _].
    apply (important_words_word title). by apply list_elem_of_In.
  - destruct (List.find _ generic_fallbacks) as [g|] eqn:Hg; [|done].
    apply find_some in Hg as [Hin _]. apply list_elem_of_In in Hin.
    unfold generic_fallbacks in Hin.
    repeat (apply elem_of_cons in Hin as [->|Hin]; [done|]).
    by apply elem_of_nil in Hin.
Qed.

(** X26. Whatever the AI service answers, the query the two generators
    return is made of at most three words separated by single spaces, with
    no white space before, after or doubled between them (the query equals
    its words joined by single spaces).  It may have no word at all: the
    text of the answer is not checked for being empty. *)
Theorem generated_queries_shape svc slide_title bullets failed_queries gen :
  let shaped q :=
    length (Py.split_ws q) <= 3 /\ q = Py.join " " (Py.split_ws q) in
  shaped (generate_icon_query svc slide_title bullets gen).1
  /\ shaped (generate_alternative_query svc slide_title bullets failed_queries
               gen).1
  /\ exists answer, clean_query answer = EmptyString.
Proof.
  intros shaped.
  assert (Hone : forall q, Py.split_ws q = [q] -> shaped q).
  { intros q Hq. unfold shaped. rewrite Hq. simpl. split; [lia | done]. }
  split; [|split].
  - unfold generate_icon_query.
    destruct (_call_gemini _ _ gen) as [[[answer|]|e] gen']; simpl.
    + apply clean_query_shape.
    + apply Hone, fallback_query_one_word.
    + apply Hone, fallback_query_one_word.
  - unfold generate_alternative_query.
    destruct (_call_gemini _ _ gen) as [[[answer|]|e] gen']; simpl.
    + destruct (Py.mem _ failed_queries); simpl.
      * apply Hone, extract_alternative_one_word.
      * apply clean_query_shape.
    + apply Hone, extract_alternative_one_word.
    + apply Hone, extract_alternative_one_word.
  - by exists " ".
Qed.

End QueryShape.

(* --------------------------------------------------------------------- *)
(** ** Video assembler: a first run, from the deck to the clips *)
(* --------------------------------------------------------------------- *)

Module FreshRun.
Import VideoCreator.

Lemma length_append a b :
  String.length (a +:+ b) = String.length a + String.length b.
Proof.
  induction a as [|c a IH]; [done|].
  rewrite PdfSlideCreatorFacts.append_cons. simpl. by rewrite IH.
Qed.

Lemma rev_onto_acc b : forall c,
  Py.rev_onto b c = Py.rev_onto b EmptyString +:+ c.
Proof.
  induction b as [|x b IH]; intros c; [done|]. cbn [Py.rev_onto].
  rewrite (IH (String x c)), (IH (String x EmptyString)).
  by rewrite PdfSlideCreatorFacts.append_assoc.
Qed.

Lemma rev_onto_append a : forall b c,
  Py.rev_onto (a +:+ b) c = Py.rev_onto b (Py.rev_onto a c).
Proof.
  induction a as [|x a IH]; intros b c; [done|].
  rewrite PdfSlideCreatorFacts.append_cons. cbn [Py.rev_onto]. apply IH.
Qed.

Lemma rev_append a b : Py.rev (a +:+ b) = Py.rev b +:+ Py.rev a.
Proof. unfold Py.rev. by rewrite rev_onto_append, rev_onto_acc. Qed.

Lemma startswith_append a : forall b c,
  Py.startswith (a +:+ b) (a +:+ c) = Py.startswith b c.
Proof.
  induction a as [|x a IH]; intros b c; [done|].
  rewrite !PdfSlideCreatorFacts.append_cons. cbn [Py.startswith].
  by rewrite Ascii.eqb_refl, IH.
Qed.

Lemma startswith_prefix p : forall s t,
  Py.startswith p s = true -> Py.startswith p (s +:+ t) = true.
Proof.
  induction p as [|x p IH]; intros [|y s] t; try done.
  cbn [Py.startswith]. rewrite PdfSlideCreatorFacts.append_cons. cbn [Py.startswith].
  intros [-> Hp]%andb_true_iff. by rewrite IH.
Qed.

Lemma suffix_from_append a : forall k s,
  Py.suffix_from (String.length a + k) (a +:+ s) = Py.suffix_from k s.
Proof. induction a as [|x a IH]; intros k s; [done | apply IH]. Qed.

Lemma length_suffix_from s : forall k,
  String.length (Py.suffix_from k s) = String.length s - k.
Proof.
  induction s as [|c s IH]; intros [|k]; simpl; try done.
Qed.

(** A suffix that is long enough keeps the ending. *)
Lemma suffix_from_ending t p : forall k,
  String.length t <= String.length (Py.suffix_from k (p +:+ t)) ->
  exists p', Py.suffix_from k (p +:+ t) = p' +:+ t.
Proof.
  induction p as [|c p IH]; intros k Hlen.
  - destruct k as [|k]; [by exists EmptyString|].
    change (EmptyString +:+ t) with t in *.
    rewrite length_suffix_from in Hlen.
    destruct t as [|c t]; [by exists EmptyString|]. simpl in Hlen. lia.
  - destruct k as [|k]; [by exists (String c p)|].
    rewrite PdfSlideCreatorFacts.append_cons in *. cbn [Py.suffix_from] in *. by apply IH.
Qed.

Lemma endswith_append t p : Py.endswith t (p +:+ t) = true.
Proof.
  unfold Py.endswith. rewrite rev_append.
  rewrite <- (QueryShape.append_nil_r (Py.rev t)) at 1.
  by rewrite startswith_append.
Qed.

Lemma endswith_png_mp3 p : Py.endswith ".mp3" (p +:+ ".png") = false.
Proof. unfold Py.endswith. by rewrite rev_append. Qed.

Lemma png_not_mp3 a b : a +:+ ".png" <> b +:+ ".mp3".
Proof.
  intros H. pose proof (endswith_append ".mp3" b) as Hb.
  rewrite <- H in Hb. by rewrite endswith_png_mp3 in Hb.
Qed.

(** Decimal digits are no slashes. *)
Lemma contains_slash_dec_go fuel : forall n acc,
  Py.contains "/" (Py.dec_go fuel n acc) = Py.contains "/" acc.
Proof.
  assert (Hd : forall d acc, d < 10 ->
            Py.contains "/" (String (ascii_of_nat (48 + d)) acc)
            = Py.contains "/" acc).
  { intros d acc Hd. do 10 (destruct d as [|d]; [done|]). lia. }
  induction fuel as [|f IH]; intros n acc; [done|]. cbn [Py.dec_go].
  pose proof (Nat.mod_upper_bound n 10 ltac:(lia)) as Hm.
  destruct (n / 10 =? 0); [by apply Hd|]. rewrite IH. by apply Hd.
Qed.

Lemma contains_slash_fmt_02d n t :
  Py.contains "/" (Py.fmt_02d n +:+ t) = Py.contains "/" t.
Proof.
  unfold Py.fmt_02d, Py.str_of_nat.
  assert (H : Py.contains "/" (Py.dec_go (S n) n EmptyString +:+ t)
              = Py.contains "/" t).
  { by rewrite VideoCreatorFacts.dec_go_append, contains_slash_dec_go. }
  destruct (_ <? 2); [|exact H].
  change (("0" +:+ ?x) +:+ t) with (String "0" (x +:+ t)).
  cbn [Py.contains Py.startswith]. exact H.
Qed.

Lemma length_dec_go fuel : forall m acc,
  String.length acc <= String.length (Py.dec_go fuel m acc).
Proof.
  induction fuel as [|f IH]; intros m acc; [done|]. cbn [Py.dec_go].
  destruct (m / 10 =? 0); [cbn [String.length]; lia|].
  etrans; [|apply IH]. cbn [String.length]. lia.
Qed.

Lemma length_fmt_02d n : 2 <= String.length (Py.fmt_02d n).
Proof.
  unfold Py.fmt_02d. destruct (_ <? 2) eqn:Hl; [|by apply Nat.ltb_ge in Hl].
  rewrite length_append. unfold Py.str_of_nat. cbn [Py.dec_go].
  destruct (n / 10 =? 0); [done|].
  etrans; [|apply Nat.add_le_mono_l, length_dec_go]. done.
Qed.

Lemma startswith_self p : forall x, Py.startswith p (p +:+ x) = true.
Proof.
  induction p as [|c p IH]; intros x; [done|].
  rewrite PdfSlideCreatorFacts.append_cons. cbn [Py.startswith].
  by rewrite Ascii.eqb_refl, IH.
Qed.

Lemma contains_slash_append a : forall b,
  Py.contains "/" a = false ->
  Py.contains "/" (a +:+ b) = Py.contains "/" b.
Proof.
  induction a as [|c a IH]; intros b Ha; [done|].
  rewrite PdfSlideCreatorFacts.append_cons.
  cbn [Py.contains Py.startswith] in *.
  destruct (Ascii.eqb "/" c); [done|]. simpl in *. by apply IH.
Qed.

(** A file written by the stage is found again by the pattern of the
    stage. *)
Lemma glob_match_numbered dir prefix suffix n :
  Py.contains "/" prefix = false -> Py.contains "/" suffix = false ->
  glob_match dir prefix suffix
    (Py.dir_prefix dir +:+ prefix +:+ Py.fmt_02d n +:+ suffix) = true.
Proof.
  intros Hp Hs. unfold glob_match.
  set (base := Py.dir_prefix dir).
  set (tail := prefix +:+ Py.fmt_02d n +:+ suffix).
  assert (Hname : Py.suffix_from (String.length base) (base +:+ tail) = tail).
  { rewrite <- (Nat.add_0_r (String.length base)).
    by rewrite suffix_from_append. }
  assert (Hrest : Py.suffix_from (String.length prefix) tail
                  = Py.fmt_02d n +:+ suffix).
  { unfold tail.
    rewrite <- (Nat.add_0_r (String.length prefix)).
    by rewrite suffix_from_append. }
  assert (Hstart : Py.startswith (base +:+ prefix) (base +:+ tail) = true).
  { rewrite startswith_append. unfold tail. by rewrite startswith_self. }
  rewrite Hname, Hrest, Hstart, endswith_append.
  assert (Hlen : (String.length suffix
                  <=? String.length tail - String.length prefix) = true).
  { apply Nat.leb_le. unfold tail. rewrite !length_append. lia. }
  rewrite Hlen. unfold tail.
  by rewrite contains_slash_append, contains_slash_fmt_02d, Hs.
Qed.

Lemma suffix_from_suffix_from s : forall a b,
  Py.suffix_from a (Py.suffix_from b s) = Py.suffix_from (b + a) s.
Proof.
  induction s as [|c s IH]; intros a b.
  - by destruct a, b.
  - destruct b as [|b]; [done|]. cbn [Py.suffix_from Nat.add]. apply IH.
Qed.

(** A file ending in .png is no match for a pattern ending in .mp3. *)
Lemma glob_match_png_mp3 dir prefix p :
  glob_match dir prefix ".mp3" (p +:+ ".png") = false.
Proof.
  unfold glob_match. rewrite suffix_from_suffix_from.
  set (k := String.length (Py.dir_prefix dir) + String.length prefix).
  destruct (String.length ".mp3"
            <=? String.length (Py.suffix_from (String.length (Py.dir_prefix dir))
                                 (p +:+ ".png"))
                - String.length prefix) eqn:Hlen;
    [|by rewrite andb_false_r].
  apply Nat.leb_le in Hlen. rewrite length_suffix_from in Hlen.
  destruct (suffix_from_ending ".png" p k) as [p' ->].
  { rewrite length_suffix_from. simpl String.length in *. lia. }
  rewrite endswith_png_mp3. by rewrite andb_false_r.
Qed.

Lemma image_path_png dir i :
  image_path dir i
  = ((Py.dir_prefix dir +:+ "slide_") +:+ Py.fmt_02d i) +:+ ".png".
Proof. unfold image_path. by rewrite !PdfSlideCreatorFacts.append_assoc. Qed.

Lemma audio_path_mp3 dir i :
  audio_path dir i
  = ((Py.dir_prefix dir +:+ "audio_") +:+ Py.fmt_02d i) +:+ ".mp3".
Proof. unfold audio_path. by rewrite !PdfSlideCreatorFacts.append_assoc. Qed.

Lemma image_not_audio images_dir audio_dir i j :
  image_path images_dir i <> audio_path audio_dir j.
Proof. rewrite image_path_png, audio_path_mp3. apply png_not_mp3. Qed.

Lemma glob_elem disk dir prefix suffix p :
  p ∈ glob disk dir prefix suffix
  <-> is_Some (disk !! p) /\ glob_match dir prefix suffix p = true.
Proof.
  unfold glob. rewrite list_elem_of_filter, list_elem_of_fmap. split.
  - intros [Hm ([k v] & -> & Hin%elem_of_map_to_list)]. split; [by eexists | done].
  - intros [[v Hv] Hm]. split; [done|]. exists (p, v).
    split; [done | by apply elem_of_map_to_list].
Qed.

Lemma glob_nil disk dir prefix suffix :
  glob disk dir prefix suffix = []
  <-> forall p, is_Some (disk !! p) -> glob_match dir prefix suffix p = false.
Proof.
  split.
  - intros Hnil p Hp. destruct (glob_match dir prefix suffix p) eqn:Hm; [|done].
    assert (Hin : p ∈ glob disk dir prefix suffix) by (by apply glob_elem).
    rewrite Hnil in Hin. by apply elem_of_nil in Hin.
  - intros Hno. destruct (glob disk dir prefix suffix) as [|p l] eqn:Hg; [done|].
    assert (Hin : p ∈ glob disk dir prefix suffix) by (rewrite Hg; by left).
    apply glob_elem in Hin as [Hp Hm]. rewrite Hno in Hm; done.
Qed.

Lemma convert_pdf_to_images_run pdf_path output_dir disk n :
  disk !! pdf_path = Some (Pdf n) ->
  exists disk1,
    convert_pdf_to_images pdf_path output_dir disk
    = (Ok (image_path output_dir <$> seq 0 n), disk1)
    /\ (forall i, i < n -> disk1 !! image_path output_dir i = Some (Png i))
    /\ (forall p, (forall i, i < n -> p <> image_path output_dir i) ->
        disk1 !! p = disk !! p).
Proof.
  intros Hpdf. unfold convert_pdf_to_images. rewrite Hpdf.
  pose proof (VideoCreatorFacts.save_pages_run output_dir (seq 0 n) [] disk
                (NoDup_seq 0 n)) as H.
  destruct (save_pages output_dir (seq 0 n) [] disk) as [paths disk1].
  simpl in H. destruct H as (-> & H2 & H3). exists disk1.
  split; [done|]. split.
  - intros i Hi. apply H2, elem_of_seq. lia.
  - intros p Hp. apply H3. intros i Hi%elem_of_seq. apply Hp. lia.
Qed.

Lemma generate_tts_audio_run tts path dir title_duration disk slides :
  disk !! path = Some (SlidesJson slides) ->
  (forall s, s ∈ slides -> is_Some (tts (narration_text s))) ->
  exists disk2,
    generate_tts_audio tts path dir title_duration disk
    = (Ok ((None, title_duration)
           :: ((fun p : nat * slide =>
                  (Some (audio_path dir p.1),
                   default 0%Q (tts (narration_text p.2))))
               <$> Py.enumerate 1 slides)), disk2)
    /\ (forall k s, slides !! k = Some s ->
        exists dur, disk2 !! audio_path dir (S k) = Some (Mp3 (narration_text s) dur))
    /\ (forall p, (forall k, k < length slides -> p <> audio_path dir (S k)) ->
        disk2 !! p = disk !! p).
Proof.
  intros Hfile Hok. unfold generate_tts_audio. rewrite Hfile.
  pose proof (VideoCreatorFacts.tts_loop_files tts dir slides 1
                [(None, title_duration)] disk) as (Hfiles & Hother & _ & _).
  destruct (VideoCreatorFacts.tts_loop_clips tts dir slides 1
              [(None, title_duration)] disk Hok) as [disk2 Hrun].
  rewrite Hrun in Hfiles, Hother. simpl in Hfiles, Hother.
  exists disk2. split; [done|]. split; [|done].
  intros k s Hs. destruct (Hfiles k s Hs) as (dur & _ & Hf); [|by exists dur].
  intros j s' _ Hs'. apply Hok. by eapply list_elem_of_lookup_2.
Qed.

Lemma zip_length {A B} (a : list A) : forall b : list B,
  length (Py.zip a b) = Nat.min (length a) (length b).
Proof.
  induction a as [|x a IH]; intros [|y b]; simpl; try done. by rewrite IH.
Qed.

(** X27. A first run of [create_video_complete]: neither slide images nor
    audio files exist yet, the deck has [n] pages, the slides file is in
    place and the speech service answers.  Then the video has as many clips
    as the smaller of [n] and the number of content slides plus one; clip 0
    shows page 0 in silence, and clip [k+1] shows page [k+1] while the
    narration of content slide [k] is heard. *)
Theorem create_video_complete_first_run tts pdf_path slides_json_path
    images_dir audio_dir disk n slides :
  glob disk images_dir "slide_" ".png" = [] ->
  glob disk audio_dir "audio_" ".mp3" = [] ->
  disk !! pdf_path = Some (Pdf n) ->
  disk !! slides_json_path = Some (SlidesJson slides) ->
  (forall s, s ∈ slides -> is_Some (tts (narration_text s))) ->
  exists shown,
    pairing (create_video_complete tts pdf_path slides_json_path images_dir
               audio_dir disk) = Some shown
    /\ length shown = Nat.min n (S (length slides))
    /\ (0 < n -> shown !! 0 = Some (Some 0, None))
    /\ forall k s, S k < n -> slides !! k = Some s ->
         shown !! (S k) = Some (Some (S k), Some (narration_text s)).
Proof.
  intros Himg Haud Hpdf Hjson Hok. unfold create_video_complete.
  rewrite Himg.
  destruct (convert_pdf_to_images_run pdf_path images_dir disk n Hpdf)
    as (disk1 & -> & Hpng & Hkeep1).
  (* the slides file is none of the images just written *)
  assert (Hjson1 : disk1 !! slides_json_path = Some (SlidesJson slides)).
  { rewrite Hkeep1; [done|]. intros i _ ->.
    pose proof (proj1 (glob_nil _ _ _ _) Himg (image_path images_dir i)
                  ltac:(by eexists)) as Hm.
    unfold image_path in Hm. by rewrite glob_match_numbered in Hm. }
  (* no audio file has appeared *)
  assert (Haud1 : glob disk1 audio_dir "audio_" ".mp3" = []).
  { apply glob_nil. intros p Hp.
    destruct (decide (p ∈ image_path images_dir <$> seq 0 n)) as [Hin|Hin].
    - apply list_elem_of_fmap in Hin as (i & -> & _).
      rewrite image_path_png. apply glob_match_png_mp3.
    - rewrite Hkeep1 in Hp.
      + by apply (proj1 (glob_nil _ _ _ _) Haud).
      + intros i Hi ->. apply Hin, list_elem_of_fmap. exists i.
        split; [done|]. apply elem_of_seq. lia. }
  rewrite Haud1.
  destruct (generate_tts_audio_run tts slides_json_path audio_dir
              default_title_duration disk1 slides Hjson1 Hok)
    as (disk2 & -> & Hmp3 & Hkeep2).
  assert (Hpng2 : forall i, i < n -> disk2 !! image_path images_dir i = Some (Png i)).
  { intros i Hi. rewrite Hkeep2; [by apply Hpng|].
    intros k _. apply image_not_audio. }
  set (clips := _ :: _).
  eexists. split; [reflexivity|]. cbn [fst snd].
  split; [|split].
  - rewrite length_fmap.
    unfold create_video. rewrite length_fmap, zip_length. unfold clips. simpl.
    by rewrite !length_fmap, length_seq, VideoCreatorFacts.enumerate_length.
  - intros Hn. rewrite list_lookup_fmap. unfold create_video.
    rewrite list_lookup_fmap.
    assert (Hz : Py.zip (image_path images_dir <$> seq 0 n) clips !! 0
                 = Some (image_path images_dir 0, (None, default_title_duration))).
    { apply VideoCreatorFacts.zip_lookup. split; [|done].
      rewrite list_lookup_fmap, lookup_seq_lt by done. done. }
    rewrite Hz. simpl. unfold shown_page, spoken_text. simpl.
    by rewrite (Hpng2 0 Hn).
  - intros k s Hk Hs. rewrite list_lookup_fmap. unfold create_video.
    rewrite list_lookup_fmap.
    destruct (Hmp3 k s Hs) as [dur Hdur].
    assert (Hz : Py.zip (image_path images_dir <$> seq 0 n) clips !! (S k)
                 = Some (image_path images_dir (S k),
                         (Some (audio_path audio_dir (S k)),
                          default 0%Q (tts (narration_text s))))).
    { apply VideoCreatorFacts.zip_lookup. split.
      - rewrite list_lookup_fmap, lookup_seq_lt by done. done.
      - unfold clips. simpl.
        by rewrite list_lookup_fmap, VideoCreatorFacts.enumerate_lookup, Hs. }
    rewrite Hz. simpl. unfold shown_page, spoken_text. simpl.
    rewrite (Hpng2 (S k) Hk).
    rewrite bool_decide_eq_true_2 by (by eexists). simpl. by rewrite Hdur.
Qed.

Lemma create_video_complete_first_run_witness :
  exists shown,
    pairing (Samples.run_video Samples.fresh_disk) = Some shown
    /\ length shown = 3
    /\ shown !! 0 = Some (Some 0, None)
    /\ shown !! 1 = Some (Some 1, Some "Layers are stacked.").
Proof.
  destruct (create_video_complete_first_run Samples.steady_voice
              "output/slides.pdf" "output/intermediate/slides.json"
              "output/intermediate/slide_images" "output/intermediate/audio"
              Samples.fresh_disk 3 Samples.two_slides)
    as (shown & Hrun & Hlen & Hfirst & Hrest).
  - vm_compute. reflexivity.
  - vm_compute. reflexivity.
  - vm_compute. reflexivity.
  - vm_compute. reflexivity.
  - intros s _. unfold Samples.steady_voice. eauto.
  - exists shown. split; [exact Hrun|]. split; [exact Hlen|].
    split; [apply Hfirst; lia|].
    exact (Hrest 0 (Slide "Layers" (Some ["Stacked"; "Trained end to end"])
                      (Some "Layers are stacked."))
             ltac:(lia) eq_refl).
Defined.

End FreshRun.

(* --------------------------------------------------------------------- *)
(** ** From the icon stage to the deck *)
(* --------------------------------------------------------------------- *)

Module IconsOnPages.
Import Gemini ImageGenerator.

Lemma icon_for_files net svc key path title bullets paths gen w :
  let out := icon_for net svc key path title bullets paths gen w in
  (forall p, is_Some (files w !! p) -> is_Some (files out.2 !! p))
  /\ (forall k p, out.1.1 !! k = Some p ->
      paths !! k = Some p \/ (p = path /\ is_Some (files out.2 !! path))).
Proof.
  unfold icon_for.
  destruct (generate_icon_query svc title bullets gen) as [query gen1].
  pose proof (IconResolver.search_and_download_touches net svc query path 1
                (Some gen1) (Some title) (Some bullets) w) as Hf.
  destruct (search_and_download _ _ _ _ _ _ _ _ _) as [[success w1] gen2].
  simpl in Hf. simpl. destruct success.
  - destruct Hf as [content Hf]. rewrite Hf. split.
    + intros p Hp. destruct (decide (path = p)) as [<-|Hne].
      * rewrite lookup_insert_eq. by eexists.
      * by rewrite lookup_insert_ne.
    + intros k p. destruct (decide (key = k)) as [<-|Hne].
      * rewrite !lookup_insert_eq. intros [= <-]. right.
        split; [done | by eexists].
      * rewrite lookup_insert_ne by done. by left.
  - rewrite Hf. split; [done | by left].
Qed.

Lemma icons_loop_files net svc dir : forall slides paths gen w,
  (forall k p, paths !! k = Some p -> is_Some (files w !! p)) ->
  let out := icons_loop net svc dir slides paths gen w in
  forall k p, out.1.1 !! k = Some p -> is_Some (files out.2 !! p).
Proof.
  induction slides as [|[i slide] slides IH]; intros paths gen w Hinv;
    cbn [icons_loop]; [done|].
  pose proof (icon_for_files net svc ("slide_" +:+ Py.str_of_nat i)
                (icon_path dir i) (slide_title slide) (slide_bullets slide)
                paths gen w) as [Hkeep Hnew].
  destruct (icon_for _ _ _ _ _ _ _ _ _) as [[paths' gen'] w1].
  simpl in Hkeep, Hnew. apply IH. intros k p Hk.
  destruct (Hnew k p Hk) as [Hold | [-> Hthere]]; [|done].
  by apply Hkeep, (Hinv k).
Qed.

Lemma generate_icons_files net svc keys data dir w paths w' :
  generate_icons_for_slides net svc keys (Some data) dir w = (Ok paths, w') ->
  forall key path, paths !! key = Some path -> is_Some (files w' !! path).
Proof.
  unfold generate_icons_for_slides.
  pose proof (icon_for_files net svc "title" (title_icon_path dir)
                (title_of_deck data) [subtitle_of_deck data] ∅ (init keys) w)
    as [_ Hnew].
  destruct (icon_for _ _ _ _ _ _ _ _ _) as [[paths0 gen1] w1]. simpl in Hnew.
  pose proof (icons_loop_files net svc dir
                (Py.enumerate 1 (content_slides data)) paths0 gen1 w1) as Hloop.
  destruct (icons_loop _ _ _ _ _ _ _) as [[paths1 gen2] w2]. simpl in Hloop.
  intros [= <- <-]. apply Hloop. intros k p Hk.
  destruct (Hnew k p Hk) as [Hold | [-> Hthere]]; [|done].
  by apply lookup_empty_Some in Hold.
Qed.

(** X28. Every path in the dictionary [generate_icons_for_slides] returns
    names a file that exists when the function returns: an entry is only
    made after a download was saved, and no later step removes a file. *)
Theorem icon_dictionary_files_exist net svc keys data dir w paths w' :
  generate_icons_for_slides net svc keys (Some data) dir w = (Ok paths, w') ->
  forall key path, paths !! key = Some path -> is_Some (files w' !! path).
Proof. apply generate_icons_files. Qed.

Lemma icon_dictionary_files_exist_witness :
  exists paths w',
    generate_icons_for_slides Samples.only_neural Samples.service_down
      Samples.c7_keys (Some Samples.one_slide_deck) "images" Samples.empty_world
    = (Ok paths, w')
    /\ is_Some (files w' !! "images/slide_01.png").
Proof.
  destruct (generate_icons_for_slides Samples.only_neural Samples.service_down
              Samples.c7_keys (Some Samples.one_slide_deck) "images"
              Samples.empty_world) as [r w'] eqn:Hrun.
  assert (Hok : exists paths, r = Ok paths
                  /\ paths !! "slide_1" = Some "images/slide_01.png").
  { vm_compute in Hrun. injection Hrun as <- _.
    eexists. split; [reflexivity|]. vm_compute. reflexivity. }
  destruct Hok as (paths & -> & Hp).
  exists paths, w'. split; [done|].
  exact (icon_dictionary_files_exist _ _ _ _ _ _ _ _ Hrun "slide_1" _ Hp).
Defined.

Lemma draw_icon_drawn fs image_reader path x y w h content :
  fs !! path = Some content -> image_reader content = true ->
  PdfPages.DrawImage path x y w h ∈ PdfPages.draw_icon fs image_reader path x y w h.
Proof.
  intros Hf Hr. unfold PdfPages.draw_icon. rewrite Hf, Hr. by left.
Qed.

(** X29. The icon stage and the deck renderer agree on the files: when every
    file read is a readable image, each icon of the dictionary returned by
    [generate_icons_for_slides] is drawn by [create_presentation] on the
    page of its slide, the icon under "title" on page 0 and the icon under
    slide_[k] on page [k]. *)
Theorem icons_reach_their_pages net svc keys data dir w paths w'
    image_reader stringWidth :
  generate_icons_for_slides net svc keys (Some data) dir w = (Ok paths, w') ->
  (forall content, image_reader content = true) ->
  forall key path, paths !! key = Some path ->
    exists k page x y size,
      PdfPages.pages (PdfPages.create_presentation (files w') image_reader
                        stringWidth dir data) !! k = Some page
      /\ PdfPages.DrawImage path x y size size ∈ page
      /\ ((key = "title" /\ k = 0)
          \/ (key = "slide_" +:+ Py.str_of_nat k /\ 1 <= k)).
Proof.
  intros Hrun Hread key path Hkey.
  destruct (generate_icons_files _ _ _ _ _ _ _ _ Hrun key path Hkey)
    as [content Hfile].
  rewrite DeckPages.create_presentation_pages.
  destruct (ImageGeneratorFacts.generate_icons_for_slides_entries
              _ _ _ _ _ _ _ _ Hrun key path Hkey)
    as [[-> ->] | (i & [Hi1 Hi2] & -> & ->)].
  - exists 0. eexists _, _, _, _. split; [reflexivity|]. split; [|by left].
    unfold PdfPages._create_title_slide.
    destruct (PdfPages.draw_centered _ _ _ _ _ 290) as [title_ops y].
    apply elem_of_app. right. apply elem_of_app. left.
    by eapply draw_icon_drawn.
  - destruct i as [|i]; [lia|].
    destruct (lookup_lt_is_Some_2 (content_slides data) i ltac:(lia))
      as [slide_data Hsd].
    exists (S i). eexists _, _, _, _. split; [|split; [|right; split; [done|lia]]].
    + simpl. rewrite list_lookup_fmap, VideoCreatorFacts.enumerate_lookup, Hsd.
      reflexivity.
    + simpl. unfold PdfPages._create_content_slide.
      apply elem_of_app. right. apply elem_of_app. left.
      change (Py.dir_prefix dir +:+ "slide_" +:+ Py.fmt_02d (S i) +:+ ".png")
        with (icon_path dir (S i)).
      rewrite bool_decide_eq_true_2 by (by eexists).
      apply elem_of_app. right. by eapply draw_icon_drawn.
Qed.

Lemma icons_reach_their_pages_witness :
  exists paths w' page x y size,
    generate_icons_for_slides Samples.only_neural Samples.service_down
      Samples.c7_keys (Some Samples.one_slide_deck) "images" Samples.empty_world
    = (Ok paths, w')
    /\ PdfPages.pages
         (PdfPages.create_presentation (files w') (fun _ => true)
            PdfSlideCreator.fixed_pitch "images" Samples.one_slide_deck) !! 1
       = Some page
    /\ PdfPages.DrawImage "images/slide_01.png" x y size size ∈ page.
Proof.
  destruct (generate_icons_for_slides Samples.only_neural Samples.service_down
              Samples.c7_keys (Some Samples.one_slide_deck) "images"
              Samples.empty_world) as [r w'] eqn:Hrun.
  assert (Hok : exists paths, r = Ok paths
                  /\ paths !! "slide_1" = Some "images/slide_01.png").
  { vm_compute in Hrun. injection Hrun as <- _.
    eexists. split; [reflexivity|]. vm_compute. reflexivity. }
  destruct Hok as (paths & -> & Hp).
  destruct (icons_reach_their_pages _ _ _ _ _ _ _ _ (fun _ => true)
              PdfSlideCreator.fixed_pitch Hrun ltac:(done) "slide_1" _ Hp)
    as (k & page & x & y & size & Hpage & Hin & [[Hk _] | [Hk Hpos]]);
    [discriminate Hk|].
  assert (k = 1) as ->.
  { destruct k as [|[|k]]; [lia | done |].
    exfalso. apply lookup_lt_Some in Hpage.
    rewrite DeckPages.create_presentation_pages in Hpage.
    simpl in Hpage. lia. }
  exists paths, w', page, x, y, size. done.
Defined.

End IconsOnPages.

(* --------------------------------------------------------------------- *)
(** ** Deck renderer: the title slide *)
(* --------------------------------------------------------------------- *)

Module TitlePage.
Import PdfSlideCreator PdfPages.

Lemma wrap_words_join width max_width words :
  Forall (fun w => nonempty w = true) words ->
  Py.join " " (wrap_words width max_width words) = Py.join " " words.
Proof.
  intros Hw. unfold wrap_words.
  pose proof (PdfSlideCreatorFacts.wrap_loop_join width max_width words [] EmptyString Hw)
    as H.
  destruct (wrap_loop width max_width words [] EmptyString) as [lines cur].
  destruct H as [Hj _]; [constructor | by right|].
  exact Hj.
Qed.

Lemma wrap_words_split_join width max_width text :
  Py.join " " (wrap_words width max_width (Py.split_ws text))
  = Py.join " " (Py.split_ws text).
Proof.
  apply wrap_words_join, Forall_forall. intros w Hw.
  by eapply PdfSlideCreatorFacts.split_ws_go_nonempty.
Qed.

Lemma draw_centered_run stringWidth font size spacing lines : forall y,
  let out := draw_centered stringWidth font size spacing lines y in
  texts out.1 = lines
  /\ out.2 = (y - spacing * Z.of_nat (length lines))%Z
  /\ forall j line, lines !! j = Some line ->
       DrawString ((inject_Z width - stringWidth line font size) / 2)
         (inject_Z (y - spacing * Z.of_nat j)) line ∈ out.1.
Proof.
  induction lines as [|l rest IH]; intros y; cbn [draw_centered].
  - simpl. split; [done|]. split; [lia|]. by intros j line; rewrite lookup_nil.
  - destruct (IH (y - spacing)%Z) as (Ht & Hy & Hin).
    destruct (draw_centered stringWidth font size spacing rest (y - spacing))
      as [ops y']. simpl in Ht, Hy, Hin. cbn [fst snd].
    split; [by rewrite DeckPages.texts_draw, Ht|].
    split; [simpl length; lia|].
    intros [|j] line Hl.
    + injection Hl as <-. replace (y - spacing * Z.of_nat 0)%Z with y by lia.
      by left.
    + right. specialize (Hin j line Hl).
      by replace (y - spacing * Z.of_nat (S j))%Z
        with (y - spacing - spacing * Z.of_nat j)%Z by lia.
Qed.

(** X30. The title slide, unlike a content slide, shows all of its text and
    does not stop at the page border: the text drawn is every line of the
    wrapped title followed by every line of the wrapped subtitle, no word of
    either is lost, each line is centred on the 720 point page, title line
    [j] stands at height 290 - 48 j and subtitle line [j] at
    230 - 48 t - 30 j, where [t] is the number of title lines. *)
Theorem title_slide_texts files image_reader stringWidth icons_dir data :
  let ops := _create_title_slide files image_reader stringWidth icons_dir data in
  let title := ImageGenerator.title_of_deck data in
  let subtitle := ImageGenerator.subtitle_of_deck data in
  let title_lines :=
    wrap_words (fun s => stringWidth s "Helvetica-Bold" 38%Z) (inject_Z 600)
      (Py.split_ws title) in
  let subtitle_lines :=
    wrap_words (fun s => stringWidth s "Helvetica-Bold" 22%Z) (inject_Z 560)
      (Py.split_ws subtitle) in
  texts ops = title_lines ++ subtitle_lines
  /\ Py.join " " title_lines = Py.join " " (Py.split_ws title)
  /\ Py.join " " subtitle_lines = Py.join " " (Py.split_ws subtitle)
  /\ (forall j line, title_lines !! j = Some line ->
      DrawString ((inject_Z 720 - stringWidth line "Helvetica-Bold" 38%Z) / 2)
        (inject_Z (290 - 48 * Z.of_nat j)) line ∈ ops)
  /\ (forall j line, subtitle_lines !! j = Some line ->
      DrawString ((inject_Z 720 - stringWidth line "Helvetica-Bold" 22%Z) / 2)
        (inject_Z (230 - 48 * Z.of_nat (length title_lines) - 30 * Z.of_nat j))
        line ∈ ops).
Proof.
  intros ops title subtitle title_lines subtitle_lines.
  split; [|split; [apply wrap_words_split_join
                  |split; [apply wrap_words_split_join|]]];
    unfold ops, _create_title_slide;
    change (width - 120)%Z with 600%Z; change (width - 160)%Z with 560%Z;
    fold title subtitle; fold title_lines; fold subtitle_lines;
    pose proof (draw_centered_run stringWidth "Helvetica-Bold" 38 48
                  title_lines 290) as (Ht1 & Hy1 & Hin1);
    destruct (draw_centered stringWidth "Helvetica-Bold" 38 48 title_lines 290)
      as [title_ops y]; cbn [fst snd] in Ht1, Hy1, Hin1;
    pose proof (draw_centered_run stringWidth "Helvetica-Bold" 22 30
                  subtitle_lines (y - 60)) as (Ht2 & _ & Hin2);
    set (subtitle_ops := (draw_centered stringWidth "Helvetica-Bold" 22 30
                            subtitle_lines (y - 60)).1) in *.
  - rewrite !DeckPages.texts_app, DeckPages.texts_draw_icon, Ht1, Ht2. done.
  - split.
    + intros j line Hl. rewrite !elem_of_app. do 3 right. left.
      by apply Hin1.
    + intros j line Hl. rewrite !elem_of_app. do 5 right.
      specialize (Hin2 j line Hl).
      by replace (230 - 48 * Z.of_nat (length title_lines) - 30 * Z.of_nat j)%Z
        with (y - 60 - 30 * Z.of_nat j)%Z by lia.
Qed.

End TitlePage.
